(** * Fiber isolation over the async resource graph

    A shallow embedding of [asyncResourceGraph.ts] and of
    [promiseWithReject] and the constructor of [StackFrame] from [utils.ts].

    JavaScript objects live in heaps indexed by addresses, one heap per
    class, so that reference equality ([===] on objects) is equality of
    addresses and mutation through an alias is visible to every holder of
    the reference.  Code runs in a state monad with exceptions; loops whose
    termination depends on the shape of the heap take a fuel argument. *)

From stdpp Require Import gmap strings list fin_maps.
From Stdlib Require Import ZArith Lia.

(** ** Addresses *)

(** Addresses of [AsyncResourceNode], [AsyncResourceFiber],
    [AsyncResourceObserver] objects, of the closure environment of one
    [fiberWatchdog] call, of [AbortSignal] and [Promise] objects, and of the
    runtime's raw async resources. *)
Abbreviation loc := nat (only parsing).
Abbreviation floc := nat (only parsing).
Abbreviation oloc := nat (only parsing).
Abbreviation wloc := nat (only parsing).
Abbreviation sloc := nat (only parsing).
Abbreviation ploc := nat (only parsing).
Abbreviation rloc := nat (only parsing).

(** ** JavaScript containers *)

(** [Map<number, V>]: insertion ordered, keys unique. *)
Section JsMap.
Context {V : Type}.

Fixpoint map_get (k : Z) (m : list (Z * V)) : option V :=
  match m with
  | [] => None
  | (k', v) :: m' => if decide (k' = k) then Some v else map_get k m'
  end.

(** [m.set(k, v)]: an existing key keeps its position. *)
Fixpoint map_set (k : Z) (v : V) (m : list (Z * V)) : list (Z * V) :=
  match m with
  | [] => [(k, v)]
  | (k', v') :: m' =>
      if decide (k' = k) then (k, v) :: m' else (k', v') :: map_set k v m'
  end.

Definition map_values (m : list (Z * V)) : list V := m.*2.
End JsMap.

(** [Set<object>]: insertion ordered, no duplicates. *)
Definition set_add (x : nat) (s : list nat) : list nat :=
  if decide (x ∈ s) then s else s ++ [x].

Definition set_delete (x : nat) (s : list nat) : list nat :=
  filter (λ y, y ≠ x) s.

(** [Array.prototype.indexOf] and [Array.prototype.splice(start, deleteCount)]
    as ECMAScript defines them: a negative [start] counts from the end. *)
Fixpoint indexOf_from (x : nat) (l : list nat) (i : Z) : Z :=
  match l with
  | [] => (-1)%Z
  | y :: l' => if decide (y = x) then i else indexOf_from x l' (i + 1)%Z
  end.

Definition indexOf (l : list nat) (x : nat) : Z := indexOf_from x l 0%Z.

Definition splice {A : Type} (l : list A) (start deleteCount : Z) : list A :=
  let len := Z.of_nat (length l) in
  let actualStart :=
    if (start <? 0)%Z then Z.max (len + start) 0 else Z.min start len in
  let actualDeleteCount := Z.min (Z.max deleteCount 0) (len - actualStart) in
  take (Z.to_nat actualStart) l
    ++ drop (Z.to_nat (actualStart + actualDeleteCount)) l.

(** ** Flags

    The bitwise operators of JavaScript work on 32-bit integers; the flags
    take bits 0 to 3, on which [Z.land] and [Z.lor] agree with them. *)

Module AsyncResourceFlags.
Definition INIT : Z := 0.
Definition PRE_EXECUTION : Z := Z.shiftl 1 0.
Definition POST_EXECUTION : Z := Z.shiftl 1 1.
Definition RESOLVED : Z := Z.shiftl 1 2.
Definition ABORTED : Z := Z.shiftl 1 3.
Definition FINALIZED : Z := Z.lor POST_EXECUTION RESOLVED.
End AsyncResourceFlags.
Import AsyncResourceFlags.

(** ** Values and errors *)

Inductive FiberErrorCode :=
  | FOREIGN_ASYNC_TRIGGER
  | PARENT_ASYNC_TRIGGER
  | FOREIGN_ASYNC_ABORTED
  | FIBER_ABORTED
  | FIBER_STALL.

(** Values that are thrown, or that settle a promise. *)
Inductive JsValue :=
  | VUndefined
  | VNumber (z : Z)
  | VString (s : string)
  | TypeError (message : string)
  | FiberError (code : FiberErrorCode) (fiber : floc) (node : loc).

#[global] Instance FiberErrorCode_eq_dec : EqDecision FiberErrorCode.
Proof. solve_decision. Defined.
#[global] Instance JsValue_eq_dec : EqDecision JsValue.
Proof. solve_decision. Defined.

(** [StackFrame] of [utils.ts]: what is kept of a call site. *)
Record StackFrame := {
  isToplevel : bool;
  isNative : bool;
  isConstructor : bool;
  typeName : option string;
  functionName : option string;
  methodName : option string;
  fileName : option string;
  lineNumber : option Z;
  columnNumber : option Z
}.

#[global] Instance StackFrame_eq_dec : EqDecision StackFrame.
Proof. solve_decision. Defined.

(** [NodeJS.CallSite]: what the methods of a call site return. *)
Module CallSite.
Record t := mk {
  getFileName : option string;
  getLineNumber : option Z;
  getColumnNumber : option Z;
  getFunctionName : option string;
  getMethodName : option string;
  getTypeName : option string;
  isToplevel : bool;
  isNative : bool;
  isConstructor : bool
}.
End CallSite.

(** [!!site.getFileName()?.startsWith(prefix)] *)
Definition fileName_startsWith (prefix : string) (site : CallSite.t) : bool :=
  match CallSite.getFileName site with
  | Some name => String.prefix prefix name
  | None => false
  end.

Definition isNodeSite : CallSite.t → bool := fileName_startsWith "node:".
Definition isNodeInternalSite : CallSite.t → bool := fileName_startsWith "node:internal/".

(** What reading a property of [undefined] throws. *)
Definition undefined_site : JsValue :=
  TypeError "Cannot read properties of undefined (reading 'getFileName')".

(** [while (idx < stack.length && isNodeSite((site = stack[idx]))) idx++]
    on [rest], the part of the stack from [idx] on; [site] is what the
    variable holds, and the result is [idx] and [site] after the loop. *)
Fixpoint skipNodeSites (rest : list CallSite.t) (idx : nat) (site : option CallSite.t)
    : nat * option CallSite.t :=
  match rest with
  | [] => (idx, site)
  | s :: rest' =>
      if isNodeSite s then skipNodeSites rest' (S idx) (Some s) else (idx, Some s)
  end.

(** The [do ... while] loop, entered with [idx = offset + k] and [site]: the
    body reads the names off [site], and the condition moves on to
    [stack[--idx]] while [idx > offset], both names are null and that site
    is not internal to node.  The result is the site the names were last
    read off. *)
Fixpoint nameSite (stack : list CallSite.t) (offset k : nat) (site : CallSite.t)
    : JsValue + CallSite.t :=
  match k with
  | 0 => inr site
  | S k' =>
      if bool_decide (CallSite.getFunctionName site = None)
         && bool_decide (CallSite.getMethodName site = None)
      then
        match stack !! (offset + k') with
        | Some site' =>
            if negb (isNodeInternalSite site') then nameSite stack offset k' site'
            else inr site
        | None => inl undefined_site
        end
      else inr site
  end.

(** [new StackFrame(stack, offset)]: the frame, or what the constructor
    throws. *)
Definition StackFrame_new (stack : list CallSite.t) (offset : nat)
    : JsValue + StackFrame :=
  let '(idx, site) := skipNodeSites (drop offset stack) offset (stack !! offset) in
  match site with
  | None => inl undefined_site
  | Some site =>
      match nameSite stack offset (idx - offset) site with
      | inl e => inl e
      | inr named =>
          inr {| isToplevel := CallSite.isToplevel named;
                 isNative := CallSite.isNative named;
                 isConstructor := CallSite.isConstructor named;
                 typeName := CallSite.getTypeName named;
                 functionName := CallSite.getFunctionName named;
                 methodName := CallSite.getMethodName named;
                 (* site.getFileName() || null *)
                 fileName :=
                   match CallSite.getFileName site with
                   | Some EmptyString => None
                   | name => name
                   end;
                 lineNumber := CallSite.getLineNumber site;
                 columnNumber := CallSite.getColumnNumber site |}
      end
  end.

(** ** Objects *)

Module AsyncResourceNode.
Record t := mk {
  asyncId : Z;
  fiberId : nat;
  type : option string;
  active : bool;
  frame : option StackFrame;
  executionOrigin : option loc;
  triggerOrigin : option loc;
  executionTargets : list (Z * loc);
  triggerTargets : list (Z * loc);
  flags : Z;
  notifyObserver : option oloc
}.

(** [new AsyncResourceNode(fiberId, asyncId, type, frame)] *)
Definition new (fiberId : nat) (asyncId : Z) (type : option string)
    (frame : option StackFrame) : t :=
  mk asyncId fiberId type true frame None None [] [] INIT None.

Definition set_fiberId (v : nat) (n : t) : t :=
  mk (asyncId n) v (type n) (active n) (frame n) (executionOrigin n)
     (triggerOrigin n) (executionTargets n) (triggerTargets n) (flags n)
     (notifyObserver n).
Definition set_active (v : bool) (n : t) : t :=
  mk (asyncId n) (fiberId n) (type n) v (frame n) (executionOrigin n)
     (triggerOrigin n) (executionTargets n) (triggerTargets n) (flags n)
     (notifyObserver n).
Definition set_executionOrigin (v : option loc) (n : t) : t :=
  mk (asyncId n) (fiberId n) (type n) (active n) (frame n) v
     (triggerOrigin n) (executionTargets n) (triggerTargets n) (flags n)
     (notifyObserver n).
Definition set_triggerOrigin (v : option loc) (n : t) : t :=
  mk (asyncId n) (fiberId n) (type n) (active n) (frame n)
     (executionOrigin n) v (executionTargets n) (triggerTargets n) (flags n)
     (notifyObserver n).
Definition set_executionTargets (v : list (Z * loc)) (n : t) : t :=
  mk (asyncId n) (fiberId n) (type n) (active n) (frame n)
     (executionOrigin n) (triggerOrigin n) v (triggerTargets n) (flags n)
     (notifyObserver n).
Definition set_triggerTargets (v : list (Z * loc)) (n : t) : t :=
  mk (asyncId n) (fiberId n) (type n) (active n) (frame n)
     (executionOrigin n) (triggerOrigin n) (executionTargets n) v (flags n)
     (notifyObserver n).
Definition set_flags (v : Z) (n : t) : t :=
  mk (asyncId n) (fiberId n) (type n) (active n) (frame n)
     (executionOrigin n) (triggerOrigin n) (executionTargets n)
     (triggerTargets n) v (notifyObserver n).
Definition set_notifyObserver (v : option oloc) (n : t) : t :=
  mk (asyncId n) (fiberId n) (type n) (active n) (frame n)
     (executionOrigin n) (triggerOrigin n) (executionTargets n)
     (triggerTargets n) (flags n) v.
End AsyncResourceNode.

Module AsyncResourceFiber.
Record t := mk {
  fiberId : nat;
  root : loc;
  active : bool;
  parent : option floc;
  frame : option StackFrame
}.

Definition set_active (v : bool) (f : t) : t :=
  mk (fiberId f) (root f) v (parent f) (frame f).

#[global] Instance eq_dec : EqDecision t.
Proof. solve_decision. Defined.
End AsyncResourceFiber.

(** The one function of type [AsyncResourceObserverFn] in the program is the
    arrow function built by [fiberWatchdog]; it is represented by the address
    of the closure environment it captures. *)
Module AsyncResourceObserver.
Record t := mk {
  fiberId : nat;
  callback : wloc
}.
End AsyncResourceObserver.

Module AbortSignal.
Record t := mk {
  aborted : bool;
  reason : JsValue;
  (** ['abort'] listeners; each is the arrow function that [fiberWatchdog]
      registers, represented by its closure environment. *)
  listeners : list wloc
}.

Definition set_listeners (v : list wloc) (s : t) : t :=
  mk (aborted s) (reason s) v.
End AbortSignal.

(** A pair of [then] callbacks registered by [promiseWithReject]: they
    resolve or reject [target] and then call [onSettled], which is the arrow
    function passed by [fiberWatchdog], represented by its closure
    environment. *)
Record Reaction := { target : ploc; onSettled : wloc }.

Module Promise.
Inductive state :=
  | Pending
  | Fulfilled (result : JsValue)
  | Rejected (reason : JsValue).

(** [reactions]: the [(onFulfilled, onRejected)] pairs registered through
    [then] and not yet run, oldest first.  The program registers such pairs
    in [promiseWithReject] only. *)
Record t := mk {
  settled : state;
  reactions : list Reaction
}.

(** The resolving functions handed to the executor of [new Promise]: once
    one of them was called, both are no-ops. *)
Definition resolve (result : JsValue) (p : t) : t :=
  match settled p with
  | Pending => mk (Fulfilled result) (reactions p)
  | _ => p
  end.

Definition reject (reason : JsValue) (p : t) : t :=
  match settled p with
  | Pending => mk (Rejected reason) (reactions p)
  | _ => p
  end.
End Promise.

(** Variables captured by the closures of one [fiberWatchdog] call. *)
Module Watchdog.
Record t := mk {
  fiber : floc;
  abort : option sloc;
  parentFiberIds : list nat;
  pendingExecutionTargets : list loc;
  (** [watchdogResult.promise]; [watchdogResult.reject] is its rejecting
      function. *)
  watchdogResult : ploc;
  (** Whether [watchdogImmediate] holds a scheduled immediate. *)
  watchdogImmediate : bool
}.

Definition set_pendingExecutionTargets (v : list loc) (w : t) : t :=
  mk (fiber w) (abort w) (parentFiberIds w) v (watchdogResult w)
     (watchdogImmediate w).
Definition set_watchdogImmediate (v : bool) (w : t) : t :=
  mk (fiber w) (abort w) (parentFiberIds w) (pendingExecutionTargets w)
     (watchdogResult w) v.
End Watchdog.

(** [FiberParams] *)
Record FiberParams := { abort : option sloc }.

(** ** Program state *)

Record State := mkState {
  nodes : gmap loc AsyncResourceNode.t;
  fibers : gmap floc AsyncResourceFiber.t;
  observers : gmap oloc AsyncResourceObserver.t;
  watchdogs : gmap wloc Watchdog.t;
  signals : gmap sloc AbortSignal.t;
  promises : gmap ploc Promise.t;
  (** [resource[fiberRef]] for every raw resource carrying the symbol *)
  fiberRefs : gmap rloc loc;
  fiberStack : list floc;
  _fiberIdx : nat;
  _asyncResourceGraphHookActive : bool;
  (** whether [asyncResourceGraphHook] is armed *)
  hookEnabled : bool;
  (** what [executionAsyncResource()] and [executionAsyncId()] return *)
  executionAsyncResource : rloc;
  executionAsyncId : Z;
  (** ghost: every call [observer.callback(event, node)], oldest first *)
  notified : list (oloc * Z * loc)
}.

Definition upd_nodes (f : gmap loc AsyncResourceNode.t → gmap loc AsyncResourceNode.t)
    (st : State) : State :=
  mkState (f (nodes st)) (fibers st) (observers st) (watchdogs st) (signals st)
    (promises st) (fiberRefs st) (fiberStack st) (_fiberIdx st)
    (_asyncResourceGraphHookActive st) (hookEnabled st)
    (executionAsyncResource st) (executionAsyncId st) (notified st).
Definition upd_fibers (f : gmap floc AsyncResourceFiber.t → gmap floc AsyncResourceFiber.t)
    (st : State) : State :=
  mkState (nodes st) (f (fibers st)) (observers st) (watchdogs st) (signals st)
    (promises st) (fiberRefs st) (fiberStack st) (_fiberIdx st)
    (_asyncResourceGraphHookActive st) (hookEnabled st)
    (executionAsyncResource st) (executionAsyncId st) (notified st).
Definition upd_observers (f : gmap oloc AsyncResourceObserver.t → gmap oloc AsyncResourceObserver.t)
    (st : State) : State :=
  mkState (nodes st) (fibers st) (f (observers st)) (watchdogs st) (signals st)
    (promises st) (fiberRefs st) (fiberStack st) (_fiberIdx st)
    (_asyncResourceGraphHookActive st) (hookEnabled st)
    (executionAsyncResource st) (executionAsyncId st) (notified st).
Definition upd_watchdogs (f : gmap wloc Watchdog.t → gmap wloc Watchdog.t)
    (st : State) : State :=
  mkState (nodes st) (fibers st) (observers st) (f (watchdogs st)) (signals st)
    (promises st) (fiberRefs st) (fiberStack st) (_fiberIdx st)
    (_asyncResourceGraphHookActive st) (hookEnabled st)
    (executionAsyncResource st) (executionAsyncId st) (notified st).
Definition upd_signals (f : gmap sloc AbortSignal.t → gmap sloc AbortSignal.t)
    (st : State) : State :=
  mkState (nodes st) (fibers st) (observers st) (watchdogs st) (f (signals st))
    (promises st) (fiberRefs st) (fiberStack st) (_fiberIdx st)
    (_asyncResourceGraphHookActive st) (hookEnabled st)
    (executionAsyncResource st) (executionAsyncId st) (notified st).
Definition upd_promises (f : gmap ploc Promise.t → gmap ploc Promise.t)
    (st : State) : State :=
  mkState (nodes st) (fibers st) (observers st) (watchdogs st) (signals st)
    (f (promises st)) (fiberRefs st) (fiberStack st) (_fiberIdx st)
    (_asyncResourceGraphHookActive st) (hookEnabled st)
    (executionAsyncResource st) (executionAsyncId st) (notified st).
Definition upd_fiberRefs (f : gmap rloc loc → gmap rloc loc) (st : State) : State :=
  mkState (nodes st) (fibers st) (observers st) (watchdogs st) (signals st)
    (promises st) (f (fiberRefs st)) (fiberStack st) (_fiberIdx st)
    (_asyncResourceGraphHookActive st) (hookEnabled st)
    (executionAsyncResource st) (executionAsyncId st) (notified st).
Definition upd_fiberStack (f : list floc → list floc) (st : State) : State :=
  mkState (nodes st) (fibers st) (observers st) (watchdogs st) (signals st)
    (promises st) (fiberRefs st) (f (fiberStack st)) (_fiberIdx st)
    (_asyncResourceGraphHookActive st) (hookEnabled st)
    (executionAsyncResource st) (executionAsyncId st) (notified st).
Definition set_fiberIdx (v : nat) (st : State) : State :=
  mkState (nodes st) (fibers st) (observers st) (watchdogs st) (signals st)
    (promises st) (fiberRefs st) (fiberStack st) v
    (_asyncResourceGraphHookActive st) (hookEnabled st)
    (executionAsyncResource st) (executionAsyncId st) (notified st).
Definition set_hookActive (v : bool) (st : State) : State :=
  mkState (nodes st) (fibers st) (observers st) (watchdogs st) (signals st)
    (promises st) (fiberRefs st) (fiberStack st) (_fiberIdx st) v
    (hookEnabled st) (executionAsyncResource st) (executionAsyncId st)
    (notified st).
Definition set_hookEnabled (v : bool) (st : State) : State :=
  mkState (nodes st) (fibers st) (observers st) (watchdogs st) (signals st)
    (promises st) (fiberRefs st) (fiberStack st) (_fiberIdx st)
    (_asyncResourceGraphHookActive st) v (executionAsyncResource st)
    (executionAsyncId st) (notified st).
Definition set_execution (r : rloc) (id : Z) (st : State) : State :=
  mkState (nodes st) (fibers st) (observers st) (watchdogs st) (signals st)
    (promises st) (fiberRefs st) (fiberStack st) (_fiberIdx st)
    (_asyncResourceGraphHookActive st) (hookEnabled st) r id (notified st).
Definition upd_notified (f : list (oloc * Z * loc) → list (oloc * Z * loc))
    (st : State) : State :=
  mkState (nodes st) (fibers st) (observers st) (watchdogs st) (signals st)
    (promises st) (fiberRefs st) (fiberStack st) (_fiberIdx st)
    (_asyncResourceGraphHookActive st) (hookEnabled st)
    (executionAsyncResource st) (executionAsyncId st) (f (notified st)).

(** ** The monad: state, exceptions, and two ways not to finish *)

Inductive Failure :=
  | OutOfFuel   (** the loop or recursion needs more steps than the fuel *)
  | Dangling.   (** an address that is not allocated; no JavaScript reference is *)

Inductive Outcome (A : Type) :=
  | Ret (a : A) (st : State)
  | Throw (e : JsValue) (st : State)
  | Fail (f : Failure).
Arguments Ret {A} a st.
Arguments Throw {A} e st.
Arguments Fail {A} f.

Definition M (A : Type) : Type := State → Outcome A.

Definition ret {A} (a : A) : M A := λ st, Ret a st.
Definition bind {A B} (c : M A) (k : A → M B) : M B :=
  λ st, match c st with
        | Ret a st' => k a st'
        | Throw e st' => Throw e st'
        | Fail f => Fail f
        end.
Definition throw {A} (e : JsValue) : M A := λ st, Throw e st.
Definition fail {A} (f : Failure) : M A := λ _, Fail f.
Definition gets {A} (f : State → A) : M A := λ st, Ret (f st) st.
Definition modify (f : State → State) : M unit := λ st, Ret tt (f st).

Notation "'let*' x ':=' c 'in' k" := (bind c (λ x, k))
  (at level 10, x pattern, c at level 100, k at level 200, only parsing).
Notation "c ';;;' k" := (bind c (λ _, k))
  (at level 100, k at level 200, right associativity, only parsing).

(** [try { body } finally { fin }] *)
Definition try_finally {A} (body : M A) (fin : M unit) : M A :=
  λ st, match body st with
        | Ret a st' =>
            match fin st' with
            | Ret _ st'' => Ret a st''
            | Throw e st'' => Throw e st''
            | Fail f => Fail f
            end
        | Throw e st' =>
            match fin st' with
            | Ret _ st'' => Throw e st''
            | Throw e' st'' => Throw e' st''
            | Fail f => Fail f
            end
        | Fail f => Fail f
        end.

Definition deref {A} (o : option A) : M A :=
  match o with Some a => ret a | None => fail Dangling end.

Fixpoint forM_ {A} (l : list A) (f : A → M unit) : M unit :=
  match l with
  | [] => ret tt
  | x :: l' => f x ;;; forM_ l' f
  end.

Fixpoint filterM {A} (p : A → M bool) (l : list A) : M (list A) :=
  match l with
  | [] => ret []
  | x :: l' =>
      let* b := p x in
      let* r := filterM p l' in
      ret (if b then x :: r else r)
  end.

(** A [for ... of] loop that updates a local variable. *)
Fixpoint foldM {A B} (f : B → A → M B) (acc : B) (l : list A) : M B :=
  match l with
  | [] => ret acc
  | x :: l' => let* acc := f acc x in foldM f acc l'
  end.

(** The state an outcome ends in, whether it returned or threw. *)
Definition final {A} (o : Outcome A) : option State :=
  match o with
  | Ret _ st => Some st
  | Throw _ st => Some st
  | Fail _ => None
  end.

(** *** Heap access *)

Definition getNode (l : loc) : M AsyncResourceNode.t :=
  let* o := gets (λ st, nodes st !! l) in deref o.
Definition updNode (l : loc) (f : AsyncResourceNode.t → AsyncResourceNode.t) : M unit :=
  let* n := getNode l in modify (upd_nodes (insert l (f n))).
Definition allocNode (n : AsyncResourceNode.t) : M loc :=
  let* l := gets (λ st, fresh (dom (nodes st))) in
  modify (upd_nodes (insert l n)) ;;; ret l.

Definition getFiberObj (f : floc) : M AsyncResourceFiber.t :=
  let* o := gets (λ st, fibers st !! f) in deref o.
Definition updFiberObj (f : floc) (g : AsyncResourceFiber.t → AsyncResourceFiber.t) : M unit :=
  let* fb := getFiberObj f in modify (upd_fibers (insert f (g fb))).
Definition allocFiber (fb : AsyncResourceFiber.t) : M floc :=
  let* f := gets (λ st, fresh (dom (fibers st))) in
  modify (upd_fibers (insert f fb)) ;;; ret f.

Definition getObserver (o : oloc) : M AsyncResourceObserver.t :=
  let* x := gets (λ st, observers st !! o) in deref x.
Definition allocObserver (ob : AsyncResourceObserver.t) : M oloc :=
  let* o := gets (λ st, fresh (dom (observers st))) in
  modify (upd_observers (insert o ob)) ;;; ret o.

Definition getWatchdog (w : wloc) : M Watchdog.t :=
  let* x := gets (λ st, watchdogs st !! w) in deref x.
Definition updWatchdog (w : wloc) (f : Watchdog.t → Watchdog.t) : M unit :=
  let* wd := getWatchdog w in modify (upd_watchdogs (insert w (f wd))).

Definition getSignal (s : sloc) : M AbortSignal.t :=
  let* x := gets (λ st, signals st !! s) in deref x.
Definition updSignal (s : sloc) (f : AbortSignal.t → AbortSignal.t) : M unit :=
  let* sg := getSignal s in modify (upd_signals (insert s (f sg))).

Definition getPromise (p : ploc) : M Promise.t :=
  let* x := gets (λ st, promises st !! p) in deref x.
Definition updPromise (p : ploc) (f : Promise.t → Promise.t) : M unit :=
  let* pr := getPromise p in modify (upd_promises (insert p (f pr))).
Definition allocPromise (pr : Promise.t) : M ploc :=
  let* p := gets (λ st, fresh (dom (promises st))) in
  modify (upd_promises (insert p pr)) ;;; ret p.

(** [getExecutionAsyncResource()[fiberRef]] *)
Definition executionNode : M (option loc) :=
  gets (λ st, fiberRefs st !! executionAsyncResource st).

(** ** Fibers *)

(** [getFiber()]: the loop runs [idx] from [fiberStack.length - 1] down to
    [0], that is, over the reversed stack. *)
Fixpoint getFiber_from (top_down : list floc) : M (option floc) :=
  match top_down with
  | [] => ret None
  | f :: below =>
      let* fb := getFiberObj f in
      if AsyncResourceFiber.active fb then ret (Some f) else getFiber_from below
  end.

Definition getFiber : M (option floc) :=
  let* stack := gets fiberStack in getFiber_from (reverse stack).

Module Fiber.

(** [new AsyncResourceFiber(frame)].  The field initialisers run first:
    [fiberId = _fiberIdx++] and [active = false]. *)
Definition new (frame : option StackFrame) : M floc :=
  let* fiberId := gets _fiberIdx in
  modify (set_fiberIdx (S fiberId)) ;;;
  let* resource := gets executionAsyncResource in
  let* slot := executionNode in
  let* root :=
    match slot with
    | Some root => ret root
    | None =>
        let* asyncId := gets executionAsyncId in
        let* root := allocNode (AsyncResourceNode.new fiberId asyncId None frame) in
        modify (upd_fiberRefs (insert resource root)) ;;;
        ret root
    end in
  let* parent := getFiber in
  allocFiber (AsyncResourceFiber.mk fiberId root false parent frame).

Definition enable (this : floc) : M floc :=
  let* fb := getFiberObj this in
  (if negb (AsyncResourceFiber.active fb) then
     updNode (AsyncResourceFiber.root fb)
       (AsyncResourceNode.set_fiberId (AsyncResourceFiber.fiberId fb)) ;;;
     updFiberObj this (AsyncResourceFiber.set_active true) ;;;
     modify (upd_fiberStack (λ s, s ++ [this])) ;;;
     modify (set_hookEnabled true)
   else ret tt) ;;;
  ret this.

(** [getFiber()?.fiberId || 0] *)
Definition fiberId_or_0 (f : option floc) : M nat :=
  match f with
  | None => ret 0
  | Some f =>
      let* fb := getFiberObj f in
      ret (if decide (AsyncResourceFiber.fiberId fb = 0) then 0
           else AsyncResourceFiber.fiberId fb)
  end.

Definition disable (this : floc) : M floc :=
  modify (upd_fiberStack (λ s, splice s (indexOf s this) 1)) ;;;
  let* stack := gets fiberStack in
  (if decide (length stack = 0) then modify (set_hookEnabled false) else ret tt) ;;;
  let* fb := getFiberObj this in
  let* top := getFiber in
  let* id := fiberId_or_0 top in
  updNode (AsyncResourceFiber.root fb) (AsyncResourceNode.set_fiberId id) ;;;
  updFiberObj this (AsyncResourceFiber.set_active false) ;;;
  ret this.

(** [get parentFiberIds()] *)
Fixpoint parentFiberIds (fuel : nat) (fiber : floc) : M (list nat) :=
  match fuel with
  | 0 => fail OutOfFuel
  | S fuel' =>
      let* fb := getFiberObj fiber in
      match AsyncResourceFiber.parent fb with
      | None => ret []
      | Some parent =>
          let* pb := getFiberObj parent in
          let* rest := parentFiberIds fuel' parent in
          ret (AsyncResourceFiber.fiberId pb :: rest)
      end
  end.

(** [get executionTargets()] *)
Definition executionTargets (this : floc) : M (list loc) :=
  let* fb := getFiberObj this in
  let* root := getNode (AsyncResourceFiber.root fb) in
  filterM
    (λ node,
       let* n := getNode node in
       ret (bool_decide (AsyncResourceNode.fiberId n = AsyncResourceFiber.fiberId fb)))
    (map_values (AsyncResourceNode.executionTargets root)).

(** [countExecutionTargets] of [get pending()]; [fuel] bounds the depth of
    the recursion. *)
Fixpoint countExecutionTargets (fuel : nat) (fiberId : nat) (node : loc) : M nat :=
  match fuel with
  | 0 => fail OutOfFuel
  | S fuel' =>
      let* n := getNode node in
      foldM
        (λ count target,
           let* tn := getNode target in
           if decide (AsyncResourceNode.fiberId tn = fiberId) then
             let* sub := countExecutionTargets fuel' fiberId target in
             let count := count + sub in
             let* tn := getNode target in
             (* target.flags & FINALIZED ? 0 : 1 *)
             ret (count
                  + if (Z.land (AsyncResourceNode.flags tn) FINALIZED =? 0)%Z
                    then 1 else 0)
           else ret count)
        0 (map_values (AsyncResourceNode.executionTargets n))
  end.

(** [get pending()] *)
Definition pending (fuel : nat) (this : floc) : M nat :=
  let* fb := getFiberObj this in
  countExecutionTargets fuel (AsyncResourceFiber.fiberId fb) (AsyncResourceFiber.root fb).

End Fiber.

(** ** Taint propagation and node lookup *)

(** [fuel] bounds the depth of the recursion. *)
Fixpoint taintAsyncResourceGraph (fuel : nat) (node : loc) (mask flags : Z) : M unit :=
  match fuel with
  | 0 => fail OutOfFuel
  | S fuel' =>
      let* n := getNode node in
      if decide (Z.land (Z.land (AsyncResourceNode.flags n) mask) flags = 0%Z) then
        updNode node
          (AsyncResourceNode.set_flags (Z.lor (AsyncResourceNode.flags n) flags)) ;;;
        let* n := getNode node in
        forM_ (map_values (AsyncResourceNode.executionTargets n))
          (λ target, taintAsyncResourceGraph fuel' target mask flags) ;;;
        let* n := getNode node in
        forM_ (map_values (AsyncResourceNode.triggerTargets n))
          (λ target, taintAsyncResourceGraph fuel' target mask flags)
      else ret tt
  end.

(** The [do ... while] loop of [getAsyncResourceNode]; [fuel] bounds the
    number of iterations. *)
Fixpoint getAsyncResourceNode_from (fuel : nat) (executionNode : loc)
    (asyncId : Z) : M (option loc) :=
  match fuel with
  | 0 => fail OutOfFuel
  | S fuel' =>
      let* n := getNode executionNode in
      if decide (AsyncResourceNode.asyncId n = asyncId) then ret (Some executionNode)
      else
        match map_get asyncId (AsyncResourceNode.executionTargets n) with
        | Some node => ret (Some node)
        | None =>
            match AsyncResourceNode.executionOrigin n with
            | Some origin => getAsyncResourceNode_from fuel' origin asyncId
            | None => ret None
            end
        end
  end.

Definition getAsyncResourceNode (fuel : nat) (asyncId : Z) : M (option loc) :=
  let* slot := executionNode in
  match slot with
  | Some executionNode => getAsyncResourceNode_from fuel executionNode asyncId
  | None => ret None
  end.

(** ** The closures of [fiberWatchdog]

    Each takes the address [w] of the closure environment it captures. *)

Definition has_flag (flags bit : Z) : bool := negb (Z.land flags bit =? 0)%Z.

Definition assertFiberError (w : wloc) (error : JsValue) : M unit :=
  let* wd := getWatchdog w in
  updPromise (Watchdog.watchdogResult wd) (Promise.reject error) ;;;
  let* hookActive := gets _asyncResourceGraphHookActive in
  if hookActive then throw error else ret tt.

Definition assertFiberAbort (w : wloc) (node : loc) : M unit :=
  let* wd := getWatchdog w in
  let fiber := Watchdog.fiber wd in
  let* fb := getFiberObj fiber in
  let* n := getNode node in
  let signal_aborted : M unit :=
    match Watchdog.abort wd with
    | None => ret tt
    | Some abort =>
        let* sg := getSignal abort in
        if AbortSignal.aborted sg then
          assertFiberError w (AbortSignal.reason sg) ;;;
          let* hookActive := gets _asyncResourceGraphHookActive in
          (* abort.throwIfAborted() *)
          if hookActive then throw (AbortSignal.reason sg) else ret tt
        else ret tt
    end in
  if has_flag (AsyncResourceNode.flags n) ABORTED then
    assertFiberError w (FiberError FIBER_ABORTED fiber node)
  else
    match AsyncResourceNode.triggerOrigin n with
    | None => signal_aborted
    | Some triggerOrigin =>
        let* tn := getNode triggerOrigin in
        if has_flag (AsyncResourceNode.flags tn) ABORTED then
          if decide (AsyncResourceNode.fiberId tn = AsyncResourceFiber.fiberId fb) then
            assertFiberError w (FiberError FIBER_ABORTED fiber triggerOrigin)
          else
            assertFiberError w (FiberError FOREIGN_ASYNC_ABORTED fiber triggerOrigin)
        else signal_aborted
    end.

Definition assertFiberOwnership (w : wloc) (node : loc) : M unit :=
  let* wd := getWatchdog w in
  let fiber := Watchdog.fiber wd in
  let* fb := getFiberObj fiber in
  let* n := getNode node in
  match AsyncResourceNode.triggerOrigin n with
  | None => ret tt
  | Some triggerOrigin =>
      if decide (AsyncResourceNode.fiberId n ≠ AsyncResourceFiber.fiberId fb)
      then ret tt
      else if decide (triggerOrigin = AsyncResourceFiber.root fb) then ret tt
      else
        let* tn := getNode triggerOrigin in
        if decide (AsyncResourceNode.fiberId tn = AsyncResourceNode.fiberId n)
        then ret tt
        else
          let isParentFiberTrigger :=
            bool_decide (AsyncResourceNode.fiberId tn ∈ Watchdog.parentFiberIds wd) in
          if negb isParentFiberTrigger then
            assertFiberError w (FiberError FOREIGN_ASYNC_TRIGGER fiber node)
          else
            assertFiberError w (FiberError PARENT_ASYNC_TRIGGER fiber node)
  end.

Definition lastExecutionTarget (w : wloc) : M loc :=
  let* wd := getWatchdog w in
  let pending := Watchdog.pendingExecutionTargets wd in
  if decide (length pending ≠ 0) then deref (last pending)
  else
    let* targets := Fiber.executionTargets (Watchdog.fiber wd) in
    match last targets with
    | Some node => ret node
    | None =>
        let* fb := getFiberObj (Watchdog.fiber wd) in
        ret (AsyncResourceFiber.root fb)
    end.

(** The [for ... of] loop of [stallWatchdog], which leaves at the first
    node that is neither finalized nor a promise. *)
Fixpoint hasAsyncIO (pending : list loc) : M bool :=
  match pending with
  | [] => ret false
  | asyncNode :: rest =>
      let* n := getNode asyncNode in
      if (Z.land (AsyncResourceNode.flags n) FINALIZED =? 0)%Z
         && negb (bool_decide (AsyncResourceNode.type n = Some "PROMISE"%string))
      then ret true
      else hasAsyncIO rest
  end.

Definition stallWatchdog (w : wloc) : M unit :=
  updWatchdog w (Watchdog.set_watchdogImmediate false) ;;;
  let* wd := getWatchdog w in
  let* aborted :=
    match Watchdog.abort wd with
    | None => ret false
    | Some abort => let* sg := getSignal abort in ret (AbortSignal.aborted sg)
    end in
  if aborted then ret tt
  else
    let* io := hasAsyncIO (Watchdog.pendingExecutionTargets wd) in
    if negb io then
      let* node := lastExecutionTarget w in
      updPromise (Watchdog.watchdogResult wd)
        (Promise.reject (FiberError FIBER_STALL (Watchdog.fiber wd) node))
    else ret tt.

(** [watchdogImmediate || (watchdogImmediate = setImmediate(stallWatchdog))] *)
Definition scheduleCheck (w : wloc) : M unit :=
  updWatchdog w (Watchdog.set_watchdogImmediate true).

(** The arrow function given to [new AsyncResourceObserver]. *)
Definition watchdogObserverFn (w : wloc) (event : Z) (node : loc) : M unit :=
  scheduleCheck w ;;;
  if decide (event = INIT) then
    assertFiberOwnership w node ;;;
    assertFiberAbort w node ;;;
    updWatchdog w (λ wd, Watchdog.set_pendingExecutionTargets
                           (set_add node (Watchdog.pendingExecutionTargets wd)) wd)
  else if decide (event = POST_EXECUTION) then
    updWatchdog w (λ wd, Watchdog.set_pendingExecutionTargets
                           (set_delete node (Watchdog.pendingExecutionTargets wd)) wd)
  else if decide (event = RESOLVED) then
    assertFiberAbort w node ;;;
    updWatchdog w (λ wd, Watchdog.set_pendingExecutionTargets
                           (set_delete node (Watchdog.pendingExecutionTargets wd)) wd)
  else ret tt.

(** ** Observers *)

Module Observer.

(** [this.callback(event, node)] *)
Definition callback (this : oloc) (event : Z) (node : loc) : M unit :=
  let* ob := getObserver this in
  modify (upd_notified (λ log, log ++ [(this, event, node)])) ;;;
  watchdogObserverFn (AsyncResourceObserver.callback ob) event node.

Definition isObserved (this : oloc) (node : loc) : M bool :=
  let* n := getNode node in
  ret (bool_decide (AsyncResourceNode.notifyObserver n = Some this)).

Definition already_observed (asyncId : Z) : string :=
  "Only one observer can be attached to a node at a time." ++
  String (Ascii.ascii_of_nat 10)
    ("Node (" ++ pretty.pretty asyncId ++ ") is already being observed").

Definition observe (this : oloc) (node : loc) : M unit :=
  let* n := getNode node in
  if decide (AsyncResourceNode.notifyObserver n ≠ None
             ∧ AsyncResourceNode.notifyObserver n ≠ Some this)
  then throw (TypeError (already_observed (AsyncResourceNode.asyncId n)))
  else updNode node (AsyncResourceNode.set_notifyObserver (Some this)).

Definition _onInit (this : oloc) (node : loc) : M unit :=
  callback this INIT node ;;;
  let* ob := getObserver this in
  let* n := getNode node in
  if decide (AsyncResourceNode.fiberId n = AsyncResourceObserver.fiberId ob)
  then observe this node
  else ret tt.

Definition _onBefore (this : oloc) (node : loc) : M unit :=
  callback this PRE_EXECUTION node.

Definition _onAfter (this : oloc) (node : loc) : M unit :=
  callback this POST_EXECUTION node ;;;
  updNode node (AsyncResourceNode.set_notifyObserver None).

Definition _onPromiseResolve (this : oloc) (node : loc) : M unit :=
  callback this RESOLVED node ;;;
  updNode node (AsyncResourceNode.set_notifyObserver None).

End Observer.

(** ** Node handlers *)

Module Node.

(** [frame] is what [getStackFrame(1)] captures at the call. *)
Definition _onExecute (fuel : nat) (this : loc) (asyncId : Z) (type : string)
    (triggerAsyncId : Z) (resource : rloc) (frame : option StackFrame) : M unit :=
  let* n := getNode this in
  if negb (AsyncResourceNode.active n) then ret tt
  else
    let* node :=
      allocNode (AsyncResourceNode.new (AsyncResourceNode.fiberId n) asyncId
                   (Some type) frame) in
    updNode node (AsyncResourceNode.set_executionOrigin (Some this)) ;;;
    modify (upd_fiberRefs (insert resource node)) ;;;
    updNode this
      (λ n, AsyncResourceNode.set_executionTargets
              (map_set asyncId node (AsyncResourceNode.executionTargets n)) n) ;;;
    let* triggerNode :=
      if decide (asyncId ≠ triggerAsyncId) then getAsyncResourceNode fuel triggerAsyncId
      else ret None in
    match triggerNode with
    | Some triggerNode =>
        updNode node (AsyncResourceNode.set_triggerOrigin (Some triggerNode)) ;;;
        updNode triggerNode
          (λ tn, AsyncResourceNode.set_triggerTargets
                   (map_set asyncId node (AsyncResourceNode.triggerTargets tn)) tn)
    | None => ret tt
    end ;;;
    let* n := getNode this in
    match AsyncResourceNode.notifyObserver n with
    | Some observer => Observer._onInit observer node
    | None => ret tt
    end.

(** The common shape of [_onBefore], [_onAfter] and [_onPromiseResolve]. *)
Definition on_event (flag : Z) (notify : oloc → loc → M unit) (this : loc) : M unit :=
  updNode this
    (λ n, AsyncResourceNode.set_flags (Z.lor (AsyncResourceNode.flags n) flag) n) ;;;
  let* n := getNode this in
  if AsyncResourceNode.active n then
    match AsyncResourceNode.notifyObserver n with
    | Some observer => notify observer this
    | None => ret tt
    end
  else ret tt.

Definition _onBefore : loc → M unit := on_event PRE_EXECUTION Observer._onBefore.
Definition _onAfter : loc → M unit := on_event POST_EXECUTION Observer._onAfter.
Definition _onPromiseResolve : loc → M unit :=
  on_event RESOLVED Observer._onPromiseResolve.

End Node.

(** ** The hook callbacks *)

Module Hook.

Definition guarded (body : M unit) : M unit :=
  try_finally (modify (set_hookActive true) ;;; body) (modify (set_hookActive false)).

Definition init (fuel : nat) (asyncId : Z) (type : string) (triggerAsyncId : Z)
    (resource : rloc) (frame : option StackFrame) : M unit :=
  let* hookActive := gets _asyncResourceGraphHookActive in
  if negb hookActive then
    guarded
      (let* slot := executionNode in
       match slot with
       | Some executionNode =>
           Node._onExecute fuel executionNode asyncId type triggerAsyncId resource frame
       | None => ret tt
       end)
  else ret tt.

Definition on_found (fuel : nat) (asyncId : Z) (handler : loc → M unit) : M unit :=
  guarded
    (let* found := getAsyncResourceNode fuel asyncId in
     match found with
     | Some node => handler node
     | None => ret tt
     end).

Definition before (fuel : nat) (asyncId : Z) : M unit :=
  on_found fuel asyncId Node._onBefore.
Definition after (fuel : nat) (asyncId : Z) : M unit :=
  on_found fuel asyncId Node._onAfter.
Definition promiseResolve (fuel : nat) (asyncId : Z) : M unit :=
  on_found fuel asyncId Node._onPromiseResolve.

End Hook.

(** ** [promiseWithReject]

    The wrapper promise is created pending and the pair of [then] callbacks
    is queued on [promise]; the result is the wrapper, whose rejecting
    function is the [reject] of the returned object. *)
Definition promiseWithReject (promise : ploc) (onSettled : wloc) : M ploc :=
  let* wrapper := allocPromise (Promise.mk Promise.Pending []) in
  updPromise promise
    (λ p, Promise.mk (Promise.settled p)
            (Promise.reactions p ++ [{| target := wrapper; onSettled := onSettled |}])) ;;;
  ret wrapper.

(** The [onSettled] arrow function of [fiberWatchdog]:
    [if (watchdogImmediate) watchdogImmediate = clearImmediate(watchdogImmediate)] *)
Definition clearWatchdogImmediate (w : wloc) : M unit :=
  updWatchdog w (Watchdog.set_watchdogImmediate false).

(** One of the two [then] callbacks of [promiseWithReject] runs, once the
    promise they were queued on has settled.  The first queued pair runs
    first; it runs once. *)
Definition runReaction (promise : ploc) : M unit :=
  let* p := getPromise promise in
  match Promise.reactions p with
  | [] => ret tt
  | r :: rest =>
      match Promise.settled p with
      | Promise.Pending => ret tt
      | Promise.Fulfilled result =>
          updPromise promise (λ p, Promise.mk (Promise.settled p) rest) ;;;
          updPromise (target r) (Promise.resolve result) ;;;
          clearWatchdogImmediate (onSettled r)
      | Promise.Rejected reason =>
          updPromise promise (λ p, Promise.mk (Promise.settled p) rest) ;;;
          updPromise (target r) (Promise.reject reason) ;;;
          clearWatchdogImmediate (onSettled r)
      end
  end.

(** ** [fiberWatchdog] *)

(** The body of both walks for one [target]:
    [stack.push(target); observer.observe(target); if (...) {...}] *)
Definition adopt (w : wloc) (observer : oloc) (target : loc) (stack : list loc)
    : M (list loc) :=
  Observer.observe observer target ;;;
  let* tn := getNode target in
  (if (Z.land (AsyncResourceNode.flags tn) FINALIZED =? 0)%Z then
     assertFiberOwnership w target ;;;
     updWatchdog w (λ wd, Watchdog.set_pendingExecutionTargets
                            (set_add target (Watchdog.pendingExecutionTargets wd)) wd)
   else ret tt) ;;;
  ret (stack ++ [target]).

(** The first loop, over the execution targets of the root. *)
Fixpoint adopt_owned (w : wloc) (observer : oloc) (fiberId : nat)
    (targets : list loc) (stack : list loc) : M (list loc) :=
  match targets with
  | [] => ret stack
  | target :: rest =>
      let* tn := getNode target in
      let* stack :=
        if decide (AsyncResourceNode.fiberId tn = fiberId)
        then adopt w observer target stack
        else ret stack in
      adopt_owned w observer fiberId rest stack
  end.

(** The inner loop of the second walk, over the execution targets of
    [pointer]. *)
Fixpoint adopt_unobserved (w : wloc) (observer : oloc) (targets : list loc)
    (stack : list loc) : M (list loc) :=
  match targets with
  | [] => ret stack
  | target :: rest =>
      let* observed := Observer.isObserved observer target in
      let* stack :=
        if negb observed then adopt w observer target stack else ret stack in
      adopt_unobserved w observer rest stack
  end.

(** [while ((pointer = stack.pop())) ...]; the top of the stack is the last
    element, and [fuel] bounds the number of iterations. *)
Fixpoint drain (fuel : nat) (w : wloc) (observer : oloc) (stack : list loc) : M unit :=
  match fuel with
  | 0 => fail OutOfFuel
  | S fuel' =>
      match last stack with
      | None => ret tt
      | Some pointer =>
          let* pn := getNode pointer in
          let* stack :=
            adopt_unobserved w observer
              (map_values (AsyncResourceNode.executionTargets pn))
              (removelast stack) in
          drain fuel' w observer stack
      end
  end.

Definition fiberWatchdog (fuel : nat) (fiber : floc) (params : FiberParams)
    (promise : ploc) : M ploc :=
  let* fb := getFiberObj fiber in
  let root := AsyncResourceFiber.root fb in
  try_finally
    (updNode root (AsyncResourceNode.set_active false) ;;;
     let* parentFiberIds := Fiber.parentFiberIds fuel fiber in
     (* the closure environment; its address is known before it is filled *)
     let* w := gets (λ st, fresh (dom (watchdogs st))) in
     let* watchdogResult := promiseWithReject promise w in
     (* watchdogImmediate = setImmediate(stallWatchdog) *)
     modify (upd_watchdogs
               (insert w (Watchdog.mk fiber (abort params) parentFiberIds []
                            watchdogResult true))) ;;;
     match abort params with
     | Some abort =>
         updSignal abort
           (λ sg, AbortSignal.set_listeners (AbortSignal.listeners sg ++ [w]) sg)
     | None => ret tt
     end ;;;
     let* observer :=
       allocObserver (AsyncResourceObserver.mk (AsyncResourceFiber.fiberId fb) w) in
     let* rn := getNode root in
     let* stack :=
       adopt_owned w observer (AsyncResourceFiber.fiberId fb)
         (map_values (AsyncResourceNode.executionTargets rn)) [] in
     drain fuel w observer stack ;;;
     ret watchdogResult)
    (updNode root (AsyncResourceNode.set_active false)).

(** ** Public surface *)

Definition enable (frame : option StackFrame) : M floc :=
  let* current := getFiber in
  match current with
  | Some f => ret f
  | None => let* f := Fiber.new frame in Fiber.enable f
  end.

Definition disable : M (option floc) :=
  let* current := getFiber in
  match current with
  | Some f => let* f := Fiber.disable f in ret (Some f)
  | None => ret None
  end.

Definition getFiberNode (resource : rloc) : M (option loc) :=
  gets (λ st, fiberRefs st !! resource).

(** [fiber(fn, params)]; [fn] is any computation that returns a promise or
    throws, and [frame] is what [getStackFrame(0)] captures. *)
Definition fiber (fuel : nat) (fn : M ploc) (params : FiberParams)
    (frame : option StackFrame) : M (ploc * floc) :=
  let* fiber := Fiber.new frame in
  try_finally
    (Fiber.enable fiber ;;;
     let* promise := fn in
     let* result := fiberWatchdog fuel fiber params promise in
     ret (result, fiber))
    (Fiber.disable fiber ;;; ret tt).

(** ** What the runtime does *)

(** The ['abort'] event of a signal: every listener registered by a
    [fiberWatchdog] taints the graph of its fiber. *)
Definition abortListener (fuel : nat) (w : wloc) : M unit :=
  let* wd := getWatchdog w in
  let* fb := getFiberObj (Watchdog.fiber wd) in
  taintAsyncResourceGraph fuel (AsyncResourceFiber.root fb) FINALIZED ABORTED.

Definition signalAbort (fuel : nat) (signal : sloc) (reason : JsValue) : M unit :=
  let* sg := getSignal signal in
  if AbortSignal.aborted sg then ret tt
  else
    updSignal signal (λ sg, AbortSignal.mk true reason (AbortSignal.listeners sg)) ;;;
    forM_ (AbortSignal.listeners sg) (abortListener fuel).

(** The immediate scheduled by a watchdog fires. *)
Definition runImmediate (w : wloc) : M unit :=
  let* wd := getWatchdog w in
  if Watchdog.watchdogImmediate wd then stallWatchdog w else ret tt.

(** The state of a fresh process: nothing allocated, no fiber, hook unarmed,
    running in the top-level execution context. *)
Definition initial (resource : rloc) (asyncId : Z) : State :=
  mkState ∅ ∅ ∅ ∅ ∅ ∅ ∅ [] 1 false false resource asyncId [].

(** What code outside the module does with the objects the claims are
    about: it creates promises and abort signals, calls the resolving
    functions of a promise, and the runtime moves from one execution context
    to another. *)
Definition newPromise : M ploc := allocPromise (Promise.mk Promise.Pending []).

Definition newAbortSignal : M sloc :=
  let* s := gets (λ st, fresh (dom (signals st))) in
  modify (upd_signals (insert s (AbortSignal.mk false VUndefined []))) ;;;
  ret s.

Definition resolvePromise (p : ploc) (result : JsValue) : M unit :=
  updPromise p (Promise.resolve result).

Definition rejectPromise (p : ploc) (reason : JsValue) : M unit :=
  updPromise p (Promise.reject reason).

Definition enterContext (resource : rloc) (asyncId : Z) : M unit :=
  modify (set_execution resource asyncId).

(** The state a computation ends in; the state it started in if it did not
    end. *)
Definition state_after {A} (c : M A) (st : State) : State :=
  match c st with
  | Ret _ st' => st'
  | Throw _ st' => st'
  | Fail _ => st
  end.

(** * Specification

    The notions the properties are stated with, the claims of the
    specification that the code does not satisfy as they stand, and the
    states the properties are tried on. *)

(** ** The fiber stack *)

Definition is_active (fs : gmap floc AsyncResourceFiber.t) (f : floc) : bool :=
  match fs !! f with
  | Some fb => AsyncResourceFiber.active fb
  | None => false
  end.

(** The topmost entry of the stack whose [active] flag is set. *)
Definition topmost_active (fs : gmap floc AsyncResourceFiber.t) (stack : list floc)
    : option floc :=
  List.find (is_active fs) (reverse stack).

(** The [fiberId] of a fiber of the stack, 0 for none. *)
Definition id_of (fs : gmap floc AsyncResourceFiber.t) (f : option floc) : nat :=
  match f with
  | Some f => from_option AsyncResourceFiber.fiberId 0 (fs !! f)
  | None => 0
  end.

(** Every fiber on the stack is an allocated object. *)
Definition stack_allocated (st : State) : Prop :=
  Forall (λ f, is_Some (fibers st !! f)) (fiberStack st).

(** Every node a raw resource refers to is an allocated object. *)
Definition refs_allocated (st : State) : Prop :=
  map_Forall (λ _ l, is_Some (nodes st !! l)) (fiberRefs st).

(** The state in which [fiber] calls [fn]: the new fiber is constructed and
    enabled. *)
Definition fiber_entry (frame : option StackFrame) (st : State) : State :=
  state_after (let* f := Fiber.new frame in Fiber.enable f) st.

(** ** Ownership validation *)

Inductive Verdict :=
  | Accept
  | Reject (code : FiberErrorCode).

(** The table of the specification, its rows tried from the top.  [fiberId]
    and [root] are those of the supervised fiber, [n] is the node and [t] its
    trigger origin, if it has one, with the address it lives at. *)
Definition ownership_table (fiberId : nat) (root : loc) (parentFiberIds : list nat)
    (n : AsyncResourceNode.t) (t : option (loc * AsyncResourceNode.t)) : Verdict :=
  match t with
  | None => Accept
  | Some (t_addr, t) =>
      if decide (AsyncResourceNode.fiberId n ≠ fiberId) then Accept
      else if decide (t_addr = root) then Accept
      else if decide (AsyncResourceNode.fiberId t = AsyncResourceNode.fiberId n) then Accept
      else if decide (AsyncResourceNode.fiberId t ∈ parentFiberIds)
           then Reject PARENT_ASYNC_TRIGGER
      else Reject FOREIGN_ASYNC_TRIGGER
  end.

(** The trigger origin of [n] in [st], with its address. *)
Definition trigger_of (st : State) (n : AsyncResourceNode.t)
    : option (loc * AsyncResourceNode.t) :=
  t ← AsyncResourceNode.triggerOrigin n; tn ← nodes st !! t; Some (t, tn).

(** ** Stall detection *)

(** The cancellation signal of the watchdog, if it has one, is raised. *)
Definition signal_raised (st : State) (wd : Watchdog.t) : bool :=
  match Watchdog.abort wd with
  | Some s => from_option AbortSignal.aborted false (signals st !! s)
  | None => false
  end.

(** A pending node behind which real asynchronous work is outstanding: not
    finalized, and not a promise. *)
Definition blocking (st : State) (l : loc) : bool :=
  match nodes st !! l with
  | Some n =>
      (Z.land (AsyncResourceNode.flags n) FINALIZED =? 0)%Z
      && negb (bool_decide (AsyncResourceNode.type n = Some "PROMISE"%string))
  | None => false
  end.

(** The node at [l] has this [fiberId]. *)
Definition owned_by (st : State) (fiberId : nat) (l : loc) : bool :=
  match nodes st !! l with
  | Some n => bool_decide (AsyncResourceNode.fiberId n = fiberId)
  | None => false
  end.

(** The node a stall fault points at: the last pending node; without pending
    nodes, the last execution target of the root that the fiber owns;
    without such a target, the root. *)
Definition stall_node (st : State) (wd : Watchdog.t) (fb : AsyncResourceFiber.t)
    (root : AsyncResourceNode.t) : loc :=
  match last (Watchdog.pendingExecutionTargets wd) with
  | Some node => node
  | None =>
      match last (List.filter (owned_by st (AsyncResourceFiber.fiberId fb))
                    (map_values (AsyncResourceNode.executionTargets root))) with
      | Some node => node
      | None => AsyncResourceFiber.root fb
      end
  end.

(** The address of an allocated node. *)
Definition allocated (st : State) (l : loc) : Prop := is_Some (nodes st !! l).

(** The hypotheses under which no address read by the stall check dangles. *)
Record stall_ready (st : State) (w : wloc) (wd : Watchdog.t)
    (fb : AsyncResourceFiber.t) (rn : AsyncResourceNode.t) (pr : Promise.t) : Prop := {
  stall_watchdog : watchdogs st !! w = Some wd;
  stall_fiber : fibers st !! Watchdog.fiber wd = Some fb;
  stall_root : nodes st !! AsyncResourceFiber.root fb = Some rn;
  stall_result : promises st !! Watchdog.watchdogResult wd = Some pr;
  stall_pending : Forall (allocated st) (Watchdog.pendingExecutionTargets wd);
  stall_targets :
    Forall (allocated st) (map_values (AsyncResourceNode.executionTargets rn));
  stall_signal : ∀ s, Watchdog.abort wd = Some s → is_Some (signals st !! s)
}.

(** ** Locating the node of a hook callback *)

(** The execution context chain: [l], its [executionOrigin], and so on
    upward, [fuel] nodes at most. *)
Fixpoint origin_chain (fuel : nat) (st : State) (l : loc) : list loc :=
  match fuel with
  | 0 => []
  | S fuel' =>
      l :: match nodes st !! l ≫= AsyncResourceNode.executionOrigin with
           | Some origin => origin_chain fuel' st origin
           | None => []
           end
  end.

(** What one node of the chain contributes: itself if it has the id, or
    else its execution target of that id. *)
Definition found_at (st : State) (asyncId : Z) (l : loc) : option loc :=
  n ← nodes st !! l;
  if decide (AsyncResourceNode.asyncId n = asyncId) then Some l
  else map_get asyncId (AsyncResourceNode.executionTargets n).

(** The first result along a list. *)
Fixpoint first_some {A B} (f : A → option B) (l : list A) : option B :=
  match l with
  | [] => None
  | x :: l' => match f x with Some y => Some y | None => first_some f l' end
  end.

(** The node for [asyncId]: the first found along the chain that starts at
    the node of the current execution context. *)
Definition locate (fuel : nat) (st : State) (asyncId : Z) : option loc :=
  start ← fiberRefs st !! executionAsyncResource st;
  first_some (found_at st asyncId) (origin_chain fuel st start).

(** The three lifecycle callbacks, the hook callback and the flag of each. *)
Inductive Lifecycle := Before | After | PromiseResolve.

Definition hook_of (ev : Lifecycle) : nat → Z → M unit :=
  match ev with
  | Before => Hook.before
  | After => Hook.after
  | PromiseResolve => Hook.promiseResolve
  end.

Definition flag_of (ev : Lifecycle) : Z :=
  match ev with
  | Before => PRE_EXECUTION
  | After => POST_EXECUTION
  | PromiseResolve => RESOLVED
  end.

(** What a hook callback for [ev] adds to the log of observer calls, when
    it finds the node [n] at [l]. *)
Definition notification (ev : Lifecycle) (l : loc) (n : AsyncResourceNode.t)
    : list (oloc * Z * loc) :=
  if AsyncResourceNode.active n then
    match AsyncResourceNode.notifyObserver n with
    | Some observer => [(observer, flag_of ev, l)]
    | None => []
    end
  else [].

(** ** Operations

    What can happen to the state, one step at a time: the runtime calls a
    hook callback, switches the execution context, fires a signal or an
    immediate, or runs a queued promise reaction; user code creates or
    settles promises and signals; and the module's own entry points run.
    [enable()], [disable()] and [fiber(fn, params)] are sequences of these. *)

Inductive Operation :=
  | HookInit (asyncId : Z) (type : string) (triggerAsyncId : Z) (resource : rloc)
      (frame : option StackFrame)
  | HookBefore (asyncId : Z)
  | HookAfter (asyncId : Z)
  | HookPromiseResolve (asyncId : Z)
  | EnterContext (resource : rloc) (asyncId : Z)
  | SignalAbort (signal : sloc) (reason : JsValue)
  | RunImmediate (w : wloc)
  | RunReaction (promise : ploc)
  | NewPromise
  | NewAbortSignal
  | ResolvePromise (promise : ploc) (result : JsValue)
  | RejectPromise (promise : ploc) (reason : JsValue)
  | FiberNew (frame : option StackFrame)
  | FiberEnable (f : floc)
  | FiberDisable (f : floc)
  | FiberWatchdog (f : floc) (params : FiberParams) (promise : ploc).

(** The runtime calls a hook callback only while the hook is armed. *)
Definition whenArmed (callback : M unit) : M unit :=
  let* armed := gets hookEnabled in
  if armed then callback else ret tt.

Definition exec (fuel : nat) (op : Operation) : M unit :=
  match op with
  | HookInit asyncId type triggerAsyncId resource frame =>
      whenArmed (Hook.init fuel asyncId type triggerAsyncId resource frame)
  | HookBefore asyncId => whenArmed (Hook.before fuel asyncId)
  | HookAfter asyncId => whenArmed (Hook.after fuel asyncId)
  | HookPromiseResolve asyncId => whenArmed (Hook.promiseResolve fuel asyncId)
  | EnterContext resource asyncId => enterContext resource asyncId
  | SignalAbort signal reason => signalAbort fuel signal reason
  | RunImmediate w => runImmediate w
  | RunReaction promise => runReaction promise
  | NewPromise => newPromise ;;; ret tt
  | NewAbortSignal => newAbortSignal ;;; ret tt
  | ResolvePromise promise result => resolvePromise promise result
  | RejectPromise promise reason => rejectPromise promise reason
  | FiberNew frame => Fiber.new frame ;;; ret tt
  | FiberEnable f => Fiber.enable f ;;; ret tt
  | FiberDisable f => Fiber.disable f ;;; ret tt
  | FiberWatchdog f params promise => fiberWatchdog fuel f params promise ;;; ret tt
  end.

(** A run of operations; an exception ends the operation that threw it, not
    the run. *)
Fixpoint run (fuel : nat) (ops : list Operation) (st : State) : option State :=
  match ops with
  | [] => Some st
  | op :: ops' =>
      match final (exec fuel op st) with
      | Some st' => run fuel ops' st'
      | None => None
      end
  end.

(** ** Frame properties

    [preserves R c]: whatever state [c] ends in, by returning or by
    throwing, is related by [R] to the state it started in. *)

Definition preserves (R : State → State → Prop) {A} (c : M A) : Prop :=
  ∀ st, match c st with
        | Ret _ st' => R st st'
        | Throw _ st' => R st st'
        | Fail _ => True
        end.

(** Heaps that only grow, and whose objects change along [P]. *)
Definition heap_rel {V} (P : V → V → Prop) (h h' : gmap nat V) : Prop :=
  ∀ l v, h !! l = Some v → ∃ v', h' !! l = Some v' ∧ P v v'.

(** Relations between an object before and after. *)
Definition same_fiberId (n n' : AsyncResourceNode.t) : Prop :=
  AsyncResourceNode.fiberId n' = AsyncResourceNode.fiberId n.

Definition settled_stays (p p' : Promise.t) : Prop :=
  Promise.settled p ≠ Promise.Pending → Promise.settled p' = Promise.settled p.

Definition same_flags (n n' : AsyncResourceNode.t) : Prop :=
  AsyncResourceNode.flags n' = AsyncResourceNode.flags n.

(** No node is dropped, and no node changes its [fiberId]. *)
Definition fiberIds_kept (st st' : State) : Prop :=
  heap_rel same_fiberId (nodes st) (nodes st').

(** No promise is dropped, and a settled promise stays as it settled. *)
Definition settled_kept (st st' : State) : Prop :=
  heap_rel settled_stays (promises st) (promises st').

(** Both. *)
Definition kept (st st' : State) : Prop := fiberIds_kept st st' ∧ settled_kept st st'.

(** No node is dropped or changes its flags, and no observer is called. *)
Definition quiet (st st' : State) : Prop :=
  heap_rel same_flags (nodes st) (nodes st') ∧ notified st' = notified st.

(** An observer method is called: one entry is added to the log, and no
    node is dropped or changes its flags. *)
Definition notifies (event : Z) (method : oloc → loc → M unit) : Prop :=
  ∀ o l st st',
    final (method o l st) = Some st' →
    heap_rel same_flags (nodes st) (nodes st')
    ∧ notified st' = notified st ++ [(o, event, l)].

(** ** Taint propagation *)

(** The guard of [taintAsyncResourceGraph] does not hold for the node: it is
    marked. *)
Definition marked (mask flags : Z) (n : AsyncResourceNode.t) : Prop :=
  Z.land (Z.land (AsyncResourceNode.flags n) mask) flags ≠ 0%Z.



(** A node keeps its targets, and a marked node stays marked. *)
Definition tainted (mask flags : Z) (n n' : AsyncResourceNode.t) : Prop :=
  AsyncResourceNode.executionTargets n' = AsyncResourceNode.executionTargets n
  ∧ AsyncResourceNode.triggerTargets n' = AsyncResourceNode.triggerTargets n
  ∧ (marked mask flags n → marked mask flags n').

(** No node is added or dropped, and each changes as [tainted] allows. *)
Definition taint_step (mask flags : Z) (st st' : State) : Prop :=
  heap_rel (tainted mask flags) (nodes st) (nodes st')
  ∧ dom (nodes st') ⊆ dom (nodes st).

(** ** Observations *)

(** The flags of the node at [l], 0 if there is none. *)
Definition flags_at (st : State) (l : loc) : Z :=
  from_option AsyncResourceNode.flags 0%Z (nodes st !! l).

(** The way the wrapped result of watchdog [w] has settled. *)
Definition outcome_of (st : State) (w : wloc) : option Promise.state :=
  wd ← watchdogs st !! w;
  pr ← promises st !! Watchdog.watchdogResult wd;
  Some (Promise.settled pr).

(** ** Claims of the specification that fail on the code *)

(** C3 as the specification has it: no operation changes the [fiberId] of
    a node. *)
Definition fiberId_never_changes : Prop :=
  ∀ fuel op st st' l n n',
    final (exec fuel op st) = Some st' →
    nodes st !! l = Some n →
    nodes st' !! l = Some n' →
    AsyncResourceNode.fiberId n' = AsyncResourceNode.fiberId n.

(** C5 as the specification has it: the check returns without rejecting
    when a pending node is blocking, and rejects otherwise. *)
Definition stall_check_as_specified : Prop :=
  ∀ st w wd fb rn pr,
    stall_ready st w wd fb rn pr →
    let st1 := upd_watchdogs (insert w (Watchdog.set_watchdogImmediate false wd)) st in
    stallWatchdog w st =
      Ret tt
        (if existsb (blocking st) (Watchdog.pendingExecutionTargets wd) then st1
         else upd_promises
                (insert (Watchdog.watchdogResult wd)
                   (Promise.reject
                      (FiberError FIBER_STALL (Watchdog.fiber wd) (stall_node st wd fb rn))
                      pr))
                st1).

(** C6 as the specification has it, for a node that is not active: its
    flags stay as they are. *)
Definition inactive_flags_unchanged : Prop :=
  ∀ ev fuel asyncId st st' l n n',
    final (hook_of ev fuel asyncId st) = Some st' →
    locate fuel st asyncId = Some l →
    nodes st !! l = Some n →
    AsyncResourceNode.active n = false →
    nodes st' !! l = Some n' →
    AsyncResourceNode.flags n' = AsyncResourceNode.flags n.

(** C10 as the specification has it, for every [fn] that throws. *)
Definition throwing_fn_restores_stack : Prop :=
  ∀ fuel fn params frame st e st_fn,
    stack_allocated st →
    refs_allocated st →
    fn (fiber_entry frame st) = Throw e st_fn →
    let st' := state_after (fiber fuel fn params frame) st in
    fiberStack st' = fiberStack st
    ∧ topmost_active (fibers st') (fiberStack st')
      = topmost_active (fibers st) (fiberStack st).

(** ** States and functions to try the properties on *)

(** After [enable()] in a fresh process, and a second fiber constructed in
    the same execution context but not enabled. *)
Definition two_fibers : State :=
  mkState
    {[ 0 := AsyncResourceNode.new 1 1 None None ]}
    {[ 0 := AsyncResourceFiber.mk 1 0 true None None;
       1 := AsyncResourceFiber.mk 2 0 false (Some 0) None ]}
    ∅ ∅ ∅ ∅ {[ 0 := 0 ]} [0] 3 false true 0 1 [].

(** The second fiber enabled as well. *)
Definition two_fibers_enabled : State :=
  mkState
    {[ 0 := AsyncResourceNode.new 2 1 None None ]}
    {[ 0 := AsyncResourceFiber.mk 1 0 true None None;
       1 := AsyncResourceFiber.mk 2 0 true (Some 0) None ]}
    ∅ ∅ ∅ ∅ {[ 0 := 0 ]} [0; 1] 3 false true 0 1 [].

(** The process after [enable()]. *)
Definition enabled : State := state_after (enable None) (initial 0 1).

(** A process in which [enable()] was called, and then [fiber(fn)] with an
    [fn] that created promise 3 in the fiber and returned a promise that is
    still pending. *)
Definition awaiting : State :=
  state_after
    (enable None ;;;
     fiber 5 (Hook.init 5 3 "PROMISE" 1 2 None ;;; newPromise) {| abort := None |} None)
    (initial 0 1).

(** Scenario 1 of the specification: a promise created in the root fiber,
    then a fiber whose function awaits it. *)
Definition parent_trigger : State :=
  state_after
    (enable None ;;;
     Hook.init 5 2 "PROMISE" 1 1 None ;;;
     fiber 5 (Hook.init 5 3 "PROMISE" 2 2 None ;;; newPromise) {| abort := None |} None)
    (initial 0 1).

(** A fiber with a cancellation signal, and the signal raised. *)
Definition cancelled : State :=
  state_after
    (enable None ;;;
     let* signal := newAbortSignal in
     fiber 5 newPromise {| abort := Some signal |} None ;;;
     signalAbort 5 signal (VString "cancelled"))
    (initial 0 1).

(** A timer of the root fiber runs and, before it finishes, starts a fiber:
    its node, node 1 with id 2, is the root of the fiber, which the watchdog
    has made inactive. *)
Definition fiber_in_timer : State :=
  state_after
    (enable None ;;;
     Hook.init 5 2 "Timeout" 1 1 None ;;;
     enterContext 1 2 ;;;
     Hook.before 5 2 ;;;
     fiber 5 (Hook.init 5 3 "PROMISE" 2 2 None ;;; newPromise) {| abort := None |} None ;;;
     ret tt)
    (initial 0 1).

(** A timer of the root fiber runs, creates a promise and finishes; then a
    fiber with a cancellation signal is started in the root context.  Node 1
    is the timer, finalized; node 2 is the promise, reachable from the root
    through the timer only. *)
Definition finished_timer : State :=
  state_after
    (enable None ;;;
     Hook.init 5 2 "Timeout" 1 1 None ;;;
     enterContext 1 2 ;;;
     Hook.before 5 2 ;;;
     Hook.init 5 3 "PROMISE" 2 2 None ;;;
     Hook.after 5 2 ;;;
     enterContext 0 1 ;;;
     let* signal := newAbortSignal in
     fiber 5 newPromise {| abort := Some signal |} None ;;;
     ret tt)
    (initial 0 1).

(** Two promise nodes, each a trigger target of the other. *)
Definition await_each_other : State :=
  mkState
    {[ 0 := AsyncResourceNode.mk 1 1 (Some "PROMISE"%string) true None None (Some 1)
              [] [(2%Z, 1)] INIT None;
       1 := AsyncResourceNode.mk 2 1 (Some "PROMISE"%string) true None None (Some 0)
              [] [(1%Z, 0)] INIT None ]}
    ∅ ∅ ∅ ∅ ∅ {[ 0 := 0 ]} [] 1 false false 0 1 [].


(** An [fn] that creates a promise and then throws. *)
Definition fn_throws : M ploc :=
  Hook.init 5 3 "PROMISE" 1 2 None ;;; throw (VString "boom").

(** An [fn] that calls [disable()] on the fiber that [enable()] returned,
    fiber 0 of [enabled], and then throws. *)
Definition fn_disables_and_throws : M ploc :=
  Fiber.disable 0 ;;; throw (VString "boom").

(** A fiber with a cancellation signal whose function awaits a promise it
    created, node 1 with id 3; the signal is raised, and the runtime is
    inside a hook callback. *)
Definition aborted_in_hook : State :=
  set_hookActive true
    (state_after
       (enable None ;;;
        let* signal := newAbortSignal in
        fiber 5 (Hook.init 5 3 "PROMISE" 1 2 None ;;; newPromise)
          {| abort := Some signal |} None ;;;
        signalAbort 5 signal (VString "cancelled"))
       (initial 0 1)).

(** ** Abort validation *)

(** The fault that the abort check finds for a node, the first that
    applies: the node itself is flagged [ABORTED]; its trigger origin is,
    which is a fault of the fiber if the origin belongs to it and of a
    foreign fiber otherwise; the cancellation signal is raised, and the fault
    is its reason.  [fiber] and [fiberId] are those of the supervised fiber,
    [t] is the trigger origin of the node with its address, and [signal] the
    cancellation signal, if there are such. *)
Definition abort_fault (fiber : floc) (fiberId : nat) (node : loc)
    (n : AsyncResourceNode.t) (t : option (loc * AsyncResourceNode.t))
    (signal : option AbortSignal.t) : option JsValue :=
  let by_signal :=
    match signal with
    | Some sg => if AbortSignal.aborted sg then Some (AbortSignal.reason sg) else None
    | None => None
    end in
  if has_flag (AsyncResourceNode.flags n) ABORTED then
    Some (FiberError FIBER_ABORTED fiber node)
  else
    match t with
    | Some (t_addr, tn) =>
        if has_flag (AsyncResourceNode.flags tn) ABORTED then
          Some (FiberError
                  (if decide (AsyncResourceNode.fiberId tn = fiberId)
                   then FIBER_ABORTED else FOREIGN_ASYNC_ABORTED)
                  fiber t_addr)
        else by_signal
    | None => by_signal
    end.

(** The cancellation signal of a watchdog. *)
Definition signal_of (st : State) (wd : Watchdog.t) : option AbortSignal.t :=
  s ← Watchdog.abort wd; signals st !! s.

(** Scenario 1 of the specification at the point where [fiber] calls
    [fiberWatchdog]: fiber 1 is enabled, and its function has created the
    promise with id 3, triggered by the promise with id 2 of the root fiber,
    and returned promise 0. *)
Definition before_watchdog : State :=
  state_after
    (enable None ;;;
     Hook.init 5 2 "PROMISE" 1 1 None ;;;
     let* f := Fiber.new None in
     Fiber.enable f ;;;
     Hook.init 5 3 "PROMISE" 2 2 None ;;;
     newPromise)
    (initial 0 1).

(** User code settles a promise in the given way. *)
Definition settlePromise (p : ploc) (s : Promise.state) : M unit :=
  match s with
  | Promise.Pending => ret tt
  | Promise.Fulfilled result => resolvePromise p result
  | Promise.Rejected reason => rejectPromise p reason
  end.

(** A stack of two call sites: [emit] of node's [events] module, and below
    it a site of the application that has no name. *)
Definition example_stack : list CallSite.t :=
  [ CallSite.mk (Some "node:events"%string) (Some 12%Z) (Some 3%Z)
      (Some "emit"%string) None (Some "EventEmitter"%string) false false false;
    CallSite.mk (Some "/app/main.js"%string) (Some 7%Z) (Some 1%Z)
      None None None true false false ].

(** The node at [l] is not finalized. *)
Definition unfinished (st : State) (l : loc) : bool :=
  match nodes st !! l with
  | Some n => (Z.land (AsyncResourceNode.flags n) FINALIZED =? 0)%Z
  | None => false
  end.

(** The execution targets of every node are allocated nodes of a smaller
    rank: the graph that the execution targets span has no cycle. *)
Definition targets_descend (rank : loc → nat) (st : State) : Prop :=
  map_Forall
    (λ l n, Forall (λ t, is_Some (nodes st !! t) ∧ rank t < rank l)
              (map_values (AsyncResourceNode.executionTargets n)))
    (nodes st).

(** An [fn] that creates a promise and returns a promise. *)
Definition fn_returns : M ploc :=
  Hook.init 5 3 "PROMISE" 1 2 None ;;; newPromise.

(** ** How nodes age *)

(** A node keeps its id, its type and its frame; its flags only gain bits;
    and once it is not active, it stays so. *)
Definition node_ages (n n' : AsyncResourceNode.t) : Prop :=
  AsyncResourceNode.asyncId n' = AsyncResourceNode.asyncId n
  ∧ AsyncResourceNode.type n' = AsyncResourceNode.type n
  ∧ AsyncResourceNode.frame n' = AsyncResourceNode.frame n
  ∧ Z.lor (AsyncResourceNode.flags n) (AsyncResourceNode.flags n')
    = AsyncResourceNode.flags n'
  ∧ (AsyncResourceNode.active n = false → AsyncResourceNode.active n' = false).

(** No node is dropped, and each ages. *)
Definition ages (st st' : State) : Prop := heap_rel node_ages (nodes st) (nodes st').

(** ** Outside the hook callbacks *)

(** [c], started while no hook callback runs, ends with no hook callback
    running, and throws nothing but a [TypeError]. *)
Definition outside_hook {A} (c : M A) : Prop :=
  ∀ st, _asyncResourceGraphHookActive st = false →
    match c st with
    | Ret _ st' => _asyncResourceGraphHookActive st' = false
    | Throw e st' =>
        _asyncResourceGraphHookActive st' = false ∧ ∃ message, e = TypeError message
    | Fail _ => True
    end.

(** ** The fibers of a running process *)

(** The stack holds a fiber at most once, and only fibers whose [active]
    flag is set. *)
Definition stack_wf (st : State) : Prop :=
  NoDup (fiberStack st)
  ∧ Forall (λ f, is_active (fibers st) f = true) (fiberStack st).

(** Ids are handed out in order: every fiber has an id from 1 up to the
    counter, no two fibers share one, and the parent of a fiber is a fiber
    with a smaller id. *)
Definition ids_wf (st : State) : Prop :=
  0 < _fiberIdx st
  ∧ (∀ f fb, fibers st !! f = Some fb →
       0 < AsyncResourceFiber.fiberId fb < _fiberIdx st)
  ∧ (∀ f g fb gb,
       fibers st !! f = Some fb → fibers st !! g = Some gb →
       AsyncResourceFiber.fiberId fb = AsyncResourceFiber.fiberId gb → f = g)
  ∧ (∀ f fb p,
       fibers st !! f = Some fb → AsyncResourceFiber.parent fb = Some p →
       ∃ pb, fibers st !! p = Some pb
             ∧ AsyncResourceFiber.fiberId pb < AsyncResourceFiber.fiberId fb).

(** The hook is armed exactly while the stack holds a fiber. *)
Definition arming_wf (st : State) : Prop :=
  hookEnabled st = bool_decide (fiberStack st ≠ []).

Definition fibers_wf (st : State) : Prop := stack_wf st ∧ ids_wf st ∧ arming_wf st.

(** The fibers, the stack, the id counter and the arming of the hook are
    as they were. *)
Definition fibers_kept (st st' : State) : Prop :=
  fibers st' = fibers st
  ∧ fiberStack st' = fiberStack st
  ∧ _fiberIdx st' = _fiberIdx st
  ∧ hookEnabled st' = hookEnabled st.

(** The flag is as it was, or cleared. *)
Definition flag_calm (st st' : State) : Prop :=
  _asyncResourceGraphHookActive st' = false
  ∨ _asyncResourceGraphHookActive st' = _asyncResourceGraphHookActive st.

(** The current execution context is not tracked: its resource carries no
    node, or a node that is not active. *)
Definition untracked_context (st : State) : Prop :=
  match fiberRefs st !! executionAsyncResource st with
  | None => True
  | Some l =>
      match nodes st !! l with
      | Some n => AsyncResourceNode.active n = false
      | None => False
      end
  end.

(** What the [init] callback leaves of a node once it has linked the new
    node to its execution origin: everything but the trigger edges and the
    observer. *)
Definition same_core (n n' : AsyncResourceNode.t) : Prop :=
  AsyncResourceNode.asyncId n' = AsyncResourceNode.asyncId n
  ∧ AsyncResourceNode.fiberId n' = AsyncResourceNode.fiberId n
  ∧ AsyncResourceNode.type n' = AsyncResourceNode.type n
  ∧ AsyncResourceNode.frame n' = AsyncResourceNode.frame n
  ∧ AsyncResourceNode.active n' = AsyncResourceNode.active n
  ∧ AsyncResourceNode.executionOrigin n' = AsyncResourceNode.executionOrigin n
  ∧ AsyncResourceNode.executionTargets n' = AsyncResourceNode.executionTargets n
  ∧ AsyncResourceNode.flags n' = AsyncResourceNode.flags n.

Definition core_kept (st st' : State) : Prop :=
  heap_rel same_core (nodes st) (nodes st')
  ∧ fiberRefs st' = fiberRefs st
  ∧ executionAsyncResource st' = executionAsyncResource st.

(** The nodes are as they were. *)
Definition nodes_same (st st' : State) : Prop := nodes st' = nodes st.

(** What links the new node to its trigger origin, and what an observer
    callback does, leave of a node: the core, and the observer. *)
Definition same_link (n n' : AsyncResourceNode.t) : Prop :=
  same_core n n'
  ∧ AsyncResourceNode.notifyObserver n' = AsyncResourceNode.notifyObserver n.

Definition links_kept (st st' : State) : Prop :=
  heap_rel same_link (nodes st) (nodes st')
  ∧ observers st' = observers st
  ∧ notified st' = notified st.

(** A node keeps its [fiberId] and its execution targets, and the observer
    [o] if it has it. *)
Definition stays_observed (o : oloc) (n n' : AsyncResourceNode.t) : Prop :=
  AsyncResourceNode.fiberId n' = AsyncResourceNode.fiberId n
  ∧ AsyncResourceNode.executionTargets n' = AsyncResourceNode.executionTargets n
  ∧ (AsyncResourceNode.notifyObserver n = Some o →
     AsyncResourceNode.notifyObserver n' = Some o).

Definition observed_kept (o : oloc) (st st' : State) : Prop :=
  heap_rel (stays_observed o) (nodes st) (nodes st')
  ∧ dom (observers st) ⊆ dom (observers st').

(** The node at [l] is observed by [o]. *)
Definition observed_by (st : State) (o : oloc) (l : loc) : Prop :=
  ∃ n, nodes st !! l = Some n ∧ AsyncResourceNode.notifyObserver n = Some o.

(** What [_onExecute] does once the new node is linked to the node of the
    execution context: it sets the trigger edge and notifies the observer. *)
Definition onExecute_rest (fuel : nat) (this node : loc) (asyncId triggerAsyncId : Z)
    : M unit :=
  let* triggerNode :=
    if decide (asyncId ≠ triggerAsyncId) then getAsyncResourceNode fuel triggerAsyncId
    else ret None in
  match triggerNode with
  | Some triggerNode =>
      updNode node (AsyncResourceNode.set_triggerOrigin (Some triggerNode)) ;;;
      updNode triggerNode
        (λ tn, AsyncResourceNode.set_triggerTargets
                 (map_set asyncId node (AsyncResourceNode.triggerTargets tn)) tn)
  | None => ret tt
  end ;;;
  let* n := getNode this in
  match AsyncResourceNode.notifyObserver n with
  | Some observer => Observer._onInit observer node
  | None => ret tt
  end.

(** The state in which it does so. *)
Definition linked (asyncId : Z) (type : string) (resource : rloc)
    (frame : option StackFrame) (this : loc) (n : AsyncResourceNode.t) (st : State)
    : State :=
  let node := fresh (dom (nodes st)) in
  let created :=
    AsyncResourceNode.new (AsyncResourceNode.fiberId n) asyncId (Some type) frame in
  upd_nodes
    (insert this
       (AsyncResourceNode.set_executionTargets
          (map_set asyncId node (AsyncResourceNode.executionTargets n)) n))
    (upd_fiberRefs (insert resource node)
       (upd_nodes
          (insert node (AsyncResourceNode.set_executionOrigin (Some this) created))
          (upd_nodes (insert node created) (set_hookActive true st)))).

(** A node keeps its trigger edges. *)
Definition same_trigger (n n' : AsyncResourceNode.t) : Prop :=
  AsyncResourceNode.triggerOrigin n' = AsyncResourceNode.triggerOrigin n
  ∧ AsyncResourceNode.triggerTargets n' = AsyncResourceNode.triggerTargets n.

Definition triggers_kept (st st' : State) : Prop :=
  heap_rel same_trigger (nodes st) (nodes st').

(** The execution origin of every node is an allocated node of a smaller
    rank, and every rank is below the number of nodes: the chain of
    execution origins of a node ends, after fewer steps than there are
    nodes. *)
Definition origins_ascend (rank : loc → nat) (st : State) : Prop :=
  map_Forall
    (λ l n, rank l < size (nodes st)
            ∧ from_option
                (λ origin, is_Some (nodes st !! origin) ∧ rank origin < rank l)
                True (AsyncResourceNode.executionOrigin n))
    (nodes st).

(** The chains end, and every resource that [fiberRefs] maps is mapped to
    a node. *)
Definition chain_wf (st : State) : Prop :=
  (∃ rank, origins_ascend rank st) ∧ refs_allocated st.

Definition chain_step (st st' : State) : Prop := chain_wf st → chain_wf st'.

(** Every execution target of a node is a node that was created for the
    [asyncId] it is stored under, in the execution context of that node. *)
Definition targets_point_back (st : State) : Prop :=
  ∀ origin n asyncId target,
    nodes st !! origin = Some n →
    map_get asyncId (AsyncResourceNode.executionTargets n) = Some target →
    ∃ c, nodes st !! target = Some c
         ∧ AsyncResourceNode.asyncId c = asyncId
         ∧ AsyncResourceNode.executionOrigin c = Some origin.

Definition targets_step (st st' : State) : Prop :=
  targets_point_back st → targets_point_back st'.

(** A node keeps its [asyncId] and its execution edges. *)
Definition same_place (n n' : AsyncResourceNode.t) : Prop :=
  AsyncResourceNode.asyncId n' = AsyncResourceNode.asyncId n
  ∧ AsyncResourceNode.executionOrigin n' = AsyncResourceNode.executionOrigin n
  ∧ AsyncResourceNode.executionTargets n' = AsyncResourceNode.executionTargets n.

(** A timer that was started in a timer of the root context runs: the node
    of the execution context is node 2, with the chain of origins 2, 1, 0. *)
Definition nested_timers : State :=
  state_after
    (enable None ;;;
     Hook.init 5 2 "Timeout" 1 1 None ;;;
     enterContext 1 2 ;;;
     Hook.init 5 3 "Timeout" 2 2 None ;;;
     enterContext 2 3)
    (initial 0 1).

(** A list of ids in which each is smaller than the one before. *)
Fixpoint descending (bound : nat) (ids : list nat) : Prop :=
  match ids with
  | [] => True
  | id :: ids' => id < bound ∧ descending id ids'
  end.

(** * Properties *)

(** ** Arrays *)

Lemma indexOf_from_notin x l i : x ∉ l → indexOf_from x l i = (-1)%Z.
Proof.
  revert i. induction l as [|y l IH]; intros i Hx; simpl; [done|].
  apply not_elem_of_cons in Hx as [Hne Hx].
  destruct (decide (y = x)); [congruence|]. by apply IH.
Qed.

Lemma indexOf_from_first x l1 l2 i :
  x ∉ l1 → indexOf_from x (l1 ++ x :: l2) i = (i + Z.of_nat (length l1))%Z.
Proof.
  revert i. induction l1 as [|y l1 IH]; intros i Hx; simpl.
  - destruct (decide (x = x)); [lia|done].
  - apply not_elem_of_cons in Hx as [Hne Hx].
    destruct (decide (y = x)); [congruence|]. rewrite IH by done. lia.
Qed.

Lemma splice_found {A} (l1 l2 : list A) (x : A) :
  splice (l1 ++ x :: l2) (Z.of_nat (length l1)) 1 = l1 ++ l2.
Proof.
  unfold splice. rewrite length_app. simpl.
  destruct (Z.ltb_spec (Z.of_nat (length l1)) 0); [lia|].
  rewrite Z.min_l by lia.
  replace (Z.min (Z.max 1 0) _) with 1%Z by lia.
  rewrite Nat2Z.id.
  replace (Z.to_nat (Z.of_nat (length l1) + 1)) with (length l1 + 1) by lia.
  rewrite take_app_length.
  rewrite drop_app_add'; [|done]. done.
Qed.

Lemma splice_not_found {A} (l : list A) : splice l (-1) 1 = removelast l.
Proof.
  unfold splice. simpl.
  destruct l as [|a l] using rev_ind; [done|].
  rewrite removelast_last, length_app. simpl.
  replace (Z.max _ 0) with (Z.of_nat (length l)) by lia.
  replace (Z.min (Z.max 1 0) _) with 1%Z by lia.
  rewrite Nat2Z.id.
  replace (Z.to_nat (Z.of_nat (length l) + 1)) with (length l + 1) by lia.
  rewrite take_app_length.
  rewrite drop_ge; [by rewrite app_nil_r|]. rewrite length_app. simpl. lia.
Qed.

Lemma splice_subseteq {A} (l : list A) start deleteCount :
  splice l start deleteCount ⊆ l.
Proof.
  unfold splice. intros x [Hx|Hx]%elem_of_app.
  - by apply (subseteq_take _ _ _ Hx).
  - by apply (subseteq_drop _ _ _ Hx).
Qed.

(** ** Running the monad *)

(** [bind] after the first computation has run. *)
Lemma bind_Ret {A B} (c : M A) (k : A → M B) st a st' :
  c st = Ret a st' → bind c k st = k a st'.
Proof. unfold bind. by intros ->. Qed.

Lemma bind_Throw {A B} (c : M A) (k : A → M B) st e st' :
  c st = Throw e st' → bind c k st = Throw e st'.
Proof. unfold bind. by intros ->. Qed.

Lemma bind_Fail {A B} (c : M A) (k : A → M B) st f :
  c st = Fail f → bind c k st = Fail f.
Proof. unfold bind. by intros ->. Qed.

(** Reads and writes at allocated addresses. *)
Lemma getNode_Some st l n : nodes st !! l = Some n → getNode l st = Ret n st.
Proof. unfold getNode, bind, gets, deref. by intros ->. Qed.

Lemma updNode_Some st l n f :
  nodes st !! l = Some n → updNode l f st = Ret tt (upd_nodes (insert l (f n)) st).
Proof. intros H. unfold updNode. by rewrite (bind_Ret _ _ _ _ _ (getNode_Some _ _ _ H)). Qed.

Lemma getFiberObj_Some st f fb : fibers st !! f = Some fb → getFiberObj f st = Ret fb st.
Proof. unfold getFiberObj, bind, gets, deref. by intros ->. Qed.

Lemma updFiberObj_Some st f fb g :
  fibers st !! f = Some fb →
  updFiberObj f g st = Ret tt (upd_fibers (insert f (g fb)) st).
Proof. intros H. unfold updFiberObj. by rewrite (bind_Ret _ _ _ _ _ (getFiberObj_Some _ _ _ H)). Qed.

Lemma getWatchdog_Some st w wd : watchdogs st !! w = Some wd → getWatchdog w st = Ret wd st.
Proof. unfold getWatchdog, bind, gets, deref. by intros ->. Qed.

Lemma updWatchdog_Some st w wd f :
  watchdogs st !! w = Some wd →
  updWatchdog w f st = Ret tt (upd_watchdogs (insert w (f wd)) st).
Proof. intros H. unfold updWatchdog. by rewrite (bind_Ret _ _ _ _ _ (getWatchdog_Some _ _ _ H)). Qed.

Lemma getSignal_Some st s sg : signals st !! s = Some sg → getSignal s st = Ret sg st.
Proof. unfold getSignal, bind, gets, deref. by intros ->. Qed.

Lemma getPromise_Some st p pr : promises st !! p = Some pr → getPromise p st = Ret pr st.
Proof. unfold getPromise, bind, gets, deref. by intros ->. Qed.

Lemma updPromise_Some st p pr f :
  promises st !! p = Some pr →
  updPromise p f st = Ret tt (upd_promises (insert p (f pr)) st).
Proof. intros H. unfold updPromise. by rewrite (bind_Ret _ _ _ _ _ (getPromise_Some _ _ _ H)). Qed.

(** Unfold the monad and the accesses to nodes and fibers, in a hypothesis
    or in the goal. *)
Ltac unfold_monad H :=
  cbv beta iota delta
    [bind gets modify ret deref getNode updNode getFiberObj updFiberObj] in H;
  simpl in H.

Ltac unfold_goal :=
  cbv beta iota delta
    [bind gets modify ret deref getNode updNode getFiberObj updFiberObj];
  simpl.

(** ** The fiber stack *)

(** [getFiber] returns the topmost active fiber and leaves the state as it
    is. *)
Lemma getFiber_from_find st l :
  (∀ f, f ∈ l → is_Some (fibers st !! f)) →
  getFiber_from l st = Ret (List.find (is_active (fibers st)) l) st.
Proof.
  induction l as [|f l IH]; intros Hl; simpl; [done|].
  destruct (Hl f) as [fb Hfb]; [by left|].
  rewrite (bind_Ret _ _ _ _ _ (getFiberObj_Some _ _ _ Hfb)).
  unfold is_active at 1. rewrite Hfb.
  destruct (AsyncResourceFiber.active fb); [done|].
  apply IH. intros g Hg. apply Hl. by right.
Qed.

Lemma getFiber_topmost st :
  stack_allocated st →
  getFiber st = Ret (topmost_active (fibers st) (fiberStack st)) st.
Proof.
  intros Hst. unfold getFiber, bind, gets.
  apply getFiber_from_find. intros f Hf.
  apply (proj1 (Forall_forall _ _) Hst). by apply elem_of_reverse.
Qed.

Lemma getFiber_from_value l st top st' :
  getFiber_from l st = Ret top st' →
  st' = st ∧ top = List.find (is_active (fibers st)) l.
Proof.
  induction l as [|f l IH]; simpl; [by intros [= <- <-]|].
  cbv beta iota delta [bind getFiberObj gets deref ret]. unfold is_active at 1.
  destruct (fibers st !! f) as [fb|]; simpl; [|done].
  destruct (AsyncResourceFiber.active fb); [by intros [= <- <-]|done].
Qed.

Lemma getFiber_from_no_throw l st e st' : getFiber_from l st ≠ Throw e st'.
Proof.
  induction l as [|f l IH]; simpl; [done|].
  cbv beta iota delta [bind getFiberObj gets deref ret].
  destruct (fibers st !! f) as [fb|]; simpl; [|done].
  by destruct (AsyncResourceFiber.active fb).
Qed.

Lemma fiberId_or_0_id st top :
  (∀ f, top = Some f → is_Some (fibers st !! f)) →
  Fiber.fiberId_or_0 top st = Ret (id_of (fibers st) top) st.
Proof.
  destruct top as [f|]; simpl; [|done]. intros Hf.
  destruct (Hf f eq_refl) as [fb Hfb].
  rewrite (bind_Ret _ _ _ _ _ (getFiberObj_Some _ _ _ Hfb)). rewrite Hfb. simpl.
  unfold ret. by destruct (decide _) as [->|].
Qed.

Lemma fiberId_or_0_value top st id st' :
  Fiber.fiberId_or_0 top st = Ret id st' →
  st' = st ∧ id = id_of (fibers st) top.
Proof.
  destruct top as [f|]; simpl; [|by intros [= <- <-]].
  cbv beta iota delta [bind getFiberObj gets deref ret].
  destruct (fibers st !! f) as [fb|]; simpl; [|done].
  intros [= <- <-]. split; [done|]. by destruct (decide _) as [->|].
Qed.

Lemma fiberId_or_0_no_throw top st e st' : Fiber.fiberId_or_0 top st ≠ Throw e st'.
Proof.
  destruct top as [f|]; simpl; [|done].
  cbv beta iota delta [bind getFiberObj gets deref ret].
  by destruct (fibers st !! f).
Qed.

Lemma topmost_active_elem fs stack f :
  topmost_active fs stack = Some f → f ∈ stack ∧ is_active fs f = true.
Proof.
  unfold topmost_active. intros H. apply find_some in H as [Hin Hact].
  split; [|done]. apply elem_of_reverse. by apply list_elem_of_In.
Qed.

Lemma find_ext {A} (f g : A → bool) (l : list A) :
  (∀ x, x ∈ l → f x = g x) → List.find f l = List.find g l.
Proof.
  induction l as [|x l IH]; intros H; simpl; [done|].
  rewrite <- (H x) by by left. destruct (f x); [done|].
  apply IH. intros y Hy. apply H. by right.
Qed.

Lemma topmost_active_ext fs fs' stack :
  (∀ f, f ∈ stack → fs' !! f = fs !! f) →
  topmost_active fs' stack = topmost_active fs stack.
Proof.
  intros H. unfold topmost_active. apply find_ext. intros f Hf.
  unfold is_active. rewrite H; [done|]. by apply elem_of_reverse.
Qed.

Lemma stack_allocated_fresh st :
  stack_allocated st → fresh (dom (fibers st)) ∉ fiberStack st.
Proof.
  intros Hst Hin. apply (proj1 (Forall_forall _ _) Hst) in Hin.
  apply (is_fresh (dom (fibers st))). by apply elem_of_dom.
Qed.

(** ** The constructor, [enable] and [disable] *)

(** What the constructor does to the state. *)
Lemma Fiber_new_run frame st :
  stack_allocated st →
  refs_allocated st →
  ∃ root rn st0,
    Fiber.new frame st = Ret (fresh (dom (fibers st))) st0
    ∧ fibers st0 =
        <[fresh (dom (fibers st)) :=
            AsyncResourceFiber.mk (_fiberIdx st) root false
              (topmost_active (fibers st) (fiberStack st)) frame]> (fibers st)
    ∧ fiberStack st0 = fiberStack st
    ∧ nodes st0 !! root = Some rn.
Proof.
  intros Hstack Hrefs. unfold Fiber.new.
  unfold bind at 1, gets at 1. unfold bind at 1, modify at 1.
  unfold bind at 1, gets at 1. unfold bind at 1, executionNode at 1, gets at 1.
  simpl.
  set (st_a := set_fiberIdx _ st).
  destruct (fiberRefs st !! executionAsyncResource st) as [root|] eqn:Href.
  - destruct (Hrefs _ _ Href) as [rn Hrn].
    unfold bind at 1, ret at 1.
    rewrite (bind_Ret _ _ _ _ _ (getFiber_topmost st_a Hstack)).
    exists root, rn. eexists. unfold allocFiber. unfold_goal. by repeat split.
  - unfold bind at 1. unfold bind at 1, gets at 1.
    unfold bind at 1, allocNode at 1. unfold_goal.
    set (st_b := upd_fiberRefs _ _).
    assert (Hstack_b : stack_allocated st_b) by exact Hstack.
    rewrite (getFiber_topmost st_b Hstack_b).
    eexists _, _, _. unfold allocFiber. unfold_goal.
    repeat split. apply lookup_insert_eq.
Qed.

(** What [enable] does to the whole state, for a fiber that is not active. *)
Lemma Fiber_enable_run st this fb n :
  fibers st !! this = Some fb →
  AsyncResourceFiber.active fb = false →
  nodes st !! AsyncResourceFiber.root fb = Some n →
  Fiber.enable this st =
    Ret this
      (set_hookEnabled true
         (upd_fiberStack (λ s, s ++ [this])
            (upd_fibers (insert this (AsyncResourceFiber.set_active true fb))
               (upd_nodes (insert (AsyncResourceFiber.root fb)
                             (AsyncResourceNode.set_fiberId
                                (AsyncResourceFiber.fiberId fb) n)) st)))).
Proof.
  intros Hfb Hactive Hn. unfold Fiber.enable. unfold_goal.
  rewrite Hfb. simpl. rewrite Hactive. simpl. rewrite Hn. simpl. by rewrite Hfb.
Qed.

(** The state in which [fn] starts. *)
Lemma fiber_entry_run frame st :
  stack_allocated st →
  refs_allocated st →
  let f := fresh (dom (fibers st)) in
  ∃ fb rn,
    (let* f := Fiber.new frame in Fiber.enable f) st = Ret f (fiber_entry frame st)
    ∧ fibers (fiber_entry frame st) = <[f := fb]> (fibers st)
    ∧ fiberStack (fiber_entry frame st) = fiberStack st ++ [f]
    ∧ nodes (fiber_entry frame st) !! AsyncResourceFiber.root fb = Some rn.
Proof.
  intros Hstack Hrefs f. unfold fiber_entry, state_after.
  destruct (Fiber_new_run frame st Hstack Hrefs) as (root & rn & st0 & Hnew & Hf0 & Hs0 & Hn0).
  fold f in Hnew, Hf0.
  rewrite (bind_Ret _ _ _ _ _ Hnew).
  erewrite Fiber_enable_run; [| by rewrite Hf0, lookup_insert_eq | done | exact Hn0].
  eexists _, _. split; [done|]. simpl. rewrite Hf0, Hs0.
  split; [by rewrite insert_insert_eq|]. split; [done|]. apply lookup_insert_eq.
Qed.

(** What [disable] does to the whole state. *)
Lemma disable_run st this fb n :
  fibers st !! this = Some fb →
  nodes st !! AsyncResourceFiber.root fb = Some n →
  stack_allocated st →
  let stack' := splice (fiberStack st) (indexOf (fiberStack st) this) 1 in
  let top := topmost_active (fibers st) stack' in
  Fiber.disable this st =
    Ret this
      (upd_fibers (insert this (AsyncResourceFiber.set_active false fb))
         (upd_nodes (insert (AsyncResourceFiber.root fb)
                       (AsyncResourceNode.set_fiberId (id_of (fibers st) top) n))
            ((if decide (length stack' = 0) then set_hookEnabled false else id)
               (upd_fiberStack (λ _, stack') st)))).
Proof.
  intros Hfb Hn Hst stack' top.
  assert (Hsub : ∀ f, f ∈ stack' → is_Some (fibers st !! f)).
  { intros f Hf. apply (proj1 (Forall_forall _ _) Hst).
    by apply (splice_subseteq _ _ _ _ Hf). }
  unfold Fiber.disable.
  unfold bind at 1. unfold modify at 1.
  unfold bind at 1. unfold gets at 1. simpl. fold stack'.
  set (st1 := upd_fiberStack _ st).
  set (st2 := (if decide (length stack' = 0) then set_hookEnabled false else id) st1).
  assert (Hst2 : fibers st2 = fibers st ∧ nodes st2 = nodes st ∧ fiberStack st2 = stack').
  { unfold st2. destruct (decide _); done. }
  destruct Hst2 as (Hf2 & Hn2 & Hs2).
  assert (bind (if decide (length stack' = 0) then modify (set_hookEnabled false)
                else ret tt)
            (λ _, let* fb := getFiberObj this in
                  let* top := getFiber in
                  let* id := Fiber.fiberId_or_0 top in
                  updNode (AsyncResourceFiber.root fb) (AsyncResourceNode.set_fiberId id) ;;;
                  updFiberObj this (AsyncResourceFiber.set_active false) ;;;
                  ret this) st1
          = (let* fb := getFiberObj this in
             let* top := getFiber in
             let* id := Fiber.fiberId_or_0 top in
             updNode (AsyncResourceFiber.root fb) (AsyncResourceNode.set_fiberId id) ;;;
             updFiberObj this (AsyncResourceFiber.set_active false) ;;;
             ret this) st2) as ->.
  { unfold st2. unfold bind at 1. by destruct (decide _). }
  rewrite (bind_Ret _ _ _ _ _ (getFiberObj_Some st2 this fb ltac:(by rewrite Hf2))).
  assert (Hall2 : stack_allocated st2).
  { apply Forall_forall. intros f Hf. rewrite Hs2 in Hf. rewrite Hf2. by apply Hsub. }
  rewrite (bind_Ret _ _ _ _ _ (getFiber_topmost st2 Hall2)).
  rewrite Hf2, Hs2. fold top.
  assert (Hid : Fiber.fiberId_or_0 top st2 = Ret (id_of (fibers st) top) st2).
  { rewrite <- Hf2. apply fiberId_or_0_id. intros f Hf. rewrite Hf2.
    apply topmost_active_elem in Hf as [Hf _]. by apply Hsub. }
  rewrite (bind_Ret _ _ _ _ _ Hid).
  rewrite (bind_Ret _ _ _ _ _ (updNode_Some st2 _ n _ ltac:(by rewrite Hn2))).
  erewrite bind_Ret; last first.
  { apply updFiberObj_Some. simpl. by rewrite Hf2. }
  unfold ret. f_equal.
Qed.

(** The example states are reached by the code. *)
Example two_fibers_reached :
  bind (enable None) (λ _, Fiber.new None) (initial 0 1) = Ret 1 two_fibers.
Proof. vm_compute. reflexivity. Qed.

Example two_fibers_enabled_reached :
  Fiber.enable 1 two_fibers = Ret 1 two_fibers_enabled.
Proof. vm_compute. reflexivity. Qed.

(** C8: [disable] on a fiber of the stack removes that fiber, wherever it
    stands; disarms the hook exactly when the stack is empty afterwards; and
    stamps the root with the id of the topmost remaining active fiber, or 0. *)
Theorem disable_removes_self st this fb n :
  fibers st !! this = Some fb →
  nodes st !! AsyncResourceFiber.root fb = Some n →
  stack_allocated st →
  this ∈ fiberStack st →
  ∃ st' below above,
    Fiber.disable this st = Ret this st'
    ∧ fiberStack st = below ++ this :: above ∧ (this ∉ below)
    ∧ fiberStack st' = below ++ above
    ∧ hookEnabled st' =
        (if decide (fiberStack st' = []) then false else hookEnabled st)
    ∧ nodes st' !! AsyncResourceFiber.root fb =
        Some (AsyncResourceNode.set_fiberId
                (id_of (fibers st) (topmost_active (fibers st) (below ++ above))) n).
Proof.
  intros Hfb Hn Hst Hin.
  destruct (list_elem_of_split_l _ _ Hin) as (below & above & Hsplit & Hbelow).
  pose proof (disable_run st this fb n Hfb Hn Hst) as Hrun. simpl in Hrun.
  rewrite Hsplit in Hrun.
  unfold indexOf in Hrun. rewrite indexOf_from_first in Hrun by done.
  rewrite Z.add_0_l, splice_found in Hrun.
  eexists _, below, above. split; [exact Hrun|].
  split; [done|]. split; [done|].
  assert (Hlen : length (below ++ above) = 0 ↔ below ++ above = []).
  { split; [apply nil_length_inv | by intros ->]. }
  repeat split.
  - simpl. by destruct (decide _).
  - simpl. destruct (decide (length _ = 0)) as [Hl|Hl]; simpl;
      destruct (decide (below ++ above = [])) as [He|He]; try done.
    + by apply Hlen in Hl.
    + by apply Hlen in He.
  - simpl. by rewrite lookup_insert_eq.
Qed.

Lemma disable_removes_self_witness :
  ∃ st' below above,
    Fiber.disable 0 two_fibers_enabled = Ret 0 st'
    ∧ fiberStack two_fibers_enabled = below ++ 0 :: above ∧ (0 ∉ below)
    ∧ fiberStack st' = below ++ above
    ∧ hookEnabled st' =
        (if decide (fiberStack st' = []) then false else hookEnabled two_fibers_enabled)
    ∧ nodes st' !! 0 =
        Some (AsyncResourceNode.set_fiberId
                (id_of (fibers two_fibers_enabled)
                   (topmost_active (fibers two_fibers_enabled) (below ++ above)))
                (AsyncResourceNode.new 2 1 None None)).
Proof.
  apply (disable_removes_self two_fibers_enabled 0
           (AsyncResourceFiber.mk 1 0 true None None)
           (AsyncResourceNode.new 2 1 None None)).
  - reflexivity.
  - reflexivity.
  - apply (bool_decide_unpack _). vm_compute. exact I.
  - apply (bool_decide_unpack _). vm_compute. exact I.
Defined.

(** C9: [disable] on a fiber that is not on a non-empty stack removes the
    last entry, which is another fiber, so the stack changes. *)
Theorem disable_absent_removes_last st this fb n :
  fibers st !! this = Some fb →
  nodes st !! AsyncResourceFiber.root fb = Some n →
  stack_allocated st →
  this ∉ fiberStack st →
  fiberStack st ≠ [] →
  ∃ st' other,
    Fiber.disable this st = Ret this st'
    ∧ fiberStack st = fiberStack st' ++ [other]
    ∧ (other ≠ this)
    ∧ (fiberStack st' ≠ fiberStack st).
Proof.
  intros Hfb Hn Hst Hnotin Hne.
  pose proof (disable_run st this fb n Hfb Hn Hst) as Hrun. simpl in Hrun.
  unfold indexOf in Hrun. rewrite indexOf_from_notin in Hrun by done.
  rewrite splice_not_found in Hrun.
  destruct (fiberStack st) as [|other s _] eqn:Hs using rev_ind; [done|].
  rewrite removelast_last in Hrun.
  eexists _, other. split; [exact Hrun|].
  assert (Hstack : ∀ st0 : State,
            fiberStack ((if decide (length s = 0) then set_hookEnabled false else id)
                          (upd_fiberStack (λ _, s) st0)) = s).
  { intros st0. by destruct (decide _). }
  simpl. rewrite Hstack. split; [done|]. split.
  - intros ->. apply Hnotin. set_solver.
  - intros Heq. apply (f_equal length) in Heq. rewrite length_app in Heq.
    simpl in Heq. lia.
Qed.

Lemma disable_absent_removes_last_witness :
  ∃ st' other,
    Fiber.disable 1 two_fibers = Ret 1 st'
    ∧ fiberStack two_fibers = fiberStack st' ++ [other]
    ∧ (other ≠ 1)
    ∧ (fiberStack st' ≠ fiberStack two_fibers).
Proof.
  apply (disable_absent_removes_last two_fibers 1
           (AsyncResourceFiber.mk 2 0 false (Some 0) None)
           (AsyncResourceNode.new 1 1 None None)).
  - reflexivity.
  - reflexivity.
  - apply (bool_decide_unpack _). vm_compute. exact I.
  - apply (bool_decide_unpack _). vm_compute. exact I.
  - discriminate.
Defined.

(** ** [fiber(fn)] with an [fn] that throws *)

(** C10, as the code has it: when [fn] throws and has left the fiber stack
    and the fiber objects on it as it found them, [fiber] rethrows what [fn]
    threw, after [disable] in the [finally] block has taken the new fiber off
    the stack: the stack and the topmost active fiber, which is what
    [getFiber()] returns, are those of before the call. *)
Theorem fiber_throw_restores_stack fuel fn params frame st e st_fn :
  stack_allocated st →
  refs_allocated st →
  fn (fiber_entry frame st) = Throw e st_fn →
  fiberStack st_fn = fiberStack (fiber_entry frame st) →
  Forall (λ g, fibers st_fn !! g = fibers (fiber_entry frame st) !! g)
    (fiberStack st_fn) →
  dom (nodes (fiber_entry frame st)) ⊆ dom (nodes st_fn) →
  ∃ st',
    fiber fuel fn params frame st = Throw e st'
    ∧ fiberStack st' = fiberStack st
    ∧ topmost_active (fibers st') (fiberStack st')
      = topmost_active (fibers st) (fiberStack st)
    ∧ getFiber st' = Ret (topmost_active (fibers st) (fiberStack st)) st'.
Proof.
  intros Hstack Hrefs Hfn Hkeep Hfibers Hnodes.
  pose proof (proj1 (Forall_forall _ _) Hfibers) as Hfibers'. simpl in Hfibers'.
  clear Hfibers. rename Hfibers' into Hfibers.
  destruct (fiber_entry_run frame st Hstack Hrefs) as (fb & rn & Hentry & Hf1 & Hs1 & Hn1).
  set (f := fresh (dom (fibers st))) in *.
  set (st1 := fiber_entry frame st) in *.
  pose proof (stack_allocated_fresh st Hstack) as Hfresh. fold f in Hfresh.
  (* the new fiber and its root, when [disable] runs *)
  assert (Hf_fn : fibers st_fn !! f = Some fb).
  { rewrite Hfibers; [by rewrite Hf1, lookup_insert_eq|]. rewrite Hkeep, Hs1. set_solver. }
  assert (∃ rn', nodes st_fn !! AsyncResourceFiber.root fb = Some rn') as [rn' Hrn'].
  { apply elem_of_dom, Hnodes, elem_of_dom. by exists rn. }
  assert (Hold : ∀ g, g ∈ fiberStack st → fibers st_fn !! g = fibers st !! g).
  { intros g Hg. rewrite Hfibers; [|rewrite Hkeep, Hs1; set_solver].
    rewrite Hf1, lookup_insert_ne; [done|]. by intros <-. }
  assert (Hstack_fn : stack_allocated st_fn).
  { apply Forall_forall. intros g Hg. rewrite Hkeep, Hs1 in Hg.
    apply elem_of_app in Hg as [Hg|Hg].
    - rewrite (Hold g Hg). by apply (proj1 (Forall_forall _ _) Hstack).
    - apply list_elem_of_singleton in Hg as ->. by rewrite Hf_fn. }
  pose proof (disable_run st_fn f fb rn' Hf_fn Hrn' Hstack_fn) as Hdisable.
  simpl in Hdisable. rewrite Hkeep, Hs1 in Hdisable.
  unfold indexOf in Hdisable.
  rewrite (indexOf_from_first f (fiberStack st) [] 0 Hfresh) in Hdisable.
  rewrite Z.add_0_l, splice_found, app_nil_r in Hdisable.
  (* the run of [fiber] *)
  unfold fiber.
  assert (∃ st0, Fiber.new frame st = Ret f st0 ∧ Fiber.enable f st0 = Ret f st1)
    as (st0 & Hnew & Henable).
  { unfold bind in Hentry. destruct (Fiber.new frame st) as [f' st0| |] eqn:Hnew; [|done..].
    destruct (Fiber_new_run frame st Hstack Hrefs) as (? & ? & ? & Hnew' & _).
    rewrite Hnew in Hnew'. simplify_eq. eexists. split; [reflexivity|done]. }
  rewrite (bind_Ret _ _ _ _ _ Hnew). unfold try_finally.
  rewrite (bind_Ret _ _ _ _ _ Henable), (bind_Throw _ _ _ _ _ Hfn).
  rewrite (bind_Ret _ _ _ _ _ Hdisable). unfold ret.
  eexists. split; [done|].
  set (st_c := (if decide _ then _ else _) _).
  assert (Hc : fiberStack st_c = fiberStack st ∧ fibers st_c = fibers st_fn).
  { unfold st_c. by destruct (decide _). }
  destruct Hc as [Hsc Hfc]. simpl. rewrite Hsc, Hfc.
  assert (Htop : topmost_active
                   (<[f:=AsyncResourceFiber.set_active false fb]> (fibers st_fn))
                   (fiberStack st)
                 = topmost_active (fibers st) (fiberStack st)).
  { apply topmost_active_ext. intros g Hg.
    rewrite lookup_insert_ne; [by apply Hold|]. by intros <-. }
  split; [done|]. split; [done|].
  rewrite <- Htop.
  match goal with |- getFiber ?s = _ => pose proof (getFiber_topmost s) as Hget end.
  simpl in Hget. rewrite Hsc, Hfc in Hget. apply Hget.
  apply Forall_forall. intros g Hg. simpl in Hg. rewrite Hsc in Hg. simpl. rewrite Hfc.
  destruct (decide (g = f)) as [->|Hne]; [by rewrite lookup_insert_eq|].
  rewrite lookup_insert_ne by done. rewrite (Hold g Hg).
  by apply (proj1 (Forall_forall _ _) Hstack).
Qed.

Lemma fiber_throw_restores_stack_witness :
  ∃ st',
    fiber 5 fn_throws {| abort := None |} None enabled = Throw (VString "boom") st'
    ∧ fiberStack st' = fiberStack enabled
    ∧ topmost_active (fibers st') (fiberStack st')
      = topmost_active (fibers enabled) (fiberStack enabled)
    ∧ getFiber st' = Ret (topmost_active (fibers enabled) (fiberStack enabled)) st'.
Proof.
  apply (fiber_throw_restores_stack 5 fn_throws {| abort := None |} None enabled
           (VString "boom") (state_after fn_throws (fiber_entry None enabled))).
  - apply (bool_decide_unpack _). vm_compute. exact I.
  - apply (bool_decide_unpack _). vm_compute. exact I.
  - vm_compute. reflexivity.
  - vm_compute. reflexivity.
  - apply (bool_decide_unpack _). vm_compute. exact I.
  - apply (bool_decide_unpack _). vm_compute. exact I.
Defined.

(** C10 as stated fails: an [fn] that disables the fiber that was active
    before the call, and then throws, leaves the new fiber alone on the
    stack; the [disable] of the [finally] block removes it, and the stack is
    empty where it held one fiber before the call. *)
Lemma throwing_fn_restores_stack_counterexample : ¬ throwing_fn_restores_stack.
Proof.
  intros Hclaim.
  destruct (Hclaim 5 fn_disables_and_throws {| abort := None |} None enabled
              (VString "boom")
              (state_after fn_disables_and_throws (fiber_entry None enabled)))
    as [Hstack _].
  - apply (bool_decide_unpack _). vm_compute. exact I.
  - apply (bool_decide_unpack _). vm_compute. exact I.
  - vm_compute. reflexivity.
  - vm_compute in Hstack. discriminate.
Qed.

(** ** Ownership validation *)




Example parent_trigger_rejected :
  ownership_table 2 0 [1]
    (AsyncResourceNode.mk 3 2 (Some "PROMISE"%string) true None (Some 0) (Some 1)
       [] [] 0 (Some 0))
    (trigger_of parent_trigger
       (AsyncResourceNode.mk 3 2 (Some "PROMISE"%string) true None (Some 0)
          (Some 1) [] [] 0 (Some 0)))
  = Reject PARENT_ASYNC_TRIGGER
  ∧ outcome_of parent_trigger 0
    = Some (Promise.Rejected (FiberError PARENT_ASYNC_TRIGGER 1 2)).
Proof. split; by vm_compute. Qed.

(** ** Stall detection *)

Lemma hasAsyncIO_existsb st pending :
  Forall (allocated st) pending →
  hasAsyncIO pending st = Ret (existsb (blocking st) pending) st.
Proof.
  induction 1 as [|l pending [n Hn] _ IH]; simpl; [done|].
  rewrite (bind_Ret _ _ _ _ _ (getNode_Some _ _ _ Hn)).
  assert (blocking st l =
            (Z.land (AsyncResourceNode.flags n) FINALIZED =? 0)%Z
            && negb (bool_decide (AsyncResourceNode.type n = Some "PROMISE"%string)))
    as -> by (unfold blocking; by rewrite Hn).
  by destruct (_ && _).
Qed.

Lemma filterM_owned st fiberId targets :
  Forall (allocated st) targets →
  filterM (λ node, let* n := getNode node in
                   ret (bool_decide (AsyncResourceNode.fiberId n = fiberId)))
    targets st
  = Ret (List.filter (owned_by st fiberId) targets) st.
Proof.
  induction 1 as [|l targets [n Hn] _ IH]; simpl; [done|].
  unfold bind at 1. rewrite (bind_Ret _ _ _ _ _ (getNode_Some _ _ _ Hn)).
  unfold ret at 1. rewrite (bind_Ret _ _ _ _ _ IH).
  assert (owned_by st fiberId l = bool_decide (AsyncResourceNode.fiberId n = fiberId))
    as -> by (unfold owned_by; by rewrite Hn).
  done.
Qed.

Lemma executionTargets_owned st f fb rn :
  fibers st !! f = Some fb →
  nodes st !! AsyncResourceFiber.root fb = Some rn →
  Forall (allocated st) (map_values (AsyncResourceNode.executionTargets rn)) →
  Fiber.executionTargets f st =
    Ret (List.filter (owned_by st (AsyncResourceFiber.fiberId fb))
           (map_values (AsyncResourceNode.executionTargets rn))) st.
Proof.
  intros Hf Hr Hall. unfold Fiber.executionTargets.
  rewrite (bind_Ret _ _ _ _ _ (getFiberObj_Some _ _ _ Hf)).
  rewrite (bind_Ret _ _ _ _ _ (getNode_Some _ _ _ Hr)).
  by apply filterM_owned.
Qed.

Lemma lastExecutionTarget_stall_node st w wd fb rn :
  watchdogs st !! w = Some wd →
  fibers st !! Watchdog.fiber wd = Some fb →
  nodes st !! AsyncResourceFiber.root fb = Some rn →
  Forall (allocated st) (map_values (AsyncResourceNode.executionTargets rn)) →
  lastExecutionTarget w st = Ret (stall_node st wd fb rn) st.
Proof.
  intros Hw Hf Hr Hall. unfold lastExecutionTarget, stall_node.
  rewrite (bind_Ret _ _ _ _ _ (getWatchdog_Some _ _ _ Hw)).
  destruct (Watchdog.pendingExecutionTargets wd) as [|x pending _] using rev_ind.
  { simpl.
    rewrite (bind_Ret _ _ _ _ _ (executionTargets_owned _ _ _ _ Hf Hr Hall)).
    destruct (last _); [done|].
    by rewrite (bind_Ret _ _ _ _ _ (getFiberObj_Some _ _ _ Hf)). }
  rewrite last_snoc. destruct (decide _) as [|Hlen]; [done|].
  rewrite length_app in Hlen. simpl in Hlen. lia.
Qed.

(** C5, as the code has it: the stall check first clears the immediate; it
    returns without rejecting when the cancellation signal is raised, or when
    some pending node is blocking; otherwise it rejects the wrapped result
    with a [FIBER_STALL] fault at [stall_node]. *)
Theorem stallWatchdog_run st w wd fb rn pr :
  stall_ready st w wd fb rn pr →
  let st1 := upd_watchdogs (insert w (Watchdog.set_watchdogImmediate false wd)) st in
  stallWatchdog w st =
    Ret tt
      (if signal_raised st wd then st1
       else if existsb (blocking st) (Watchdog.pendingExecutionTargets wd) then st1
       else upd_promises
              (insert (Watchdog.watchdogResult wd)
                 (Promise.reject
                    (FiberError FIBER_STALL (Watchdog.fiber wd) (stall_node st wd fb rn))
                    pr))
              st1).
Proof.
  intros [Hw Hf Hr Hp Hpend Htargets Hsig] st1. unfold stallWatchdog.
  rewrite (bind_Ret _ _ _ _ _ (updWatchdog_Some _ _ _ _ Hw)). fold st1.
  assert (Hw1 : watchdogs st1 !! w = Some (Watchdog.set_watchdogImmediate false wd)).
  { apply lookup_insert_eq. }
  rewrite (bind_Ret _ _ _ _ _ (getWatchdog_Some _ _ _ Hw1)). simpl.
  unfold signal_raised.
  assert (Hrest :
    (let* io := hasAsyncIO (Watchdog.pendingExecutionTargets wd) in
     if negb io
     then
      let* node := lastExecutionTarget w in
      updPromise (Watchdog.watchdogResult wd)
        (Promise.reject (FiberError FIBER_STALL (Watchdog.fiber wd) node))
     else ret tt) st1
    = Ret tt
        (if existsb (blocking st) (Watchdog.pendingExecutionTargets wd) then st1
         else upd_promises
                (insert (Watchdog.watchdogResult wd)
                   (Promise.reject
                      (FiberError FIBER_STALL (Watchdog.fiber wd) (stall_node st wd fb rn))
                      pr))
                st1)).
  { rewrite (bind_Ret _ _ _ _ _ (hasAsyncIO_existsb st1 _ Hpend)).
    change (blocking st1) with (blocking st).
    destruct (existsb _ _); simpl; [done|].
    rewrite (bind_Ret _ _ _ _ _
               (lastExecutionTarget_stall_node st1 w _ fb rn Hw1 Hf Hr Htargets)).
    exact (updPromise_Some st1 _ _ _ Hp). }
  destruct (Watchdog.abort wd) as [s|] eqn:Habort.
  - destruct (Hsig s eq_refl) as [sg Hsg].
    unfold bind at 1. unfold bind at 1.
    rewrite (getSignal_Some st1 s sg Hsg). unfold ret at 1. rewrite Hsg. simpl.
    destruct (AbortSignal.aborted sg); [done|]. exact Hrest.
  - unfold bind at 1. unfold ret at 1. exact Hrest.
Qed.

Lemma stallWatchdog_run_witness :
  stallWatchdog 0 awaiting =
    Ret tt
      (let wd := Watchdog.mk 1 None [1] [1] 1 true in
       let st1 :=
         upd_watchdogs (insert 0 (Watchdog.set_watchdogImmediate false wd)) awaiting in
       if signal_raised awaiting wd then st1
       else if existsb (blocking awaiting) (Watchdog.pendingExecutionTargets wd) then st1
       else upd_promises
              (insert (Watchdog.watchdogResult wd)
                 (Promise.reject
                    (FiberError FIBER_STALL (Watchdog.fiber wd)
                       (stall_node awaiting wd
                          (AsyncResourceFiber.mk 2 0 false (Some 0) None)
                          (AsyncResourceNode.mk 1 1 None false None None None
                             [(3%Z, 1)] [(3%Z, 1)] 0 None)))
                    (Promise.mk Promise.Pending [])))
              st1).
Proof.
  apply (stallWatchdog_run awaiting 0
           (Watchdog.mk 1 None [1] [1] 1 true)
           (AsyncResourceFiber.mk 2 0 false (Some 0) None)
           (AsyncResourceNode.mk 1 1 None false None None None [(3%Z, 1)] [(3%Z, 1)] 0 None)
           (Promise.mk Promise.Pending [])).
  split.
  - vm_compute. reflexivity.
  - vm_compute. reflexivity.
  - vm_compute. reflexivity.
  - vm_compute. reflexivity.
  - apply (bool_decide_unpack _). vm_compute. exact I.
  - apply (bool_decide_unpack _). vm_compute. exact I.
  - intros s. discriminate.
Defined.

(** Scenario 5 of the specification: the stall check rejects with
    [FIBER_STALL] at the pending promise. *)
Example awaiting_stalls :
  outcome_of (state_after (runImmediate 0) awaiting) 0
  = Some (Promise.Rejected (FiberError FIBER_STALL 1 1)).
Proof. by vm_compute. Qed.

(** C5 as stated fails: with the signal raised and nothing pending, the
    check returns and the wrapped result stays pending. *)
Lemma stall_check_as_specified_counterexample : ¬ stall_check_as_specified.
Proof.
  intros Hclaim.
  specialize (Hclaim cancelled 0
                (Watchdog.mk 1 (Some 0) [1] [] 1 true)
                (AsyncResourceFiber.mk 2 0 false (Some 0) None)
                (AsyncResourceNode.mk 1 1 None false None None None [] [] 8 None)
                (Promise.mk Promise.Pending [])).
  simpl in Hclaim.
  assert (Hready : stall_ready cancelled 0
                (Watchdog.mk 1 (Some 0) [1] [] 1 true)
                (AsyncResourceFiber.mk 2 0 false (Some 0) None)
                (AsyncResourceNode.mk 1 1 None false None None None [] [] 8 None)
                (Promise.mk Promise.Pending [])).
  { split; try (vm_compute; reflexivity).
    - apply (bool_decide_unpack _). vm_compute. exact I.
    - apply (bool_decide_unpack _). vm_compute. exact I.
    - intros s [= <-]. eexists. vm_compute. reflexivity. }
  specialize (Hclaim Hready).
  apply (f_equal (λ o, match o with
                       | Ret _ st => outcome_of st 0
                       | _ => None
                       end)) in Hclaim.
  vm_compute in Hclaim. discriminate.
Qed.

(** ** Frame properties

    Lemmas on [preserves R], for any preorder [R] on states, and a tactic
    that walks through a computation with them. *)

Section Frame.

Context (R : State → State → Prop) `{!PreOrder R}.

Lemma preserves_ret {A} (a : A) : preserves R (ret a).
Proof. intros st. simpl. reflexivity. Qed.

Lemma preserves_throw {A} e : preserves R (@throw A e).
Proof. intros st. simpl. reflexivity. Qed.

Lemma preserves_fail {A} f : preserves R (@fail A f).
Proof. by intros st. Qed.

Lemma preserves_gets {A} (f : State → A) : preserves R (gets f).
Proof. intros st. simpl. reflexivity. Qed.

Lemma preserves_deref {A} (o : option A) : preserves R (deref o).
Proof. destruct o; [apply preserves_ret | apply preserves_fail]. Qed.

Lemma preserves_modify f : (∀ st, R st (f st)) → preserves R (modify f).
Proof. intros H st. apply H. Qed.

Lemma preserves_bind {A B} (c : M A) (k : A → M B) :
  preserves R c → (∀ a, preserves R (k a)) → preserves R (bind c k).
Proof.
  intros Hc Hk st. unfold bind. specialize (Hc st).
  destruct (c st) as [a st'| |]; [|done..].
  specialize (Hk a st'). destruct (k a st'); [..|done]; by etrans.
Qed.

Lemma preserves_try_finally {A} (body : M A) (fin : M unit) :
  preserves R body → preserves R fin → preserves R (try_finally body fin).
Proof.
  intros Hb Hf st. unfold try_finally. specialize (Hb st).
  destruct (body st) as [a st'|e st'|]; [| |done];
    specialize (Hf st'); destruct (fin st'); try done; by etrans.
Qed.

Lemma preserves_forM_ {A} (l : list A) (f : A → M unit) :
  (∀ x, preserves R (f x)) → preserves R (forM_ l f).
Proof.
  intros Hf. induction l as [|x l IH]; simpl; [apply preserves_ret|].
  apply preserves_bind; [apply Hf | by intros _].
Qed.

Lemma preserves_filterM {A} (p : A → M bool) (l : list A) :
  (∀ x, preserves R (p x)) → preserves R (filterM p l).
Proof.
  intros Hp. induction l as [|x l IH]; simpl; [apply preserves_ret|].
  apply preserves_bind; [apply Hp | intros b].
  apply preserves_bind; [apply IH | intros r; apply preserves_ret].
Qed.

(** A bound value that was read from the state it is used in. *)
Lemma preserves_read {A B} (f : State → option A) (k : A → M B) :
  (∀ st a, f st = Some a →
     match k a st with
     | Ret _ st' => R st st'
     | Throw _ st' => R st st'
     | Fail _ => True
     end) →
  preserves R (bind (bind (gets f) deref) k).
Proof.
  intros H st. unfold bind, gets, deref. destruct (f st) as [a|] eqn:Hf; [|done].
  simpl. by apply H.
Qed.

Lemma preserves_getNode l : preserves R (getNode l).
Proof. apply preserves_bind; [apply preserves_gets | intros; apply preserves_deref]. Qed.

Lemma preserves_getFiberObj l : preserves R (getFiberObj l).
Proof. apply preserves_bind; [apply preserves_gets | intros; apply preserves_deref]. Qed.

Lemma preserves_getObserver l : preserves R (getObserver l).
Proof. apply preserves_bind; [apply preserves_gets | intros; apply preserves_deref]. Qed.

Lemma preserves_getWatchdog l : preserves R (getWatchdog l).
Proof. apply preserves_bind; [apply preserves_gets | intros; apply preserves_deref]. Qed.

Lemma preserves_getSignal l : preserves R (getSignal l).
Proof. apply preserves_bind; [apply preserves_gets | intros; apply preserves_deref]. Qed.

Lemma preserves_getPromise l : preserves R (getPromise l).
Proof. apply preserves_bind; [apply preserves_gets | intros; apply preserves_deref]. Qed.

Lemma preserves_updNode l f :
  (∀ st n, nodes st !! l = Some n → R st (upd_nodes (insert l (f n)) st)) →
  preserves R (updNode l f).
Proof. intros H. apply preserves_read. intros st n Hn. by apply H. Qed.

Lemma preserves_updFiberObj l f :
  (∀ st fb, fibers st !! l = Some fb → R st (upd_fibers (insert l (f fb)) st)) →
  preserves R (updFiberObj l f).
Proof. intros H. apply preserves_read. intros st n Hn. by apply H. Qed.

Lemma preserves_updWatchdog l f :
  (∀ st wd, watchdogs st !! l = Some wd → R st (upd_watchdogs (insert l (f wd)) st)) →
  preserves R (updWatchdog l f).
Proof. intros H. apply preserves_read. intros st n Hn. by apply H. Qed.

Lemma preserves_updSignal l f :
  (∀ st sg, signals st !! l = Some sg → R st (upd_signals (insert l (f sg)) st)) →
  preserves R (updSignal l f).
Proof. intros H. apply preserves_read. intros st n Hn. by apply H. Qed.

Lemma preserves_updPromise l f :
  (∀ st pr, promises st !! l = Some pr → R st (upd_promises (insert l (f pr)) st)) →
  preserves R (updPromise l f).
Proof. intros H. apply preserves_read. intros st n Hn. by apply H. Qed.

Lemma preserves_alloc {A} (next : State → A) (store : A → State → State) :
  (∀ st, R st (store (next st) st)) →
  preserves R (bind (gets next) (λ l, bind (modify (store l)) (λ _, ret l))).
Proof. intros H st. apply H. Qed.

End Frame.

Lemma preserves_weaken (R R' : State → State → Prop) {A} (c : M A) :
  (∀ st st', R st st' → R' st st') → preserves R c → preserves R' c.
Proof. intros HR Hc st. specialize (Hc st). destruct (c st); auto. Qed.

Lemma final_preserves (R : State → State → Prop) {A} (c : M A) st st' :
  preserves R c → final (c st) = Some st' → R st st'.
Proof.
  intros Hc Hfinal. specialize (Hc st).
  destruct (c st); simpl in Hfinal; by simplify_eq.
Qed.

Ltac head_of t :=
  lazymatch t with
  | ?f _ => head_of f
  | _ => t
  end.

Ltac tc_done :=
  lazymatch goal with
  | |- PreOrder _ => apply _
  | _ => idtac
  end.

Ltac frame_step :=
  lazymatch goal with
  | |- preserves _ (bind _ _) => apply preserves_bind; tc_done; [|intros ?]
  | |- preserves _ (ret _) => apply preserves_ret; tc_done
  | |- preserves _ (throw _) => apply preserves_throw; tc_done
  | |- preserves _ (fail _) => apply preserves_fail; tc_done
  | |- preserves _ (gets _) => apply preserves_gets; tc_done
  | |- preserves _ (deref _) => apply preserves_deref; tc_done
  | |- preserves _ (modify _) => apply preserves_modify; tc_done; intros ?
  | |- preserves _ (try_finally _ _) => apply preserves_try_finally; tc_done
  | |- preserves _ (forM_ _ _) => apply preserves_forM_; tc_done; intros ?
  | |- preserves _ (filterM _ _) => apply preserves_filterM; tc_done; intros ?
  | |- preserves _ (getNode _) => apply preserves_getNode; tc_done
  | |- preserves _ (getFiberObj _) => apply preserves_getFiberObj; tc_done
  | |- preserves _ (getObserver _) => apply preserves_getObserver; tc_done
  | |- preserves _ (getWatchdog _) => apply preserves_getWatchdog; tc_done
  | |- preserves _ (getSignal _) => apply preserves_getSignal; tc_done
  | |- preserves _ (getPromise _) => apply preserves_getPromise; tc_done
  | |- preserves _ (updNode _ _) => apply preserves_updNode; tc_done; intros ? ? ?
  | |- preserves _ (updFiberObj _ _) => apply preserves_updFiberObj; tc_done; intros ? ? ?
  | |- preserves _ (updWatchdog _ _) => apply preserves_updWatchdog; tc_done; intros ? ? ?
  | |- preserves _ (updSignal _ _) => apply preserves_updSignal; tc_done; intros ? ? ?
  | |- preserves _ (updPromise _ _) => apply preserves_updPromise; tc_done; intros ? ? ?
  | |- preserves _ (allocNode _) => apply preserves_alloc; tc_done; intros ?
  | |- preserves _ (allocFiber _) => apply preserves_alloc; tc_done; intros ?
  | |- preserves _ (allocObserver _) => apply preserves_alloc; tc_done; intros ?
  | |- preserves _ (allocPromise _) => apply preserves_alloc; tc_done; intros ?
  | |- preserves _ (if ?b then _ else _) => destruct b
  | |- preserves _ (match ?x with _ => _ end) => destruct x
  | |- preserves _ ?c =>
      first [ solve [eauto with frame]
            | let h := head_of c in unfold h ]
  end.

Ltac frame := repeat frame_step.

(** *** Heaps that only grow *)

Lemma heap_rel_refl {V} (P : V → V → Prop) `{!Reflexive P} h : heap_rel P h h.
Proof. intros l v Hl. by exists v. Qed.

Lemma heap_rel_trans {V} (P : V → V → Prop) `{!Transitive P} h1 h2 h3 :
  heap_rel P h1 h2 → heap_rel P h2 h3 → heap_rel P h1 h3.
Proof.
  intros H12 H23 l v Hl. destruct (H12 l v Hl) as (v2 & Hl2 & Hv2).
  destruct (H23 l v2 Hl2) as (v3 & Hl3 & Hv3). exists v3. split; [done|by etrans].
Qed.

Lemma heap_rel_update {V} (P : V → V → Prop) `{!Reflexive P} h l v v' :
  h !! l = Some v → P v v' → heap_rel P h (<[l:=v']> h).
Proof.
  intros Hl HP k u Hk. destruct (decide (l = k)) as [->|Hne].
  - rewrite lookup_insert_eq. exists v'. split; [done|]. congruence.
  - rewrite lookup_insert_ne by done. by exists u.
Qed.

Lemma heap_rel_alloc {V} (P : V → V → Prop) `{!Reflexive P} (h : gmap nat V) v :
  heap_rel P h (<[fresh (dom h):=v]> h).
Proof.
  intros k u Hk. rewrite lookup_insert_ne; [by exists u|].
  intros <-. apply (is_fresh (dom h)). apply elem_of_dom. by exists u.
Qed.

(** *** What every operation but [enable] and [disable] keeps *)

#[local] Instance same_fiberId_preorder : PreOrder same_fiberId.
Proof. split; [by intros ?|]. unfold same_fiberId. intros a b c Hab Hbc. congruence. Qed.

#[local] Instance settled_stays_preorder : PreOrder settled_stays.
Proof.
  split; [by intros ?|]. unfold settled_stays. intros a b c Hab Hbc Ha.
  rewrite Hbc; [by apply Hab|]. by rewrite Hab.
Qed.

#[local] Instance fiberIds_kept_preorder : PreOrder fiberIds_kept.
Proof.
  split; [intros st; apply heap_rel_refl; apply _|].
  intros a b c. apply heap_rel_trans. apply _.
Qed.

#[local] Instance settled_kept_preorder : PreOrder settled_kept.
Proof.
  split; [intros st; apply heap_rel_refl; apply _|].
  intros a b c. apply heap_rel_trans. apply _.
Qed.

#[local] Instance kept_preorder : PreOrder kept.
Proof.
  split; [intros st; split; reflexivity|].
  intros a b c [] []. split; by etrans.
Qed.

Lemma resolve_settled result p : settled_stays p (Promise.resolve result p).
Proof. unfold settled_stays, Promise.resolve. by destruct (Promise.settled p) eqn:E. Qed.

Lemma reject_settled reason p : settled_stays p (Promise.reject reason p).
Proof. unfold settled_stays, Promise.reject. by destruct (Promise.settled p) eqn:E. Qed.

Ltac kept_heap :=
  simpl;
  first
    [ apply heap_rel_refl; apply _
    | apply heap_rel_alloc; apply _
    | eapply heap_rel_update;
      [ apply _
      | eassumption
      | first [ done | apply resolve_settled | apply reject_settled ] ] ].

Ltac kept_side :=
  lazymatch goal with
  | |- kept _ _ => split; [unfold fiberIds_kept | unfold settled_kept]; kept_heap
  | |- fiberIds_kept _ _ => unfold fiberIds_kept; kept_heap
  | |- settled_kept _ _ => unfold settled_kept; kept_heap
  end.

Ltac kept_tac := frame; try kept_side.

Create HintDb frame.

Lemma assertFiberError_kept w error : preserves kept (assertFiberError w error).
Proof. kept_tac. Qed.

#[local] Hint Resolve assertFiberError_kept : frame.

Lemma assertFiberAbort_kept w node : preserves kept (assertFiberAbort w node).
Proof. kept_tac. Qed.

#[local] Hint Resolve assertFiberAbort_kept : frame.

Lemma assertFiberOwnership_kept w node : preserves kept (assertFiberOwnership w node).
Proof. kept_tac. Qed.

#[local] Hint Resolve assertFiberOwnership_kept : frame.

Lemma hasAsyncIO_kept pending : preserves kept (hasAsyncIO pending).
Proof. induction pending; simpl; kept_tac. Qed.

#[local] Hint Resolve hasAsyncIO_kept : frame.

Lemma Fiber_executionTargets_kept f : preserves kept (Fiber.executionTargets f).
Proof. kept_tac. Qed.

#[local] Hint Resolve Fiber_executionTargets_kept : frame.

Lemma lastExecutionTarget_kept w : preserves kept (lastExecutionTarget w).
Proof. kept_tac. Qed.

#[local] Hint Resolve lastExecutionTarget_kept : frame.

Lemma stallWatchdog_kept w : preserves kept (stallWatchdog w).
Proof. kept_tac. Qed.

#[local] Hint Resolve stallWatchdog_kept : frame.

Lemma watchdogObserverFn_kept w event node :
  preserves kept (watchdogObserverFn w event node).
Proof. kept_tac. Qed.

#[local] Hint Resolve watchdogObserverFn_kept : frame.

Lemma Observer_callback_kept o event node :
  preserves kept (Observer.callback o event node).
Proof. kept_tac. Qed.

#[local] Hint Resolve Observer_callback_kept : frame.

Lemma Observer_observe_kept o node : preserves kept (Observer.observe o node).
Proof. kept_tac. Qed.

#[local] Hint Resolve Observer_observe_kept : frame.

Lemma Observer_isObserved_kept o node : preserves kept (Observer.isObserved o node).
Proof. kept_tac. Qed.

#[local] Hint Resolve Observer_isObserved_kept : frame.

Lemma Observer_onInit_kept o node : preserves kept (Observer._onInit o node).
Proof. kept_tac. Qed.

Lemma Observer_onBefore_kept o node : preserves kept (Observer._onBefore o node).
Proof. kept_tac. Qed.

Lemma Observer_onAfter_kept o node : preserves kept (Observer._onAfter o node).
Proof. kept_tac. Qed.

Lemma Observer_onPromiseResolve_kept o node :
  preserves kept (Observer._onPromiseResolve o node).
Proof. kept_tac. Qed.

#[local] Hint Resolve Observer_onInit_kept Observer_onBefore_kept Observer_onAfter_kept
  Observer_onPromiseResolve_kept : frame.

Lemma getAsyncResourceNode_from_kept fuel node asyncId :
  preserves kept (getAsyncResourceNode_from fuel node asyncId).
Proof. revert node. induction fuel; intros node; simpl; kept_tac. Qed.

#[local] Hint Resolve getAsyncResourceNode_from_kept : frame.

Lemma getAsyncResourceNode_kept fuel asyncId :
  preserves kept (getAsyncResourceNode fuel asyncId).
Proof. kept_tac. Qed.

#[local] Hint Resolve getAsyncResourceNode_kept : frame.

Lemma Node_onExecute_kept fuel this asyncId type triggerAsyncId resource frame :
  preserves kept (Node._onExecute fuel this asyncId type triggerAsyncId resource frame).
Proof. kept_tac. Qed.

#[local] Hint Resolve Node_onExecute_kept : frame.

Lemma Node_on_event_kept flag notify this :
  (∀ o l, preserves kept (notify o l)) →
  preserves kept (Node.on_event flag notify this).
Proof. intros H. kept_tac. Qed.

Lemma Node_onBefore_kept this : preserves kept (Node._onBefore this).
Proof. apply Node_on_event_kept. auto with frame. Qed.

Lemma Node_onAfter_kept this : preserves kept (Node._onAfter this).
Proof. apply Node_on_event_kept. auto with frame. Qed.

Lemma Node_onPromiseResolve_kept this : preserves kept (Node._onPromiseResolve this).
Proof. apply Node_on_event_kept. auto with frame. Qed.

#[local] Hint Resolve Node_onBefore_kept Node_onAfter_kept Node_onPromiseResolve_kept : frame.

Lemma Hook_init_kept fuel asyncId type triggerAsyncId resource frame :
  preserves kept (Hook.init fuel asyncId type triggerAsyncId resource frame).
Proof. kept_tac. Qed.

Lemma Hook_on_found_kept fuel asyncId handler :
  (∀ l, preserves kept (handler l)) →
  preserves kept (Hook.on_found fuel asyncId handler).
Proof. intros H. kept_tac. Qed.

Lemma Hook_before_kept fuel asyncId : preserves kept (Hook.before fuel asyncId).
Proof. apply Hook_on_found_kept. auto with frame. Qed.

Lemma Hook_after_kept fuel asyncId : preserves kept (Hook.after fuel asyncId).
Proof. apply Hook_on_found_kept. auto with frame. Qed.

Lemma Hook_promiseResolve_kept fuel asyncId :
  preserves kept (Hook.promiseResolve fuel asyncId).
Proof. apply Hook_on_found_kept. auto with frame. Qed.

#[local] Hint Resolve Hook_init_kept Hook_before_kept Hook_after_kept
  Hook_promiseResolve_kept : frame.

Lemma taintAsyncResourceGraph_kept fuel node mask flags :
  preserves kept (taintAsyncResourceGraph fuel node mask flags).
Proof. revert node. induction fuel; intros node; simpl; kept_tac. Qed.

#[local] Hint Resolve taintAsyncResourceGraph_kept : frame.

Lemma promiseWithReject_kept promise onSettled :
  preserves kept (promiseWithReject promise onSettled).
Proof. kept_tac. Qed.

#[local] Hint Resolve promiseWithReject_kept : frame.

Lemma runReaction_kept promise : preserves kept (runReaction promise).
Proof. kept_tac. Qed.

#[local] Hint Resolve runReaction_kept : frame.

Lemma adopt_kept w observer target stack : preserves kept (adopt w observer target stack).
Proof. kept_tac. Qed.

#[local] Hint Resolve adopt_kept : frame.

Lemma adopt_owned_kept w observer fiberId targets stack :
  preserves kept (adopt_owned w observer fiberId targets stack).
Proof. revert stack. induction targets; intros stack; simpl; kept_tac. Qed.

#[local] Hint Resolve adopt_owned_kept : frame.

Lemma adopt_unobserved_kept w observer targets stack :
  preserves kept (adopt_unobserved w observer targets stack).
Proof. revert stack. induction targets; intros stack; simpl; kept_tac. Qed.

#[local] Hint Resolve adopt_unobserved_kept : frame.

Lemma drain_kept fuel w observer stack : preserves kept (drain fuel w observer stack).
Proof. revert stack. induction fuel; intros stack; simpl; kept_tac. Qed.

#[local] Hint Resolve drain_kept : frame.

Lemma parentFiberIds_kept fuel f : preserves kept (Fiber.parentFiberIds fuel f).
Proof. revert f. induction fuel; intros f; simpl; kept_tac. Qed.

#[local] Hint Resolve parentFiberIds_kept : frame.

Lemma fiberWatchdog_kept fuel f params promise :
  preserves kept (fiberWatchdog fuel f params promise).
Proof. kept_tac. Qed.

#[local] Hint Resolve fiberWatchdog_kept : frame.

Lemma getFiber_from_kept l : preserves kept (getFiber_from l).
Proof. induction l; simpl; kept_tac. Qed.

#[local] Hint Resolve getFiber_from_kept : frame.

Lemma getFiber_kept : preserves kept getFiber.
Proof. kept_tac. Qed.

#[local] Hint Resolve getFiber_kept : frame.

Lemma Fiber_new_kept frame : preserves kept (Fiber.new frame).
Proof. kept_tac. Qed.

#[local] Hint Resolve Fiber_new_kept : frame.

Lemma signalAbort_kept fuel s reason : preserves kept (signalAbort fuel s reason).
Proof. kept_tac. Qed.

Lemma runImmediate_kept w : preserves kept (runImmediate w).
Proof. kept_tac. Qed.

#[local] Hint Resolve signalAbort_kept runImmediate_kept : frame.

(** ** Taint propagation *)



(** C1, on the code: the timer of [finished_timer] is finalized when the
    signal fires, and the promise it created is reachable through it only;
    the taint marks both [ABORTED]. *)
Theorem abort_taints_finalized_node :
  flags_at finished_timer 1 = Z.lor PRE_EXECUTION POST_EXECUTION
  ∧ flags_at finished_timer 2 = INIT
  ∧ ∃ st', signalAbort 5 0 (VString "cancelled") finished_timer = Ret tt st'
      ∧ flags_at st' 1 = Z.lor (Z.lor PRE_EXECUTION POST_EXECUTION) ABORTED
      ∧ flags_at st' 2 = ABORTED.
Proof.
  split; [by vm_compute|]. split; [by vm_compute|].
  eexists. split; [vm_compute; reflexivity|]. by vm_compute.
Qed.



(** *** When the flag shares a bit with the mask *)



#[local] Instance tainted_preorder mask flags : PreOrder (tainted mask flags).
Proof.
  split; [by intros ?|]. intros a b c (He & Ht & Hm) (He' & Ht' & Hm').
  repeat split; [congruence..|auto].
Qed.

#[local] Instance taint_step_preorder mask flags : PreOrder (taint_step mask flags).
Proof.
  split.
  - intros st. split; [apply heap_rel_refl; apply _|done].
  - intros a b c [Hab Dab] [Hbc Dbc]. split; [|set_solver].
    eapply heap_rel_trans; [apply _|done..].
Qed.











(** With [ABORTED] as mask and flag, the two promises that trigger each
    other are tainted at depth 3. *)
Example taint_ends_on_cycle_within_mask :
  ∃ st', taintAsyncResourceGraph 3 0 ABORTED ABORTED await_each_other = Ret tt st'
         ∧ flags_at st' 0 = ABORTED ∧ flags_at st' 1 = ABORTED.
Proof. eexists. split; [vm_compute; reflexivity|]. by vm_compute. Qed.

(** ** Settled promises stay settled *)

Lemma kept_settled {A} (c : M A) : preserves kept c → preserves settled_kept c.
Proof. apply preserves_weaken. by intros st st' []. Qed.

Lemma kept_fiberIds {A} (c : M A) : preserves kept c → preserves fiberIds_kept c.
Proof. apply preserves_weaken. by intros st st' []. Qed.

#[local] Hint Resolve kept_settled kept_fiberIds : frame.

Lemma Fiber_enable_settled f : preserves settled_kept (Fiber.enable f).
Proof. kept_tac. Qed.

Lemma Fiber_disable_settled f : preserves settled_kept (Fiber.disable f).
Proof. kept_tac. Qed.

#[local] Hint Resolve Fiber_enable_settled Fiber_disable_settled : frame.





(** ** Who assigns [fiberId] *)

Lemma exec_fiberIds fuel op :
  (∀ f, op ≠ FiberEnable f) → (∀ f, op ≠ FiberDisable f) →
  preserves fiberIds_kept (exec fuel op).
Proof.
  intros Hen Hdis. destruct op; simpl; try solve [kept_tac].
  - by destruct (Hen f).
  - by destruct (Hdis f).
Qed.

Lemma enable_nodes this st st' l n :
  final (Fiber.enable this st) = Some st' →
  nodes st !! l = Some n →
  ∃ n', nodes st' !! l = Some n'
    ∧ (AsyncResourceNode.fiberId n' = AsyncResourceNode.fiberId n
       ∨ ∃ fb, fibers st !! this = Some fb ∧ l = AsyncResourceFiber.root fb
           ∧ AsyncResourceNode.fiberId n' = AsyncResourceFiber.fiberId fb).
Proof.
  intros Hfinal Hl. unfold Fiber.enable in Hfinal. unfold_monad Hfinal.
  destruct (fibers st !! this) as [fb|] eqn:Hfb; simpl in Hfinal; [|done].
  destruct (AsyncResourceFiber.active fb); simpl in Hfinal.
  { simplify_eq. exists n. auto. }
  destruct (nodes st !! AsyncResourceFiber.root fb) as [rn|] eqn:Hrn;
    simpl in Hfinal; [|done].
  rewrite Hfb in Hfinal. simpl in Hfinal. simplify_eq. simpl.
  destruct (decide (l = AsyncResourceFiber.root fb)) as [->|Hne].
  - rewrite lookup_insert_eq. eexists. split; [done|]. right. by exists fb.
  - rewrite lookup_insert_ne by done. exists n. auto.
Qed.

Lemma disable_nodes this st st' l n :
  final (Fiber.disable this st) = Some st' →
  nodes st !! l = Some n →
  ∃ n', nodes st' !! l = Some n'
    ∧ (AsyncResourceNode.fiberId n' = AsyncResourceNode.fiberId n
       ∨ ∃ fb, fibers st !! this = Some fb ∧ l = AsyncResourceFiber.root fb
           ∧ AsyncResourceNode.fiberId n' =
               id_of (fibers st)
                 (topmost_active (fibers st)
                    (splice (fiberStack st) (indexOf (fiberStack st) this) 1))).
Proof.
  intros Hfinal Hl. unfold Fiber.disable, getFiber in Hfinal. unfold_monad Hfinal.
  set (stack' := splice (fiberStack st) (indexOf (fiberStack st) this) 1) in *.
  set (st1 := upd_fiberStack _ st) in Hfinal.
  set (c := if decide _ then _ else _) in Hfinal.
  assert (∃ st2, c st1 = Ret tt st2 ∧ nodes st2 = nodes st ∧ fibers st2 = fibers st
                 ∧ fiberStack st2 = stack')
    as (st2 & Hc & Hn2 & Hf2 & Hs2).
  { unfold c. destruct (decide _); eexists; (split; [reflexivity|done]). }
  rewrite Hc, Hf2 in Hfinal. clear c Hc.
  destruct (fibers st !! this) as [fb|] eqn:Hfb; simpl in Hfinal; [|done].
  pose proof (getFiber_from_value (reverse (fiberStack st2)) st2) as Htop.
  pose proof (getFiber_from_no_throw (reverse (fiberStack st2)) st2) as Hnothrow.
  destruct (getFiber_from _ st2) as [top st3|e st3|];
    [|by destruct (Hnothrow e st3)|done].
  destruct (Htop top st3 eq_refl) as [-> ->]. clear Htop Hnothrow.
  pose proof (fiberId_or_0_value (List.find (is_active (fibers st2)) (reverse (fiberStack st2))) st2)
    as Hid.
  pose proof (fiberId_or_0_no_throw (List.find (is_active (fibers st2)) (reverse (fiberStack st2))) st2)
    as Hnothrow.
  destruct (Fiber.fiberId_or_0 _ st2) as [id st3|e st3|];
    [|by destruct (Hnothrow e st3)|done].
  destruct (Hid id st3 eq_refl) as [-> ->]. clear Hid Hnothrow.
  rewrite Hn2 in Hfinal.
  destruct (nodes st !! AsyncResourceFiber.root fb) as [rn|] eqn:Hrn;
    simpl in Hfinal; [|done].
  rewrite Hf2, Hfb in Hfinal. simpl in Hfinal. simplify_eq. simpl. rewrite Hn2.
  destruct (decide (l = AsyncResourceFiber.root fb)) as [->|Hne].
  - rewrite lookup_insert_eq. eexists. split; [done|]. right. exists fb.
    split; [done|]. split; [done|]. simpl. by rewrite Hs2.
  - rewrite lookup_insert_ne by done. exists n. auto.
Qed.

(** What [enable] stamps: the id of the fiber itself. *)
Lemma enable_stamps_own_id this st st' fb n :
  final (Fiber.enable this st) = Some st' →
  fibers st !! this = Some fb →
  AsyncResourceFiber.active fb = false →
  nodes st !! AsyncResourceFiber.root fb = Some n →
  nodes st' !! AsyncResourceFiber.root fb =
    Some (AsyncResourceNode.set_fiberId (AsyncResourceFiber.fiberId fb) n).
Proof.
  intros Hfinal Hfb Hactive Hn. unfold Fiber.enable in Hfinal. unfold_monad Hfinal.
  rewrite Hfb in Hfinal. simpl in Hfinal. rewrite Hactive in Hfinal. simpl in Hfinal.
  rewrite Hn in Hfinal. simpl in Hfinal. rewrite Hfb in Hfinal. simpl in Hfinal.
  simplify_eq. simpl. apply lookup_insert_eq.
Qed.

Lemma classic_enable_disable op :
  (∃ f, op = FiberEnable f) ∨ (∃ f, op = FiberDisable f)
  ∨ ((∀ f, op ≠ FiberEnable f) ∧ (∀ f, op ≠ FiberDisable f)).
Proof. destruct op; eauto; right; right; split; intros; discriminate. Qed.

(** C3, as the code has it: an operation leaves the [fiberId] of every
    node as it is, unless it is [enable] or [disable] of a fiber and the node
    is the root of that fiber; then the root gets the id of the fiber from
    [enable], and from [disable] the id of the topmost active fiber of the
    stack the fiber was taken off, or 0. *)
Theorem fiberId_assigned_at_root_only fuel op st st' l n :
  final (exec fuel op st) = Some st' →
  nodes st !! l = Some n →
  ∃ n', nodes st' !! l = Some n'
    ∧ (AsyncResourceNode.fiberId n' = AsyncResourceNode.fiberId n
       ∨ ∃ f fb, fibers st !! f = Some fb ∧ l = AsyncResourceFiber.root fb
           ∧ ((op = FiberEnable f
               ∧ AsyncResourceNode.fiberId n' = AsyncResourceFiber.fiberId fb)
              ∨ (op = FiberDisable f
                 ∧ AsyncResourceNode.fiberId n' =
                     id_of (fibers st)
                       (topmost_active (fibers st)
                          (splice (fiberStack st) (indexOf (fiberStack st) f) 1))))).
Proof.
  intros Hfinal Hl.
  destruct (classic_enable_disable op) as [[f ->]|[[f ->]|[Hen Hdis]]].
  - simpl in Hfinal.
    assert (final (Fiber.enable f st) = Some st') as Hen.
    { unfold bind, ret in Hfinal. by destruct (Fiber.enable f st). }
    destruct (enable_nodes _ _ _ _ _ Hen Hl) as (n' & Hn' & [?|(fb & ? & ? & ?)]);
      exists n'; (split; [done|]); [by left|]. right. exists f, fb. auto.
  - simpl in Hfinal.
    assert (final (Fiber.disable f st) = Some st') as Hdis.
    { unfold bind, ret in Hfinal. by destruct (Fiber.disable f st). }
    destruct (disable_nodes _ _ _ _ _ Hdis Hl) as (n' & Hn' & [?|(fb & ? & ? & ?)]);
      exists n'; (split; [done|]); [by left|]. right. exists f, fb. auto.
  - pose proof (final_preserves _ _ _ _ (exec_fiberIds fuel op Hen Hdis) Hfinal) as Hkept.
    destruct (Hkept l n Hl) as (n' & Hn' & Hsame). exists n'. auto.
Qed.

Lemma fiberId_assigned_at_root_only_witness :
  ∃ n', nodes (state_after (exec 0 (FiberEnable 1)) two_fibers) !! 0 = Some n'
    ∧ (AsyncResourceNode.fiberId n'
         = AsyncResourceNode.fiberId (AsyncResourceNode.new 1 1 None None)
       ∨ ∃ f fb, fibers two_fibers !! f = Some fb ∧ 0 = AsyncResourceFiber.root fb
           ∧ ((FiberEnable 1 = FiberEnable f
               ∧ AsyncResourceNode.fiberId n' = AsyncResourceFiber.fiberId fb)
              ∨ (FiberEnable 1 = FiberDisable f
                 ∧ AsyncResourceNode.fiberId n' =
                     id_of (fibers two_fibers)
                       (topmost_active (fibers two_fibers)
                          (splice (fiberStack two_fibers)
                             (indexOf (fiberStack two_fibers) f) 1))))).
Proof.
  apply (fiberId_assigned_at_root_only 0 (FiberEnable 1) two_fibers
           (state_after (exec 0 (FiberEnable 1)) two_fibers) 0
           (AsyncResourceNode.new 1 1 None None)).
  - vm_compute. reflexivity.
  - vm_compute. reflexivity.
Defined.

(** C3 as stated fails: [enable] of the second fiber changes the [fiberId]
    of the node both fibers have as their root from 1 to 2. *)
Lemma fiberId_never_changes_counterexample : ¬ fiberId_never_changes.
Proof.
  intros Hclaim.
  specialize (Hclaim 0 (FiberEnable 1) two_fibers two_fibers_enabled 0
                (AsyncResourceNode.new 1 1 None None)
                (AsyncResourceNode.new 2 1 None None)).
  discriminate Hclaim; vm_compute; reflexivity.
Qed.

(** ** The hook callbacks [before], [after] and [promiseResolve] *)

Lemma getAsyncResourceNode_from_locate fuel start asyncId st found st' :
  getAsyncResourceNode_from fuel start asyncId st = Ret found st' →
  st' = st ∧ found = first_some (found_at st asyncId) (origin_chain fuel st start).
Proof.
  revert start. induction fuel as [|fuel IH]; intros start Hrun; simpl in Hrun; [done|].
  unfold_monad Hrun. simpl. unfold found_at at 1.
  destruct (nodes st !! start) as [n|] eqn:Hn; simpl in *; [|done].
  destruct (decide (AsyncResourceNode.asyncId n = asyncId)); [by simplify_eq|].
  destruct (map_get asyncId (AsyncResourceNode.executionTargets n)); [by simplify_eq|].
  destruct (AsyncResourceNode.executionOrigin n) as [origin|]; [|by simplify_eq].
  by apply IH.
Qed.

(** The code finds the node the specification describes. *)
Lemma getAsyncResourceNode_locate fuel asyncId st found st' :
  getAsyncResourceNode fuel asyncId st = Ret found st' →
  st' = st ∧ found = locate fuel st asyncId.
Proof.
  unfold getAsyncResourceNode, executionNode, locate. intros Hrun. unfold_monad Hrun.
  destruct (fiberRefs st !! executionAsyncResource st) as [start|]; simpl.
  - by apply getAsyncResourceNode_from_locate.
  - by simplify_eq.
Qed.

Lemma getAsyncResourceNode_no_throw fuel asyncId st e st' :
  getAsyncResourceNode fuel asyncId st ≠ Throw e st'.
Proof.
  unfold getAsyncResourceNode, executionNode. unfold_goal.
  destruct (fiberRefs st !! executionAsyncResource st) as [start|]; [|done].
  revert start. induction fuel as [|fuel IH]; intros start; simpl; [done|].
  unfold_goal.
  destruct (nodes st !! start) as [n|]; simpl; [|done].
  destruct (decide _); [done|]. destruct (map_get _ _); [done|].
  destruct (AsyncResourceNode.executionOrigin n); [apply IH|done].
Qed.

#[local] Instance same_flags_preorder : PreOrder same_flags.
Proof. split; [by intros ?|]. unfold same_flags. intros a b c Hab Hbc. congruence. Qed.

#[local] Instance quiet_preorder : PreOrder quiet.
Proof.
  split.
  - intros st. split; [apply heap_rel_refl; apply _|done].
  - intros a b c [Hab Eab] [Hbc Ebc]. split; [|congruence].
    eapply heap_rel_trans; [apply _|done..].
Qed.

Ltac quiet_side :=
  lazymatch goal with
  | |- quiet _ _ =>
      split; [|done]; simpl;
      first [ apply heap_rel_refl; apply _
            | eapply heap_rel_update; [apply _ | eassumption | done] ]
  end.

Ltac quiet_tac := frame; try quiet_side.

Lemma assertFiberError_quiet w error : preserves quiet (assertFiberError w error).
Proof. quiet_tac. Qed.

#[local] Hint Resolve assertFiberError_quiet : frame.

Lemma assertFiberAbort_quiet w node : preserves quiet (assertFiberAbort w node).
Proof. quiet_tac. Qed.

Lemma assertFiberOwnership_quiet w node : preserves quiet (assertFiberOwnership w node).
Proof. quiet_tac. Qed.

#[local] Hint Resolve assertFiberAbort_quiet assertFiberOwnership_quiet : frame.

Lemma watchdogObserverFn_quiet w event node :
  preserves quiet (watchdogObserverFn w event node).
Proof. quiet_tac. Qed.

Lemma callback_notifies event : notifies event (λ o l, Observer.callback o event l).
Proof.
  intros o l st st' Hfinal. unfold Observer.callback in Hfinal.
  unfold bind at 1 in Hfinal. unfold getObserver in Hfinal. unfold_monad Hfinal.
  destruct (observers st !! o) as [ob|]; simpl in Hfinal; [|done].
  apply (final_preserves _ _ _ _ (watchdogObserverFn_quiet _ _ _)) in Hfinal.
  destruct Hfinal as [Hflags Hlog]. by split.
Qed.

Lemma callback_then_detach_notifies event :
  notifies event
    (λ o l, Observer.callback o event l ;;;
            updNode l (AsyncResourceNode.set_notifyObserver None)).
Proof.
  intros o l st st' Hfinal. unfold bind at 1 in Hfinal.
  destruct (Observer.callback o event l st) as [[] st1|e st1|] eqn:Hcb; [| |done].
  - assert (Hcb' : final (Observer.callback o event l st) = Some st1) by by rewrite Hcb.
    destruct (callback_notifies event o l st st1 Hcb') as [Hflags Hlog].
    assert (Hdetach : preserves quiet
              (updNode l (AsyncResourceNode.set_notifyObserver None))) by quiet_tac.
    destruct (final_preserves _ _ _ _ Hdetach Hfinal) as [Hflags' Hlog'].
    split; [|congruence]. eapply heap_rel_trans; [apply _|done..].
  - simpl in Hfinal. simplify_eq.
    apply (callback_notifies event o l st st'). by rewrite Hcb.
Qed.

Lemma lifecycle_notifies ev :
  notifies (flag_of ev)
    match ev with
    | Before => Observer._onBefore
    | After => Observer._onAfter
    | PromiseResolve => Observer._onPromiseResolve
    end.
Proof.
  destruct ev.
  - apply callback_notifies.
  - apply callback_then_detach_notifies.
  - apply callback_then_detach_notifies.
Qed.

Lemma on_event_run flag notify l st st' :
  notifies flag notify →
  final (Node.on_event flag notify l st) = Some st' →
  ∃ n n', nodes st !! l = Some n ∧ nodes st' !! l = Some n'
    ∧ AsyncResourceNode.flags n' = Z.lor (AsyncResourceNode.flags n) flag
    ∧ heap_rel (λ _ _, True) (nodes st) (nodes st')
    ∧ notified st' =
        notified st ++
          (if AsyncResourceNode.active n then
             match AsyncResourceNode.notifyObserver n with
             | Some observer => [(observer, flag, l)]
             | None => []
             end
           else []).
Proof.
  intros Hnotify Hfinal. unfold Node.on_event in Hfinal.
  unfold bind at 1 in Hfinal. unfold updNode in Hfinal. unfold_monad Hfinal.
  destruct (nodes st !! l) as [n|] eqn:Hn; simpl in Hfinal; [|done].
  rewrite lookup_insert_eq in Hfinal. simpl in Hfinal.
  set (n1 := AsyncResourceNode.set_flags _ n) in *.
  set (st1 := upd_nodes _ st) in *.
  assert (Hst1 : nodes st1 !! l = Some n1) by apply lookup_insert_eq.
  assert (Hgrow : heap_rel (λ _ _, True) (nodes st) (nodes st1)).
  { eapply heap_rel_update; [by intros ?|done..]. }
  exists n.
  destruct (AsyncResourceNode.active n); simpl in Hfinal.
  - destruct (AsyncResourceNode.notifyObserver n) as [o|]; simpl in Hfinal.
    + destruct (Hnotify o l st1 st' Hfinal) as [Hflags Hlog].
      destruct (Hflags l n1 Hst1) as (n' & Hn' & Hsame).
      exists n'. repeat split; try done.
      eapply heap_rel_trans; [by intros ???|exact Hgrow|].
      intros k v Hk. destruct (Hflags k v Hk) as (v' & ? & _). by exists v'.
    + simplify_eq. exists n1. by rewrite app_nil_r.
  - simplify_eq. exists n1. by rewrite app_nil_r.
Qed.

Lemma origin_chain_ext fuel st st' l :
  nodes st' = nodes st → origin_chain fuel st' l = origin_chain fuel st l.
Proof.
  intros Hn. revert l. induction fuel as [|fuel IH]; intros l; simpl; [done|].
  rewrite Hn. destruct (_ ≫= _); [by rewrite IH|done].
Qed.

Lemma locate_ext fuel st st' asyncId :
  nodes st' = nodes st →
  fiberRefs st' = fiberRefs st →
  executionAsyncResource st' = executionAsyncResource st →
  locate fuel st' asyncId = locate fuel st asyncId.
Proof.
  intros Hn Hr He. unfold locate. rewrite Hr, He.
  destruct (fiberRefs st !! executionAsyncResource st) as [start|]; simpl; [|done].
  rewrite (origin_chain_ext _ _ _ _ Hn).
  induction (origin_chain fuel st start) as [|x l IH]; simpl; [done|].
  unfold found_at at 1 3. rewrite Hn. by rewrite IH.
Qed.

Lemma on_found_run fuel asyncId handler st st' :
  final (Hook.on_found fuel asyncId handler st) = Some st' →
  match locate fuel st asyncId with
  | None => nodes st' = nodes st ∧ notified st' = notified st
  | Some l =>
      ∃ st1, final (handler l (set_hookActive true st)) = Some st1
             ∧ nodes st' = nodes st1 ∧ notified st' = notified st1
  end.
Proof.
  intros Hfinal. unfold Hook.on_found, Hook.guarded, try_finally in Hfinal.
  unfold bind at 1, modify at 1 in Hfinal. unfold bind at 1 in Hfinal.
  set (st_a := set_hookActive true st) in *.
  rewrite <- (locate_ext fuel st st_a asyncId) by done.
  pose proof (getAsyncResourceNode_locate fuel asyncId st_a) as Hlocate.
  pose proof (getAsyncResourceNode_no_throw fuel asyncId st_a) as Hnothrow.
  destruct (getAsyncResourceNode fuel asyncId st_a) as [found st_b|e st_b|];
    [|by destruct (Hnothrow e st_b)|done].
  destruct (Hlocate found st_b eq_refl) as [-> ->].
  destruct (locate fuel st_a asyncId) as [l|].
  - destruct (handler l st_a) as [[] st1|e st1|]; [| |done];
      simpl in Hfinal; simplify_eq; by exists st1.
  - simpl in Hfinal. by simplify_eq.
Qed.

(** C6, as the code has it: the node is the one [locate] describes; if
    there is none, no node and no observer is touched; if there is one, its
    flags get the flag of the event whether the node is active or not, and
    its observer is called exactly when the node is active and has one. *)
Theorem hook_sets_flag_and_notifies_active ev fuel asyncId st st' :
  final (hook_of ev fuel asyncId st) = Some st' →
  match locate fuel st asyncId with
  | None => nodes st' = nodes st ∧ notified st' = notified st
  | Some l =>
      ∃ n n', nodes st !! l = Some n ∧ nodes st' !! l = Some n'
        ∧ AsyncResourceNode.flags n' = Z.lor (AsyncResourceNode.flags n) (flag_of ev)
        ∧ notified st' = notified st ++ notification ev l n
  end.
Proof.
  intros Hfinal.
  assert (Hshape : hook_of ev fuel asyncId =
            Hook.on_found fuel asyncId
              (Node.on_event (flag_of ev)
                 match ev with
                 | Before => Observer._onBefore
                 | After => Observer._onAfter
                 | PromiseResolve => Observer._onPromiseResolve
                 end)) by by destruct ev.
  rewrite Hshape in Hfinal. apply on_found_run in Hfinal.
  destruct (locate fuel st asyncId) as [l|]; [|done].
  destruct Hfinal as (st1 & Hhandler & Hnodes & Hlog).
  apply (on_event_run _ _ _ _ _ (lifecycle_notifies ev)) in Hhandler.
  destruct Hhandler as (n & n' & Hn & Hn' & Hflags & _ & Hnotified).
  exists n, n'. rewrite Hnodes, Hlog. by repeat split.
Qed.

Lemma hook_sets_flag_and_notifies_active_witness :
  match locate 5 awaiting 3 with
  | None =>
      nodes (state_after (hook_of PromiseResolve 5 3) awaiting) = nodes awaiting
      ∧ notified (state_after (hook_of PromiseResolve 5 3) awaiting) = notified awaiting
  | Some l =>
      ∃ n n', nodes awaiting !! l = Some n
        ∧ nodes (state_after (hook_of PromiseResolve 5 3) awaiting) !! l = Some n'
        ∧ AsyncResourceNode.flags n'
            = Z.lor (AsyncResourceNode.flags n) (flag_of PromiseResolve)
        ∧ notified (state_after (hook_of PromiseResolve 5 3) awaiting)
            = notified awaiting ++ notification PromiseResolve l n
  end.
Proof.
  apply (hook_sets_flag_and_notifies_active PromiseResolve 5 3 awaiting).
  vm_compute. reflexivity.
Defined.

(** C6 as stated fails: the timer of [fiber_in_timer] is the root of a
    supervised fiber and not active; when it finishes, [after] for its id
    sets [POST_EXECUTION] in its flags. *)
Lemma inactive_flags_unchanged_counterexample : ¬ inactive_flags_unchanged.
Proof.
  intros Hclaim.
  specialize (Hclaim After 5 2%Z fiber_in_timer
                (state_after (Hook.after 5 2) fiber_in_timer) 1
                (AsyncResourceNode.mk 2 1 (Some "Timeout"%string) false None (Some 0)
                   (Some 0) [(3%Z, 2)] [(3%Z, 2)] 1 None)
                (AsyncResourceNode.mk 2 1 (Some "Timeout"%string) false None (Some 0)
                   (Some 0) [(3%Z, 2)] [(3%Z, 2)] 3 None)).
  discriminate Hclaim; vm_compute; reflexivity.
Qed.

(** ** The fibers of a running process *)

#[local] Instance fibers_kept_preorder : PreOrder fibers_kept.
Proof.
  split; [by intros ?|]. intros a b c (?&?&?&?) (?&?&?&?).
  repeat split; congruence.
Qed.

#[local] Instance flag_calm_preorder : PreOrder flag_calm.
Proof.
  split; [by right|]. unfold flag_calm. intros a b c [Hab|Hab] [Hbc|Hbc]; try (by left).
  - left. congruence.
  - right. congruence.
Qed.

Ltac fibers_kept_tac := frame; try (by repeat split).

Lemma getFiber_from_fibers_kept l : preserves fibers_kept (getFiber_from l).
Proof. induction l; simpl; fibers_kept_tac. Qed.

#[local] Hint Resolve getFiber_from_fibers_kept : frame.

Lemma parentFiberIds_fibers_kept fuel f : preserves fibers_kept (Fiber.parentFiberIds fuel f).
Proof. revert f. induction fuel; intros f; simpl; fibers_kept_tac. Qed.

#[local] Hint Resolve parentFiberIds_fibers_kept : frame.

Lemma taintAsyncResourceGraph_fibers_kept fuel node mask flags :
  preserves fibers_kept (taintAsyncResourceGraph fuel node mask flags).
Proof. revert node. induction fuel; intros node; simpl; fibers_kept_tac. Qed.

#[local] Hint Resolve taintAsyncResourceGraph_fibers_kept : frame.

Lemma getAsyncResourceNode_from_fibers_kept fuel node asyncId :
  preserves fibers_kept (getAsyncResourceNode_from fuel node asyncId).
Proof. revert node. induction fuel; intros node; simpl; fibers_kept_tac. Qed.

#[local] Hint Resolve getAsyncResourceNode_from_fibers_kept : frame.

Lemma hasAsyncIO_fibers_kept pending : preserves fibers_kept (hasAsyncIO pending).
Proof. induction pending; simpl; fibers_kept_tac. Qed.

#[local] Hint Resolve hasAsyncIO_fibers_kept : frame.

Lemma adopt_owned_fibers_kept w observer fiberId targets stack :
  preserves fibers_kept (adopt_owned w observer fiberId targets stack).
Proof. revert stack. induction targets; intros stack; simpl; fibers_kept_tac. Qed.

#[local] Hint Resolve adopt_owned_fibers_kept : frame.

Lemma adopt_unobserved_fibers_kept w observer targets stack :
  preserves fibers_kept (adopt_unobserved w observer targets stack).
Proof. revert stack. induction targets; intros stack; simpl; fibers_kept_tac. Qed.

#[local] Hint Resolve adopt_unobserved_fibers_kept : frame.

Lemma drain_fibers_kept fuel w observer stack :
  preserves fibers_kept (drain fuel w observer stack).
Proof. revert stack. induction fuel; intros stack; simpl; fibers_kept_tac. Qed.

#[local] Hint Resolve drain_fibers_kept : frame.

(** Every operation but the constructor, [enable] and [disable] of a fiber
    leaves the fibers and the stack alone. *)
Lemma exec_fibers_kept fuel op :
  (∀ frame, op ≠ FiberNew frame) →
  (∀ f, op ≠ FiberEnable f) →
  (∀ f, op ≠ FiberDisable f) →
  preserves fibers_kept (exec fuel op).
Proof.
  intros Hnew Hen Hdis. destruct op; simpl; try solve [fibers_kept_tac].
  - by destruct (Hnew frame).
  - by destruct (Hen f).
  - by destruct (Hdis f).
Qed.

(** [getFiber_from] in a hypothesis: it returns the first active fiber of
    the list and leaves the state as it is. *)
Ltac run_getFiber H :=
  match type of H with
  | context [getFiber_from ?l ?s] =>
      let Htop := fresh "Htop" in
      let Hnt := fresh "Hnt" in
      pose proof (getFiber_from_value l s) as Htop;
      pose proof (getFiber_from_no_throw l s) as Hnt;
      let top := fresh "top" in
      let st3 := fresh "st" in
      let e := fresh "e" in
      destruct (getFiber_from l s) as [top st3|e st3|];
      [|by destruct (Hnt e st3)|done];
      destruct (Htop top st3 eq_refl) as [-> ->]; clear Htop Hnt
  end.

Ltac run_fiberId_or_0 H :=
  match type of H with
  | context [Fiber.fiberId_or_0 ?t ?s] =>
      let Hid := fresh "Hid" in
      let Hnt := fresh "Hnt" in
      pose proof (fiberId_or_0_value t s) as Hid;
      pose proof (fiberId_or_0_no_throw t s) as Hnt;
      let id := fresh "id" in
      let st3 := fresh "st" in
      let e := fresh "e" in
      destruct (Fiber.fiberId_or_0 t s) as [id st3|e st3|];
      [|by destruct (Hnt e st3)|done];
      destruct (Hid id st3 eq_refl) as [-> ->]; clear Hid Hnt
  end.

(** What the constructor does to the fibers. *)
Lemma Fiber_new_fibers frame st st' :
  final (Fiber.new frame st) = Some st' →
  ∃ root,
    fibers st' =
      <[fresh (dom (fibers st)) :=
          AsyncResourceFiber.mk (_fiberIdx st) root false
            (topmost_active (fibers st) (fiberStack st)) frame]> (fibers st)
    ∧ fiberStack st' = fiberStack st
    ∧ _fiberIdx st' = S (_fiberIdx st)
    ∧ hookEnabled st' = hookEnabled st.
Proof.
  intros Hfinal.
  unfold Fiber.new, executionNode, getFiber, allocNode, allocFiber in Hfinal.
  unfold_monad Hfinal.
  destruct (fiberRefs st !! executionAsyncResource st) as [root|]; simpl in Hfinal.
  - run_getFiber Hfinal. simpl in Hfinal. simplify_eq. by exists root.
  - run_getFiber Hfinal. simpl in Hfinal. simplify_eq. by eexists.
Qed.

(** What [enable] does to the fibers. *)
Lemma Fiber_enable_fibers this st st' :
  final (Fiber.enable this st) = Some st' →
  ∃ fb, fibers st !! this = Some fb
    ∧ if AsyncResourceFiber.active fb then st' = st
      else fibers st' = <[this := AsyncResourceFiber.set_active true fb]> (fibers st)
           ∧ fiberStack st' = fiberStack st ++ [this]
           ∧ _fiberIdx st' = _fiberIdx st
           ∧ hookEnabled st' = true.
Proof.
  intros Hfinal. unfold Fiber.enable in Hfinal. unfold_monad Hfinal.
  destruct (fibers st !! this) as [fb|] eqn:Hfb; simpl in Hfinal; [|done].
  exists fb. split; [done|].
  destruct (AsyncResourceFiber.active fb); simpl in Hfinal; [by simplify_eq|].
  destruct (nodes st !! AsyncResourceFiber.root fb) as [rn|]; simpl in Hfinal; [|done].
  rewrite Hfb in Hfinal. simpl in Hfinal. by simplify_eq.
Qed.

(** What [disable] does to the fibers. *)
Lemma Fiber_disable_fibers this st st' :
  final (Fiber.disable this st) = Some st' →
  let stack' := splice (fiberStack st) (indexOf (fiberStack st) this) 1 in
  ∃ fb, fibers st !! this = Some fb
    ∧ fibers st' = <[this := AsyncResourceFiber.set_active false fb]> (fibers st)
    ∧ fiberStack st' = stack'
    ∧ _fiberIdx st' = _fiberIdx st
    ∧ hookEnabled st' = (if decide (length stack' = 0) then false else hookEnabled st).
Proof.
  intros Hfinal stack'. unfold Fiber.disable, getFiber in Hfinal. unfold_monad Hfinal.
  fold stack' in Hfinal.
  set (st1 := upd_fiberStack _ st) in Hfinal.
  set (c := if decide _ then _ else _) in Hfinal.
  assert (∃ st2, c st1 = Ret tt st2 ∧ nodes st2 = nodes st ∧ fibers st2 = fibers st
                 ∧ fiberStack st2 = stack' ∧ _fiberIdx st2 = _fiberIdx st
                 ∧ hookEnabled st2 =
                     (if decide (length stack' = 0) then false else hookEnabled st))
    as (st2 & Hc & Hn2 & Hf2 & Hs2 & Hi2 & He2).
  { unfold c. destruct (decide _); eexists; (split; [reflexivity|done]). }
  rewrite Hc, Hf2 in Hfinal. clear c Hc.
  destruct (fibers st !! this) as [fb|] eqn:Hfb; simpl in Hfinal; [|done].
  run_getFiber Hfinal. run_fiberId_or_0 Hfinal.
  rewrite Hn2 in Hfinal.
  destruct (nodes st !! AsyncResourceFiber.root fb) as [rn|]; simpl in Hfinal; [|done].
  rewrite Hf2, Hfb in Hfinal. simpl in Hfinal. simplify_eq. simpl.
  exists fb. by rewrite Hf2.
Qed.

(** [splice] keeps the order of what it leaves. *)
Lemma splice_sublist {A} (l : list A) start deleteCount :
  splice l start deleteCount `sublist_of` l.
Proof.
  unfold splice.
  set (len := Z.of_nat (length l)).
  set (a := if (start <? 0)%Z then Z.max (len + start) 0 else Z.min start len).
  set (d := Z.min (Z.max deleteCount 0) (len - a)).
  assert (0 ≤ a ≤ len)%Z as Ha.
  { unfold a. destruct (Z.ltb_spec start 0); lia. }
  assert (0 ≤ d)%Z as Hd by (unfold d; lia).
  rewrite <- (take_drop (Z.to_nat a) l) at 3.
  apply sublist_app; [done|].
  replace (Z.to_nat (a + d)) with (Z.to_nat a + Z.to_nat d) by lia.
  rewrite <- drop_drop. apply sublist_drop.
Qed.

Lemma splice_removes (stack : list nat) this :
  NoDup stack → this ∉ splice stack (indexOf stack this) 1.
Proof.
  intros Hnd Hin.
  destruct (decide (this ∈ stack)) as [Hstack|Hstack].
  - destruct (list_elem_of_split_l _ _ Hstack) as (below & above & -> & Hbelow).
    unfold indexOf in Hin. rewrite indexOf_from_first in Hin by done.
    rewrite Z.add_0_l, splice_found in Hin.
    apply NoDup_app in Hnd as (_ & Hdisj & Habove).
    apply NoDup_cons in Habove as [Habove _].
    apply elem_of_app in Hin as [Hin|Hin]; [by apply Hbelow|by apply Habove].
  - apply Hstack. by apply (splice_subseteq _ _ _ _ Hin).
Qed.

Lemma is_active_true fs f :
  is_active fs f = true → ∃ fb, fs !! f = Some fb ∧ AsyncResourceFiber.active fb = true.
Proof. unfold is_active. destruct (fs !! f) as [fb|]; [|done]. by exists fb. Qed.

Lemma is_active_insert_ne (fs : gmap nat AsyncResourceFiber.t) this fb f :
  f ≠ this → is_active (<[this := fb]> fs) f = is_active fs f.
Proof. intros Hne. unfold is_active. by rewrite lookup_insert_ne. Qed.

(** Changing the [active] flag of a fiber keeps the ids in order. *)
Lemma ids_wf_set_active st st' this fb b :
  fibers st !! this = Some fb →
  fibers st' = <[this := AsyncResourceFiber.set_active b fb]> (fibers st) →
  _fiberIdx st' = _fiberIdx st →
  ids_wf st → ids_wf st'.
Proof.
  intros Hfb Hfs Hidx (Hpos & Hbound & Hinj & Hparent).
  assert (Hold : ∀ f x, fibers st' !! f = Some x →
            ∃ y, fibers st !! f = Some y
                 ∧ AsyncResourceFiber.fiberId x = AsyncResourceFiber.fiberId y
                 ∧ AsyncResourceFiber.parent x = AsyncResourceFiber.parent y).
  { intros f x. rewrite Hfs. destruct (decide (f = this)) as [->|Hne].
    - rewrite lookup_insert_eq. intros [= <-]. by exists fb.
    - rewrite lookup_insert_ne by done. intros Hx. by exists x. }
  assert (Hnew : ∀ f y, fibers st !! f = Some y →
            ∃ x, fibers st' !! f = Some x
                 ∧ AsyncResourceFiber.fiberId x = AsyncResourceFiber.fiberId y).
  { intros f y Hy. rewrite Hfs. destruct (decide (f = this)) as [->|Hne].
    - rewrite lookup_insert_eq. eexists. split; [done|]. by simplify_eq.
    - rewrite lookup_insert_ne by done. by exists y. }
  split; [lia|]. split; [|split].
  - intros f x (y & Hy & Hid & _)%Hold. rewrite Hid, Hidx. by apply (Hbound f).
  - intros f g x z (y & Hy & Hid & _)%Hold (y' & Hy' & Hid' & _)%Hold Heq.
    apply (Hinj f g y y' Hy Hy'). congruence.
  - intros f x p (y & Hy & Hid & Hpar)%Hold Hp. rewrite Hpar in Hp.
    destruct (Hparent f y p Hy Hp) as (pb & Hpb & Hlt).
    destruct (Hnew p pb Hpb) as (pb' & Hpb' & Hid').
    exists pb'. split; [done|]. lia.
Qed.

Lemma initial_fibers_wf resource asyncId : fibers_wf (initial resource asyncId).
Proof.
  split; [|split].
  - split; [apply NoDup_nil_2|apply Forall_nil_2].
  - split; [simpl; lia|]. by repeat split.
  - done.
Qed.

Lemma fibers_kept_wf st st' : fibers_kept st st' → fibers_wf st → fibers_wf st'.
Proof.
  intros (Hf & Hs & Hi & He) ((Hnd & Hact) & Hids & Harm).
  unfold fibers_wf, stack_wf, ids_wf, arming_wf. by rewrite Hf, Hs, Hi, He.
Qed.

Lemma Fiber_new_wf frame st st' :
  final (Fiber.new frame st) = Some st' → fibers_wf st → fibers_wf st'.
Proof.
  intros (root & Hf & Hs & Hi & He)%Fiber_new_fibers
         ((Hnd & Hact) & (Hpos & Hbound & Hinj & Hparent) & Harm).
  set (new := fresh (dom (fibers st))) in *.
  assert (Hfresh : fibers st !! new = None).
  { apply not_elem_of_dom, is_fresh. }
  assert (Hne : ∀ f y, fibers st !! f = Some y → f ≠ new) by (intros f y Hy ->; congruence).
  split; [|split].
  - split; [by rewrite Hs|]. rewrite Hs, Hf.
    eapply Forall_impl; [exact Hact|]. intros f Hf'. simpl in Hf'.
    rewrite is_active_insert_ne; [done|].
    apply is_active_true in Hf' as (y & Hy & _). by apply (Hne f y).
  - split; [lia|]. rewrite Hf, Hi. split; [|split].
    + intros f x. destruct (decide (f = new)) as [->|Hn].
      * rewrite lookup_insert_eq. intros [= <-]. simpl. lia.
      * rewrite lookup_insert_ne by done. intros Hx%Hbound. lia.
    + intros f g x y.
      destruct (decide (f = new)) as [->|Hn], (decide (g = new)) as [->|Hn']; try done.
      * rewrite lookup_insert_eq, lookup_insert_ne by done.
        intros [= <-] Hy%Hbound. simpl. lia.
      * rewrite lookup_insert_eq, lookup_insert_ne by done.
        intros Hx%Hbound [= <-]. simpl. lia.
      * rewrite !lookup_insert_ne by done. apply Hinj.
    + intros f x p. destruct (decide (f = new)) as [->|Hn].
      * rewrite lookup_insert_eq. intros [= <-]. simpl.
        intros [_ (pb & Hpb & _)%is_active_true]%topmost_active_elem.
        exists pb. rewrite lookup_insert_ne by (by apply not_eq_sym, (Hne p pb)).
        split; [done|]. apply (Hbound p pb Hpb).
      * rewrite lookup_insert_ne by done. intros Hx Hp.
        destruct (Hparent f x p Hx Hp) as (pb & Hpb & Hlt). exists pb.
        rewrite lookup_insert_ne by (by apply not_eq_sym, (Hne p pb)). done.
  - unfold arming_wf. by rewrite He, Hs.
Qed.

Lemma Fiber_enable_wf this st st' :
  final (Fiber.enable this st) = Some st' → fibers_wf st → fibers_wf st'.
Proof.
  intros (fb & Hfb & Hrun)%Fiber_enable_fibers Hwf.
  destruct (AsyncResourceFiber.active fb) eqn:Hactive; [by subst|].
  destruct Hrun as (Hf & Hs & Hi & He).
  destruct Hwf as ((Hnd & Hact) & Hids & Harm).
  assert (Hnotin : this ∉ fiberStack st).
  { intros Hin. apply (proj1 (Forall_forall _ _) Hact) in Hin.
    apply is_active_true in Hin as (y & Hy & Hy'). congruence. }
  split; [|split].
  - split; rewrite Hs.
    + apply NoDup_app. split; [done|]. split; [|apply NoDup_singleton].
      intros f Hin ->%list_elem_of_singleton. done.
    + apply Forall_app. split.
      * apply Forall_forall. intros f Hin. rewrite Hf, is_active_insert_ne.
        -- by apply (proj1 (Forall_forall _ _) Hact).
        -- by intros ->.
      * apply Forall_singleton. unfold is_active. by rewrite Hf, lookup_insert_eq.
  - by apply (ids_wf_set_active st st' this fb true).
  - unfold arming_wf. rewrite He, Hs. symmetry. apply bool_decide_eq_true_2.
    by destruct (fiberStack st).
Qed.

Lemma Fiber_disable_wf this st st' :
  final (Fiber.disable this st) = Some st' → fibers_wf st → fibers_wf st'.
Proof.
  intros Hfinal ((Hnd & Hact) & Hids & Harm).
  apply Fiber_disable_fibers in Hfinal as (fb & Hfb & Hf & Hs & Hi & He).
  pose proof (splice_sublist (fiberStack st) (indexOf (fiberStack st) this) 1) as Hsub.
  rewrite <- Hs in Hsub.
  split; [|split].
  - split; [by apply (sublist_NoDup _ _ Hnd Hsub)|].
    apply Forall_forall. intros f Hin. rewrite Hf, is_active_insert_ne.
    + apply (proj1 (Forall_forall _ _) Hact). by apply (elem_of_sublist _ _ _ Hin Hsub).
    + intros ->. rewrite Hs in Hin. by apply (splice_removes _ _ Hnd Hin).
  - by apply (ids_wf_set_active st st' this fb false).
  - unfold arming_wf. rewrite He. destruct (decide _) as [Hlen|Hlen]; rewrite <- Hs in Hlen.
    + apply nil_length_inv in Hlen. by rewrite Hlen.
    + assert (fiberStack st' ≠ []) as Hne' by (by intros Heq; rewrite Heq in Hlen).
      rewrite (bool_decide_eq_true_2 _ Hne'). rewrite Harm.
      apply bool_decide_eq_true_2. intros Heq. rewrite Heq in Hsub.
      by apply sublist_nil_r in Hsub.
Qed.

Lemma bind_ret_final {A} (c : M A) st :
  final (bind c (λ _, ret tt) st) = final (c st).
Proof. unfold bind, ret. by destruct (c st). Qed.

(** Every operation keeps the fibers of the process in order. *)
Lemma exec_fibers_wf fuel op st st' :
  final (exec fuel op st) = Some st' → fibers_wf st → fibers_wf st'.
Proof.
  intros Hfinal Hwf.
  destruct op;
    try (apply (fibers_kept_wf st); [|done];
         refine (final_preserves _ _ _ _ (exec_fibers_kept fuel _ _ _ _) Hfinal);
         intros; discriminate).
  - cbn [exec] in Hfinal. rewrite bind_ret_final in Hfinal. by apply (Fiber_new_wf frame st).
  - cbn [exec] in Hfinal. rewrite bind_ret_final in Hfinal. by apply (Fiber_enable_wf f st).
  - cbn [exec] in Hfinal. rewrite bind_ret_final in Hfinal. by apply (Fiber_disable_wf f st).
Qed.

Lemma run_fibers_wf fuel ops st st' :
  run fuel ops st = Some st' → fibers_wf st → fibers_wf st'.
Proof.
  revert st. induction ops as [|op ops IH]; intros st Hrun Hwf; simpl in Hrun.
  - by simplify_eq.
  - destruct (final (exec fuel op st)) as [st1|] eqn:Hop; [|done].
    apply (IH st1 Hrun). by apply (exec_fibers_wf fuel op st).
Qed.

Lemma stack_wf_allocated st : stack_wf st → stack_allocated st.
Proof.
  intros [_ Hact]. eapply Forall_impl; [exact Hact|]. simpl.
  intros f (fb & Hfb & _)%is_active_true. by exists fb.
Qed.

Lemma topmost_active_last fs stack :
  Forall (λ f, is_active fs f = true) stack → topmost_active fs stack = last stack.
Proof.
  intros Hact. unfold topmost_active.
  destruct stack as [|x s _] using rev_ind; [done|].
  pose proof (proj1 (Forall_forall _ _) Hact x ltac:(set_solver)) as Hx.
  simpl in Hx. rewrite reverse_snoc, last_snoc. simpl. by rewrite Hx.
Qed.

(** X1: in every state that a run of operations reaches from the start of
    the process, the fiber stack holds no fiber twice and only fibers whose
    [active] flag is set; so [getFiber()] returns the last entry of the
    stack, or null for the empty stack, and changes nothing. *)
Theorem getFiber_is_top_of_stack fuel ops resource asyncId st :
  run fuel ops (initial resource asyncId) = Some st →
  NoDup (fiberStack st)
  ∧ Forall (λ f, is_active (fibers st) f = true) (fiberStack st)
  ∧ getFiber st = Ret (last (fiberStack st)) st.
Proof.
  intros Hrun.
  destruct (run_fibers_wf _ _ _ _ Hrun (initial_fibers_wf _ _)) as (Hstack & _ & _).
  split; [apply Hstack|]. split; [apply Hstack|].
  rewrite (getFiber_topmost st (stack_wf_allocated st Hstack)).
  by rewrite (topmost_active_last _ _ (proj2 Hstack)).
Qed.

Lemma getFiber_is_top_of_stack_witness :
  NoDup (fiberStack two_fibers_enabled)
  ∧ Forall (λ f, is_active (fibers two_fibers_enabled) f = true)
      (fiberStack two_fibers_enabled)
  ∧ getFiber two_fibers_enabled = Ret (last (fiberStack two_fibers_enabled))
                                     two_fibers_enabled.
Proof.
  apply (getFiber_is_top_of_stack 0
           [FiberNew None; FiberEnable 0; FiberNew None; FiberEnable 1] 0 1
           two_fibers_enabled).
  vm_compute. reflexivity.
Defined.

(** X2: in every state that a run of operations reaches from the start of
    the process, the async hook is armed exactly when the fiber stack holds
    a fiber: [enable] arms it when it pushes, [disable] disarms it when it
    removes the last entry. *)
Theorem hook_armed_while_stack_holds_fiber fuel ops resource asyncId st :
  run fuel ops (initial resource asyncId) = Some st →
  hookEnabled st = true ↔ fiberStack st ≠ [].
Proof.
  intros Hrun.
  destruct (run_fibers_wf _ _ _ _ Hrun (initial_fibers_wf _ _)) as (_ & _ & Harm).
  rewrite Harm. apply bool_decide_eq_true.
Qed.

Lemma hook_armed_while_stack_holds_fiber_witness :
  hookEnabled (state_after (Fiber.disable 0) two_fibers) = true
  ↔ fiberStack (state_after (Fiber.disable 0) two_fibers) ≠ [].
Proof.
  apply (hook_armed_while_stack_holds_fiber 0
           [FiberNew None; FiberEnable 0; FiberNew None; FiberDisable 0] 0 1
           (state_after (Fiber.disable 0) two_fibers)).
  vm_compute. reflexivity.
Defined.

(** X3: in every state that a run of operations reaches from the start of
    the process, two fiber objects have different [fiberId]s, and every
    [fiberId] is at least 1 and below the counter [_fiberIdx]. *)
Theorem fiber_ids_unique fuel ops resource asyncId st f g fb gb :
  run fuel ops (initial resource asyncId) = Some st →
  fibers st !! f = Some fb →
  fibers st !! g = Some gb →
  f ≠ g →
  AsyncResourceFiber.fiberId fb ≠ AsyncResourceFiber.fiberId gb
  ∧ 0 < AsyncResourceFiber.fiberId fb < _fiberIdx st.
Proof.
  intros Hrun Hf Hg Hne.
  destruct (run_fibers_wf _ _ _ _ Hrun (initial_fibers_wf _ _))
    as (_ & (_ & Hbound & Hinj & _) & _).
  split; [|by apply (Hbound f)].
  intros Heq. apply Hne. by apply (Hinj f g fb gb).
Qed.

Lemma fiber_ids_unique_witness :
  AsyncResourceFiber.fiberId (AsyncResourceFiber.mk 1 0 true None None)
  ≠ AsyncResourceFiber.fiberId (AsyncResourceFiber.mk 2 0 false (Some 0) None)
  ∧ 0 < AsyncResourceFiber.fiberId (AsyncResourceFiber.mk 1 0 true None None)
      < _fiberIdx two_fibers.
Proof.
  apply (fiber_ids_unique 0 [FiberNew None; FiberEnable 0; FiberNew None] 0 1
           two_fibers 0 1).
  - vm_compute. reflexivity.
  - vm_compute. reflexivity.
  - vm_compute. reflexivity.
  - discriminate.
Defined.

Lemma parentFiberIds_within st :
  ids_wf st →
  ∀ k f fb,
    fibers st !! f = Some fb →
    AsyncResourceFiber.fiberId fb ≤ k →
    ∃ ids, Fiber.parentFiberIds k f st = Ret ids st
           ∧ descending (AsyncResourceFiber.fiberId fb) ids.
Proof.
  intros (_ & Hbound & _ & Hparent).
  induction k as [|k IH]; intros f fb Hfb Hle.
  { pose proof (Hbound f fb Hfb). lia. }
  cbn [Fiber.parentFiberIds].
  rewrite (bind_Ret _ _ _ _ _ (getFiberObj_Some _ _ _ Hfb)).
  destruct (AsyncResourceFiber.parent fb) as [p|] eqn:Hp; [|by exists []].
  destruct (Hparent f fb p Hfb Hp) as (pb & Hpb & Hlt).
  rewrite (bind_Ret _ _ _ _ _ (getFiberObj_Some _ _ _ Hpb)).
  destruct (IH p pb Hpb ltac:(lia)) as (ids & Hrun & Hdesc).
  rewrite (bind_Ret _ _ _ _ _ Hrun).
  exists (AsyncResourceFiber.fiberId pb :: ids). by split.
Qed.

(** X4: in every state that a run of operations reaches from the start of
    the process, the [parentFiberIds] getter of a fiber returns, after at
    most as many steps up the parent chain as the fiber's id, and changes
    nothing; the ids it lists get smaller from one to the next, and all are
    smaller than the id of the fiber itself, which is therefore not among
    its own ancestors. *)
Theorem parentFiberIds_descending fuel ops resource asyncId st f fb k :
  run fuel ops (initial resource asyncId) = Some st →
  fibers st !! f = Some fb →
  AsyncResourceFiber.fiberId fb ≤ k →
  ∃ ids, Fiber.parentFiberIds k f st = Ret ids st
         ∧ descending (AsyncResourceFiber.fiberId fb) ids.
Proof.
  intros Hrun Hfb Hle.
  destruct (run_fibers_wf _ _ _ _ Hrun (initial_fibers_wf _ _)) as (_ & Hids & _).
  by apply parentFiberIds_within.
Qed.

Lemma parentFiberIds_descending_witness :
  ∃ ids, Fiber.parentFiberIds 2 1 two_fibers = Ret ids two_fibers
         ∧ descending 2 ids.
Proof.
  apply (parentFiberIds_descending 0 [FiberNew None; FiberEnable 0; FiberNew None] 0 1
           two_fibers 1 (AsyncResourceFiber.mk 2 0 false (Some 0) None) 2).
  - vm_compute. reflexivity.
  - vm_compute. reflexivity.
  - simpl. lia.
Defined.

(** ** [enable] and [disable], one after the other *)

(** X5: [enable] of a fiber, called a second time, does nothing: the fiber
    is pushed on the stack once, and two calls leave the state one call
    leaves. *)
Theorem enable_idempotent this st :
  (Fiber.enable this ;;; Fiber.enable this) st = Fiber.enable this st.
Proof.
  destruct (fibers st !! this) as [fb|] eqn:Hfb; last first.
  { unfold Fiber.enable. unfold_goal. by rewrite Hfb. }
  destruct (AsyncResourceFiber.active fb) eqn:Hactive.
  { assert (Fiber.enable this st = Ret this st) as Hrun.
    { unfold Fiber.enable. unfold_goal. rewrite Hfb. simpl. by rewrite Hactive. }
    by rewrite (bind_Ret _ _ _ _ _ Hrun). }
  destruct (nodes st !! AsyncResourceFiber.root fb) as [n|] eqn:Hn; last first.
  { assert (Fiber.enable this st = Fail Dangling) as Hrun.
    { unfold Fiber.enable. unfold_goal. rewrite Hfb. simpl. rewrite Hactive. simpl.
      by rewrite Hn. }
    by rewrite (bind_Fail _ _ _ _ Hrun). }
  rewrite (bind_Ret _ _ _ _ _ (Fiber_enable_run st this fb n Hfb Hactive Hn)).
  rewrite (Fiber_enable_run st this fb n Hfb Hactive Hn).
  unfold Fiber.enable. unfold_goal. by rewrite lookup_insert_eq.
Qed.

(** X6: [enable] and then [disable] of a fiber that is neither active nor on
    the stack leave the stack and the fibers as they were; the hook is armed
    afterwards exactly if the stack holds a fiber; and the root of the fiber
    carries the id of the topmost active fiber of the stack, or 0, whatever
    it carried before. *)
Theorem enable_disable_round_trip st this fb n :
  fibers st !! this = Some fb →
  AsyncResourceFiber.active fb = false →
  nodes st !! AsyncResourceFiber.root fb = Some n →
  stack_allocated st →
  this ∉ fiberStack st →
  ∃ st',
    (Fiber.enable this ;;; Fiber.disable this) st = Ret this st'
    ∧ fiberStack st' = fiberStack st
    ∧ fibers st' = fibers st
    ∧ hookEnabled st' = bool_decide (fiberStack st ≠ [])
    ∧ nodes st' =
        <[AsyncResourceFiber.root fb :=
            AsyncResourceNode.set_fiberId
              (id_of (fibers st) (topmost_active (fibers st) (fiberStack st))) n]>
          (nodes st).
Proof.
  intros Hfb Hactive Hn Hstack Hnotin.
  rewrite (bind_Ret _ _ _ _ _ (Fiber_enable_run st this fb n Hfb Hactive Hn)).
  set (fb1 := AsyncResourceFiber.set_active true fb).
  set (n1 := AsyncResourceNode.set_fiberId (AsyncResourceFiber.fiberId fb) n).
  set (st1 := set_hookEnabled true _).
  assert (Hfb1 : fibers st1 !! this = Some fb1) by apply lookup_insert_eq.
  assert (Hn1 : nodes st1 !! AsyncResourceFiber.root fb1 = Some n1) by apply lookup_insert_eq.
  assert (Hstack1 : stack_allocated st1).
  { apply Forall_app. split.
    - eapply Forall_impl; [exact Hstack|]. simpl. intros f [x Hx].
      destruct (decide (f = this)) as [->|Hne].
      + rewrite lookup_insert_eq. by eexists.
      + rewrite lookup_insert_ne by done. by exists x.
    - apply Forall_singleton. by exists fb1. }
  pose proof (disable_run st1 this fb1 n1 Hfb1 Hn1 Hstack1) as Hrun.
  cbv zeta in Hrun.
  assert (Hsplice : splice (fiberStack st1) (indexOf (fiberStack st1) this) 1
                    = fiberStack st).
  { simpl. unfold indexOf. rewrite indexOf_from_first by done.
    rewrite Z.add_0_l, splice_found. apply app_nil_r. }
  rewrite Hsplice in Hrun.
  assert (Hsame : ∀ f, f ∈ fiberStack st → fibers st1 !! f = fibers st !! f).
  { intros f Hf. simpl. rewrite lookup_insert_ne; [done|]. by intros ->. }
  rewrite (topmost_active_ext _ _ _ Hsame) in Hrun.
  assert (Hid : id_of (fibers st1) (topmost_active (fibers st) (fiberStack st))
                = id_of (fibers st) (topmost_active (fibers st) (fiberStack st))).
  { destruct (topmost_active _ _) as [f|] eqn:Htop; [|done]. simpl.
    apply topmost_active_elem in Htop as [Hin _]. by rewrite Hsame. }
  rewrite Hid in Hrun.
  eexists. split; [exact Hrun|].
  assert (Hlen : ∀ st0 : State,
            (if decide (length (fiberStack st) = 0) then set_hookEnabled false else id)
              (upd_fiberStack (λ _, fiberStack st) st0)
            = set_hookEnabled
                (if decide (length (fiberStack st) = 0) then false else hookEnabled st0)
                (upd_fiberStack (λ _, fiberStack st) st0)).
  { intros st0. by destruct (decide _). }
  rewrite Hlen. simpl. split; [done|]. split; [|split].
  - rewrite insert_insert_eq. apply insert_id.
    rewrite Hfb. f_equal. destruct fb. simpl in *. by subst.
  - destruct (decide _) as [Hl|Hl].
    + apply nil_length_inv in Hl. by rewrite Hl.
    + symmetry. apply bool_decide_eq_true_2. intros Heq. by rewrite Heq in Hl.
  - by rewrite insert_insert_eq.
Qed.

Lemma enable_disable_round_trip_witness :
  ∃ st',
    (Fiber.enable 1 ;;; Fiber.disable 1) two_fibers = Ret 1 st'
    ∧ fiberStack st' = fiberStack two_fibers
    ∧ fibers st' = fibers two_fibers
    ∧ hookEnabled st' = bool_decide (fiberStack two_fibers ≠ [])
    ∧ nodes st' =
        <[0 := AsyncResourceNode.set_fiberId
                 (id_of (fibers two_fibers)
                    (topmost_active (fibers two_fibers) (fiberStack two_fibers)))
                 (AsyncResourceNode.new 1 1 None None)]>
          (nodes two_fibers).
Proof.
  apply (enable_disable_round_trip two_fibers 1
           (AsyncResourceFiber.mk 2 0 false (Some 0) None)
           (AsyncResourceNode.new 1 1 None None)).
  - reflexivity.
  - reflexivity.
  - reflexivity.
  - apply (bool_decide_unpack _). vm_compute. exact I.
  - apply (bool_decide_unpack _). vm_compute. exact I.
Defined.

(** X7: [enable()] returns the active fiber at the top of the stack if
    there is one, and then changes nothing; otherwise it constructs a fiber
    and enables it.  Either way a second [enable()] returns the same fiber
    and changes nothing. *)
Theorem enable_twice_same_fiber frame frame' st :
  stack_allocated st →
  refs_allocated st →
  ∃ f st1,
    enable frame st = Ret f st1
    ∧ enable frame' st1 = Ret f st1
    ∧ (∀ g, topmost_active (fibers st) (fiberStack st) = Some g → f = g ∧ st1 = st).
Proof.
  intros Hstack Hrefs. unfold enable.
  rewrite (bind_Ret _ _ _ _ _ (getFiber_topmost st Hstack)).
  destruct (topmost_active (fibers st) (fiberStack st)) as [g|] eqn:Htop.
  { exists g, st. split; [done|]. split; [|by intros ? [= <-]].
    rewrite (bind_Ret _ _ _ _ _ (getFiber_topmost st Hstack)). by rewrite Htop. }
  destruct (Fiber_new_run frame st Hstack Hrefs) as (root & rn & st0 & Hnew & Hf0 & Hs0 & Hn0).
  rewrite Htop in Hf0.
  set (f := fresh (dom (fibers st))) in *.
  rewrite (bind_Ret _ _ _ _ _ Hnew).
  set (fb := AsyncResourceFiber.mk (_fiberIdx st) root false None frame) in *.
  assert (Hfb : fibers st0 !! f = Some fb) by (rewrite Hf0; apply lookup_insert_eq).
  rewrite (Fiber_enable_run st0 f fb rn Hfb eq_refl Hn0).
  set (st1 := set_hookEnabled true _).
  exists f, st1. split; [done|]. split; [|done].
  assert (Hstack1 : stack_allocated st1).
  { apply Forall_app. split.
    - simpl. rewrite Hs0. eapply Forall_impl; [exact Hstack|]. simpl. intros g [x Hx].
      destruct (decide (g = f)) as [->|Hne].
      + rewrite lookup_insert_eq. by eexists.
      + rewrite lookup_insert_ne, Hf0, lookup_insert_ne by done. by exists x.
    - apply Forall_singleton. simpl. rewrite lookup_insert_eq. by eexists. }
  rewrite (bind_Ret _ _ _ _ _ (getFiber_topmost st1 Hstack1)).
  assert (topmost_active (fibers st1) (fiberStack st1) = Some f) as ->; [|done].
  unfold topmost_active. simpl. rewrite reverse_snoc. simpl.
  unfold is_active at 1. by rewrite lookup_insert_eq.
Qed.

Lemma enable_twice_same_fiber_witness :
  ∃ f st1,
    enable None (initial 0 1) = Ret f st1
    ∧ enable None st1 = Ret f st1
    ∧ (∀ g, topmost_active (fibers (initial 0 1)) (fiberStack (initial 0 1)) = Some g →
            f = g ∧ st1 = initial 0 1).
Proof.
  apply (enable_twice_same_fiber None None (initial 0 1)).
  - apply (bool_decide_unpack _). vm_compute. exact I.
  - apply (bool_decide_unpack _). vm_compute. exact I.
Defined.

(** X8: in a state that a run of operations reaches from the start of the
    process, and in which the root of every fiber is allocated, [disable()]
    pops the stack: it returns the last entry, or null for the empty stack,
    which it leaves as it is; the entry is removed and its [active] flag
    cleared. *)
Theorem disable_pops_top_of_stack fuel ops resource asyncId st :
  run fuel ops (initial resource asyncId) = Some st →
  map_Forall (λ _ fb, is_Some (nodes st !! AsyncResourceFiber.root fb)) (fibers st) →
  ∃ st',
    disable st = Ret (last (fiberStack st)) st'
    ∧ fiberStack st' = removelast (fiberStack st)
    ∧ (∀ f, last (fiberStack st) = Some f → is_active (fibers st') f = false)
    ∧ (fiberStack st = [] → st' = st).
Proof.
  intros Hrun Hroots.
  destruct (run_fibers_wf _ _ _ _ Hrun (initial_fibers_wf _ _)) as (Hstack & _ & _).
  pose proof (stack_wf_allocated st Hstack) as Halloc.
  destruct Hstack as [Hnd Hact].
  unfold disable. rewrite (bind_Ret _ _ _ _ _ (getFiber_topmost st Halloc)).
  rewrite (topmost_active_last _ _ Hact).
  destruct (fiberStack st) as [|f s _] eqn:Hs using rev_ind.
  { exists st. by repeat split. }
  rewrite last_snoc, removelast_last.
  pose proof (proj1 (Forall_forall _ _) Hact f ltac:(set_solver)) as Hf. simpl in Hf.
  apply is_active_true in Hf as (fb & Hfb & Hactive).
  destruct (Hroots f fb Hfb) as [rn Hrn].
  pose proof (disable_run st f fb rn Hfb Hrn Halloc) as Hdis. cbv zeta in Hdis.
  rewrite Hs in Hdis.
  apply NoDup_app in Hnd as (_ & Hdisj & _).
  assert (Hnotin : f ∉ s) by (intros Hin; apply (Hdisj f Hin); set_solver).
  unfold indexOf in Hdis. rewrite indexOf_from_first in Hdis by done.
  rewrite Z.add_0_l, splice_found, app_nil_r in Hdis.
  rewrite (bind_Ret _ _ _ _ _ Hdis).
  eexists. split; [done|]. split; [|split].
  - simpl. by destruct (decide _).
  - intros g [= <-]. unfold is_active. simpl. by rewrite lookup_insert_eq.
  - intros Heq. by destruct s.
Qed.

Lemma disable_pops_top_of_stack_witness :
  ∃ st',
    disable two_fibers_enabled = Ret (last (fiberStack two_fibers_enabled)) st'
    ∧ fiberStack st' = removelast (fiberStack two_fibers_enabled)
    ∧ (∀ f, last (fiberStack two_fibers_enabled) = Some f →
            is_active (fibers st') f = false)
    ∧ (fiberStack two_fibers_enabled = [] → st' = two_fibers_enabled).
Proof.
  apply (disable_pops_top_of_stack 0
           [FiberNew None; FiberEnable 0; FiberNew None; FiberEnable 1] 0 1
           two_fibers_enabled).
  - vm_compute. reflexivity.
  - apply (bool_decide_unpack _). vm_compute. exact I.
Defined.

(** ** The flag [_asyncResourceGraphHookActive] *)

Ltac flag_calm_tac := frame; try (by right).

(** Whatever its body does, a hook callback ends with the flag cleared. *)
Lemma guarded_flag_calm body : preserves flag_calm (Hook.guarded body).
Proof.
  intros st. unfold Hook.guarded, try_finally, bind, modify.
  destruct (body (set_hookActive true st)); simpl; try done; by left.
Qed.

#[local] Hint Resolve guarded_flag_calm : frame.

Lemma getFiber_from_flag_calm l : preserves flag_calm (getFiber_from l).
Proof. induction l; simpl; flag_calm_tac. Qed.

#[local] Hint Resolve getFiber_from_flag_calm : frame.

Lemma parentFiberIds_flag_calm fuel f : preserves flag_calm (Fiber.parentFiberIds fuel f).
Proof. revert f. induction fuel; intros f; simpl; flag_calm_tac. Qed.

#[local] Hint Resolve parentFiberIds_flag_calm : frame.

Lemma taintAsyncResourceGraph_flag_calm fuel node mask flags :
  preserves flag_calm (taintAsyncResourceGraph fuel node mask flags).
Proof. revert node. induction fuel; intros node; simpl; flag_calm_tac. Qed.

#[local] Hint Resolve taintAsyncResourceGraph_flag_calm : frame.

Lemma hasAsyncIO_flag_calm pending : preserves flag_calm (hasAsyncIO pending).
Proof. induction pending; simpl; flag_calm_tac. Qed.

#[local] Hint Resolve hasAsyncIO_flag_calm : frame.

Lemma adopt_owned_flag_calm w observer fiberId targets stack :
  preserves flag_calm (adopt_owned w observer fiberId targets stack).
Proof. revert stack. induction targets; intros stack; simpl; flag_calm_tac. Qed.

#[local] Hint Resolve adopt_owned_flag_calm : frame.

Lemma adopt_unobserved_flag_calm w observer targets stack :
  preserves flag_calm (adopt_unobserved w observer targets stack).
Proof. revert stack. induction targets; intros stack; simpl; flag_calm_tac. Qed.

#[local] Hint Resolve adopt_unobserved_flag_calm : frame.

Lemma drain_flag_calm fuel w observer stack :
  preserves flag_calm (drain fuel w observer stack).
Proof. revert stack. induction fuel; intros stack; simpl; flag_calm_tac. Qed.

#[local] Hint Resolve drain_flag_calm : frame.

Lemma exec_flag_calm fuel op : preserves flag_calm (exec fuel op).
Proof. destruct op; simpl; flag_calm_tac. Qed.

Lemma run_flag_calm fuel ops st st' : run fuel ops st = Some st' → flag_calm st st'.
Proof.
  revert st. induction ops as [|op ops IH]; intros st Hrun; simpl in Hrun.
  - simplify_eq. reflexivity.
  - destruct (final (exec fuel op st)) as [st1|] eqn:Hop; [|done].
    etrans; [|by apply IH].
    by apply (final_preserves _ _ _ _ (exec_flag_calm fuel op)).
Qed.

(** X9: the flag [_asyncResourceGraphHookActive] is set only while a hook
    callback runs.  Each callback clears it in its [finally] block, also
    when an observer throws, and nothing else sets it: a run of operations
    that starts with the flag cleared ends with the flag cleared. *)
Theorem hook_flag_cleared_after_run fuel ops st st' :
  _asyncResourceGraphHookActive st = false →
  run fuel ops st = Some st' →
  _asyncResourceGraphHookActive st' = false.
Proof.
  intros Hflag Hrun. destruct (run_flag_calm _ _ _ _ Hrun) as [Hclear|Hsame].
  - exact Hclear.
  - by rewrite Hsame.
Qed.

Lemma hook_flag_cleared_after_run_witness :
  _asyncResourceGraphHookActive
    (default parent_trigger
       (run 5 [HookInit 4 "PROMISE" 2 3 None; HookPromiseResolve 3; RunImmediate 0]
          parent_trigger)) = false.
Proof.
  apply (hook_flag_cleared_after_run 5
           [HookInit 4 "PROMISE" 2 3 None; HookPromiseResolve 3; RunImmediate 0]
           parent_trigger).
  - vm_compute. reflexivity.
  - vm_compute. reflexivity.
Defined.

Lemma hookActive_reset st :
  _asyncResourceGraphHookActive st = false →
  set_hookActive false (set_hookActive true st) = st.
Proof. destruct st. simpl. by intros ->. Qed.

(** In a context that is not tracked, [init] does nothing. *)
Lemma init_in_untracked_context fuel asyncId type triggerAsyncId resource frame st :
  _asyncResourceGraphHookActive st = false →
  untracked_context st →
  Hook.init fuel asyncId type triggerAsyncId resource frame st = Ret tt st.
Proof.
  intros Hflag Hctx. unfold Hook.init. unfold bind at 1, gets at 1.
  rewrite Hflag. simpl.
  unfold Hook.guarded, try_finally. unfold bind at 1, modify at 1.
  unfold bind at 1, executionNode at 1, gets at 1. simpl.
  unfold untracked_context in Hctx.
  destruct (fiberRefs st !! executionAsyncResource st) as [l|]; simpl.
  - destruct (nodes st !! l) as [n|] eqn:Hn; [|done]. rename Hctx into Hactive.
    unfold Node._onExecute.
    rewrite (bind_Ret _ _ _ _ _ (getNode_Some (set_hookActive true st) l n Hn)).
    rewrite Hactive. simpl. by rewrite hookActive_reset.
  - by rewrite hookActive_reset.
Qed.

(** X10: the [init] callback ignores a resource, and leaves everything as
    it is, when it is called while another hook callback runs, when the
    resource of the current execution context carries no node, and when it
    carries a node that is not active. *)
Theorem init_ignored fuel asyncId type triggerAsyncId resource frame st :
  _asyncResourceGraphHookActive st = true ∨ untracked_context st →
  Hook.init fuel asyncId type triggerAsyncId resource frame st = Ret tt st.
Proof.
  intros Hcase.
  destruct (_asyncResourceGraphHookActive st) eqn:Hflag.
  - unfold Hook.init. unfold bind at 1, gets at 1. by rewrite Hflag.
  - destruct Hcase as [?|Hctx]; [done|]. by apply init_in_untracked_context.
Qed.

Lemma init_ignored_witness :
  Hook.init 5 4 "Timeout" 1 3 None awaiting = Ret tt awaiting.
Proof.
  apply (init_ignored 5 4 "Timeout" 1 3 None awaiting).
  right. vm_compute. reflexivity.
Defined.

(** ** The [init] callback in a tracked context *)

Lemma map_get_set_eq {V} (k : Z) (v : V) m : map_get k (map_set k v m) = Some v.
Proof.
  induction m as [|[k' v'] m IH]; simpl.
  - by destruct (decide (k = k)).
  - destruct (decide (k' = k)) as [->|Hne]; simpl.
    + by destruct (decide (k = k)).
    + by destruct (decide (k' = k)).
Qed.

Lemma map_get_set_ne {V} (k k0 : Z) (v : V) m :
  k0 ≠ k → map_get k0 (map_set k v m) = map_get k0 m.
Proof.
  intros Hne. induction m as [|[k' v'] m IH]; simpl.
  - by destruct (decide (k = k0)) as [->|].
  - destruct (decide (k' = k)) as [->|Hne']; simpl.
    + destruct (decide (k = k0)) as [->|]; [done|done].
    + by rewrite IH.
Qed.

Lemma allocNode_run n st :
  allocNode n st
  = Ret (fresh (dom (nodes st))) (upd_nodes (insert (fresh (dom (nodes st))) n) st).
Proof. done. Qed.

Lemma guarded_final body st st' :
  final (Hook.guarded body st) = Some st' →
  ∃ st1, final (body (set_hookActive true st)) = Some st1
         ∧ st' = set_hookActive false st1.
Proof.
  unfold Hook.guarded, try_finally, bind, modify.
  destruct (body (set_hookActive true st)) as [a st1|e st1|]; simpl; [| |done];
    intros [= <-]; by exists st1.
Qed.

#[local] Instance same_core_preorder : PreOrder same_core.
Proof.
  split; [by intros ?|]. unfold same_core. intros a b c Hab Hbc.
  repeat split; intuition congruence.
Qed.

#[local] Instance core_kept_preorder : PreOrder core_kept.
Proof.
  split.
  - intros st. split; [apply heap_rel_refl; apply _|done].
  - intros a b c (Hab & ? & ?) (Hbc & ? & ?). split; [|split; congruence].
    eapply heap_rel_trans; [apply _|done..].
Qed.

Ltac core_side :=
  lazymatch goal with
  | |- core_kept _ _ =>
      split; [|done]; simpl;
      first [ apply heap_rel_refl; apply _
            | eapply heap_rel_update; [apply _ | eassumption | done] ]
  end.

Ltac core_tac := frame; try core_side.

Lemma getAsyncResourceNode_from_core_kept fuel node asyncId :
  preserves core_kept (getAsyncResourceNode_from fuel node asyncId).
Proof. revert node. induction fuel; intros node; simpl; core_tac. Qed.

#[local] Hint Resolve getAsyncResourceNode_from_core_kept : frame.

(** What [init] has done when it ends, by returning or by throwing what an
    observer threw, in a context whose node [this] is active. *)
Lemma init_links fuel asyncId type triggerAsyncId resource frame st st' this n :
  _asyncResourceGraphHookActive st = false →
  fiberRefs st !! executionAsyncResource st = Some this →
  nodes st !! this = Some n →
  AsyncResourceNode.active n = true →
  final (Hook.init fuel asyncId type triggerAsyncId resource frame st) = Some st' →
  let node := fresh (dom (nodes st)) in
  ∃ c n',
    nodes st' !! node = Some c
    ∧ same_core
        (AsyncResourceNode.set_executionOrigin (Some this)
           (AsyncResourceNode.new (AsyncResourceNode.fiberId n) asyncId (Some type) frame))
        c
    ∧ nodes st' !! this = Some n'
    ∧ same_core
        (AsyncResourceNode.set_executionTargets
           (map_set asyncId node (AsyncResourceNode.executionTargets n)) n)
        n'
    ∧ fiberRefs st' = <[resource := node]> (fiberRefs st)
    ∧ executionAsyncResource st' = executionAsyncResource st.
Proof.
  intros Hflag Href Hn Hactive Hfinal node.
  unfold Hook.init in Hfinal. unfold bind at 1, gets at 1 in Hfinal.
  rewrite Hflag in Hfinal. simpl in Hfinal.
  apply guarded_final in Hfinal as (st1 & Hfinal & ->).
  set (st_a := set_hookActive true st) in *.
  unfold bind at 1, executionNode at 1, gets at 1 in Hfinal.
  change (fiberRefs st_a !! executionAsyncResource st_a)
    with (fiberRefs st !! executionAsyncResource st) in Hfinal.
  rewrite Href in Hfinal. unfold Node._onExecute in Hfinal.
  rewrite (bind_Ret _ _ _ _ _ (getNode_Some st_a this n Hn)) in Hfinal.
  rewrite Hactive in Hfinal. simpl in Hfinal.
  rewrite (bind_Ret _ _ _ _ _ (allocNode_run _ st_a)) in Hfinal.
  change (fresh (dom (nodes st_a))) with node in Hfinal.
  set (c0 := AsyncResourceNode.new _ _ _ _) in *.
  set (st_b := upd_nodes _ st_a) in *.
  assert (Hne : this ≠ node).
  { intros ->. apply (is_fresh (dom (nodes st))). apply elem_of_dom. by exists n. }
  rewrite (bind_Ret _ _ _ _ _ (updNode_Some st_b node c0 _ (lookup_insert_eq _ _ _)))
    in Hfinal.
  set (c1 := AsyncResourceNode.set_executionOrigin _ c0) in *.
  set (st_c := upd_nodes _ st_b) in *.
  unfold bind at 1, modify at 1 in Hfinal.
  set (st_d := upd_fiberRefs _ st_c) in *.
  assert (Hn_d : nodes st_d !! this = Some n).
  { simpl. by rewrite !lookup_insert_ne by done. }
  rewrite (bind_Ret _ _ _ _ _ (updNode_Some st_d this n _ Hn_d)) in Hfinal.
  set (n1 := AsyncResourceNode.set_executionTargets _ n) in *.
  set (st_e := upd_nodes _ st_d) in *.
  match type of Hfinal with
  | final (?rest ?s) = _ =>
      assert (preserves core_kept rest) as Hrest by core_tac;
      apply (final_preserves _ _ _ _ Hrest) in Hfinal
  end.
  destruct Hfinal as (Hnodes & Hrefs & Hres).
  destruct (Hnodes node c1) as (c & Hc & Hcore).
  { simpl. rewrite lookup_insert_ne by done. apply lookup_insert_eq. }
  destruct (Hnodes this n1) as (n' & Hn' & Hcore'); [apply lookup_insert_eq|].
  exists c, n'. simpl. rewrite Hrefs, Hres.
  split; [done|]. split; [exact Hcore|]. split; [done|]. split; [exact Hcore'|]. done.
Qed.

(** X11: when the node of the current execution context is active, the
    [init] callback, called outside any other hook callback, creates a node
    at a fresh address for the new resource and, whether it then returns or
    an observer throws, leaves it with the given [asyncId], type and frame,
    the [fiberId] of the context node, the context node as its
    [executionOrigin], active, with no flags and no execution targets; and
    the resource refers to it. *)
Theorem init_creates_child fuel asyncId type triggerAsyncId resource frame st st' this n :
  _asyncResourceGraphHookActive st = false →
  fiberRefs st !! executionAsyncResource st = Some this →
  nodes st !! this = Some n →
  AsyncResourceNode.active n = true →
  final (Hook.init fuel asyncId type triggerAsyncId resource frame st) = Some st' →
  let node := fresh (dom (nodes st)) in
  nodes st !! node = None
  ∧ fiberRefs st' !! resource = Some node
  ∧ ∃ c,
      nodes st' !! node = Some c
      ∧ AsyncResourceNode.asyncId c = asyncId
      ∧ AsyncResourceNode.type c = Some type
      ∧ AsyncResourceNode.frame c = frame
      ∧ AsyncResourceNode.fiberId c = AsyncResourceNode.fiberId n
      ∧ AsyncResourceNode.executionOrigin c = Some this
      ∧ AsyncResourceNode.active c = true
      ∧ AsyncResourceNode.flags c = INIT
      ∧ AsyncResourceNode.executionTargets c = [].
Proof.
  intros Hflag Href Hn Hactive Hfinal node.
  destruct (init_links _ _ _ _ _ _ _ _ _ _ Hflag Href Hn Hactive Hfinal)
    as (c & n' & Hc & Hcore & _ & _ & Hrefs & _).
  fold node in Hc, Hrefs.
  split; [apply not_elem_of_dom, is_fresh|].
  split; [rewrite Hrefs; apply lookup_insert_eq|].
  exists c. split; [done|].
  destruct Hcore as (? & ? & ? & ? & ? & ? & ? & ?). by repeat split.
Qed.

Lemma init_creates_child_witness :
  let st' := state_after (Hook.init 5 2 "Timeout" 1 1 None) enabled in
  let node := fresh (dom (nodes enabled)) in
  nodes enabled !! node = None
  ∧ fiberRefs st' !! 1 = Some node
  ∧ ∃ c,
      nodes st' !! node = Some c
      ∧ AsyncResourceNode.asyncId c = 2%Z
      ∧ AsyncResourceNode.type c = Some "Timeout"%string
      ∧ AsyncResourceNode.frame c = None
      ∧ AsyncResourceNode.fiberId c
        = AsyncResourceNode.fiberId (AsyncResourceNode.new 1 1 None None)
      ∧ AsyncResourceNode.executionOrigin c = Some 0
      ∧ AsyncResourceNode.active c = true
      ∧ AsyncResourceNode.flags c = INIT
      ∧ AsyncResourceNode.executionTargets c = [].
Proof.
  apply (init_creates_child 5 2 "Timeout" 1 1 None enabled
           (state_after (Hook.init 5 2 "Timeout" 1 1 None) enabled) 0
           (AsyncResourceNode.new 1 1 None None)).
  - vm_compute. reflexivity.
  - vm_compute. reflexivity.
  - vm_compute. reflexivity.
  - reflexivity.
  - vm_compute. reflexivity.
Defined.

(** X12: the node that [init] has created for an [asyncId] is the node that
    the hook callbacks [before], [after] and [promiseResolve] look up for
    that id, both in the execution context that created the resource, whose
    node has another id, and in the execution context of the resource
    itself. *)
Theorem init_then_found fuel asyncId type triggerAsyncId resource frame st st' this n
    fuel' :
  _asyncResourceGraphHookActive st = false →
  fiberRefs st !! executionAsyncResource st = Some this →
  nodes st !! this = Some n →
  AsyncResourceNode.active n = true →
  AsyncResourceNode.asyncId n ≠ asyncId →
  final (Hook.init fuel asyncId type triggerAsyncId resource frame st) = Some st' →
  let node := fresh (dom (nodes st)) in
  getAsyncResourceNode (S fuel') asyncId st' = Ret (Some node) st'
  ∧ ∀ id, (enterContext resource id ;;; getAsyncResourceNode (S fuel') asyncId) st'
          = Ret (Some node) (set_execution resource id st').
Proof.
  intros Hflag Href Hn Hactive Hid Hfinal node.
  destruct (init_links _ _ _ _ _ _ _ _ _ _ Hflag Href Hn Hactive Hfinal)
    as (c & n' & Hc & Hcore & Hn' & Hcore' & Hrefs & Hres).
  fold node in Hc, Hcore', Hrefs.
  destruct Hcore as (Hcid & _). simpl in Hcid.
  destruct Hcore' as (Hnid & _ & _ & _ & _ & _ & Htargets & _). simpl in Hnid, Htargets.
  assert (Hown : ∀ st0, nodes st0 = nodes st' →
            getAsyncResourceNode_from (S fuel') node asyncId st0 = Ret (Some node) st0).
  { intros st0 Hst0. simpl.
    rewrite (bind_Ret _ _ _ _ _ (getNode_Some st0 node c ltac:(by rewrite Hst0))).
    by destruct (decide _). }
  split.
  - unfold getAsyncResourceNode. unfold bind at 1, executionNode at 1, gets at 1.
    rewrite Hrefs, Hres.
    destruct (decide (resource = executionAsyncResource st)) as [->|Hne].
    + rewrite lookup_insert_eq. by apply Hown.
    + rewrite lookup_insert_ne, Href by done. simpl.
      rewrite (bind_Ret _ _ _ _ _ (getNode_Some st' this n' Hn')).
      destruct (decide _) as [Heq|_]; [congruence|].
      by rewrite Htargets, map_get_set_eq.
  - intros id. unfold enterContext. unfold bind at 1, modify at 1.
    unfold getAsyncResourceNode. unfold bind at 1, executionNode at 1, gets at 1.
    simpl. rewrite Hrefs, lookup_insert_eq. by apply Hown.
Qed.

Lemma init_then_found_witness :
  let st' := state_after (Hook.init 5 2 "Timeout" 1 1 None) enabled in
  let node := fresh (dom (nodes enabled)) in
  getAsyncResourceNode 1 2 st' = Ret (Some node) st'
  ∧ ∀ id, (enterContext 1 id ;;; getAsyncResourceNode 1 2) st'
          = Ret (Some node) (set_execution 1 id st').
Proof.
  apply (init_then_found 5 2 "Timeout" 1 1 None enabled
           (state_after (Hook.init 5 2 "Timeout" 1 1 None) enabled) 0
           (AsyncResourceNode.new 1 1 None None) 0).
  - vm_compute. reflexivity.
  - vm_compute. reflexivity.
  - vm_compute. reflexivity.
  - reflexivity.
  - discriminate.
  - vm_compute. reflexivity.
Defined.

(** ** Observers *)

(** X13: a node has at most one observer.  [observe] attaches the observer
    when the node has none or has this one already, and then [isObserved]
    answers true and [observe] by any other observer throws; when the node
    has another observer, [observe] throws the [TypeError] and changes
    nothing. *)
Theorem observe_is_exclusive this node st n :
  nodes st !! node = Some n →
  if decide (AsyncResourceNode.notifyObserver n = None
             ∨ AsyncResourceNode.notifyObserver n = Some this)
  then
    ∃ st',
      Observer.observe this node st = Ret tt st'
      ∧ nodes st' = <[node := AsyncResourceNode.set_notifyObserver (Some this) n]> (nodes st)
      ∧ Observer.isObserved this node st' = Ret true st'
      ∧ ∀ other, other ≠ this →
          Observer.observe other node st'
          = Throw (TypeError (Observer.already_observed (AsyncResourceNode.asyncId n))) st'
  else
    Observer.observe this node st
    = Throw (TypeError (Observer.already_observed (AsyncResourceNode.asyncId n))) st.
Proof.
  intros Hn. unfold Observer.observe.
  rewrite (bind_Ret _ _ _ _ _ (getNode_Some _ _ _ Hn)).
  destruct (decide (_ ∨ _)) as [Hfree|Htaken].
  - destruct (decide (_ ∧ _)) as [[Hsome Hother]|_]; [by destruct Hfree|].
    rewrite (updNode_Some _ _ _ _ Hn).
    set (n1 := AsyncResourceNode.set_notifyObserver (Some this) n).
    set (st' := upd_nodes _ st).
    assert (Hn1 : nodes st' !! node = Some n1) by apply lookup_insert_eq.
    exists st'. split; [done|]. split; [done|]. split.
    + unfold Observer.isObserved.
      rewrite (bind_Ret _ _ _ _ _ (getNode_Some _ _ _ Hn1)). simpl.
      by rewrite bool_decide_eq_true_2.
    + intros other Hne.
      rewrite (bind_Ret _ _ _ _ _ (getNode_Some _ _ _ Hn1)). simpl.
      destruct (decide (_ ∧ _)) as [_|Hno]; [done|].
      destruct Hno. split; [done|]. congruence.
  - destruct (decide (_ ∧ _)) as [_|Hno]; [done|].
    destruct Htaken.
    destruct (AsyncResourceNode.notifyObserver n) as [other|]; [|by left].
    right. f_equal. destruct (decide (other = this)) as [|Hne]; [done|].
    destruct Hno. split; [done|]. congruence.
Qed.

Lemma observe_is_exclusive_witness :
  if decide (AsyncResourceNode.notifyObserver
               (AsyncResourceNode.mk 3 2 (Some "PROMISE"%string) true None (Some 0)
                  (Some 0) [] [] 0 (Some 0)) = None
             ∨ AsyncResourceNode.notifyObserver
                 (AsyncResourceNode.mk 3 2 (Some "PROMISE"%string) true None (Some 0)
                    (Some 0) [] [] 0 (Some 0)) = Some 7)
  then
    ∃ st',
      Observer.observe 7 1 awaiting = Ret tt st'
      ∧ nodes st' =
          <[1 := AsyncResourceNode.set_notifyObserver (Some 7)
                   (AsyncResourceNode.mk 3 2 (Some "PROMISE"%string) true None (Some 0)
                      (Some 0) [] [] 0 (Some 0))]> (nodes awaiting)
      ∧ Observer.isObserved 7 1 st' = Ret true st'
      ∧ ∀ other, other ≠ 7 →
          Observer.observe other 1 st' = Throw (TypeError (Observer.already_observed 3)) st'
  else Observer.observe 7 1 awaiting = Throw (TypeError (Observer.already_observed 3)) awaiting.
Proof.
  apply (observe_is_exclusive 7 1 awaiting
           (AsyncResourceNode.mk 3 2 (Some "PROMISE"%string) true None (Some 0)
              (Some 0) [] [] 0 (Some 0))).
  vm_compute. reflexivity.
Defined.

Lemma getObserver_Some st o ob : observers st !! o = Some ob → getObserver o st = Ret ob st.
Proof. unfold getObserver, bind, gets, deref. by intros ->. Qed.

(** X14: the [POST_EXECUTION] notification of an observer never throws and
    never rejects: [_onAfter] calls the callback, which schedules the stall
    check and takes the node off the pending set of the watchdog, and then
    detaches the observer from the node. *)
Theorem onAfter_detaches o ob wd node n st :
  observers st !! o = Some ob →
  watchdogs st !! AsyncResourceObserver.callback ob = Some wd →
  nodes st !! node = Some n →
  ∃ st',
    Observer._onAfter o node st = Ret tt st'
    ∧ nodes st' = <[node := AsyncResourceNode.set_notifyObserver None n]> (nodes st)
    ∧ watchdogs st' =
        <[AsyncResourceObserver.callback ob :=
            Watchdog.mk (Watchdog.fiber wd) (Watchdog.abort wd)
              (Watchdog.parentFiberIds wd)
              (set_delete node (Watchdog.pendingExecutionTargets wd))
              (Watchdog.watchdogResult wd) true]> (watchdogs st)
    ∧ promises st' = promises st
    ∧ notified st' = notified st ++ [(o, POST_EXECUTION, node)].
Proof.
  intros Hob Hwd Hn. unfold Observer._onAfter, Observer.callback.
  unfold bind at 1. unfold bind at 1.
  rewrite (getObserver_Some _ _ _ Hob).
  unfold bind at 1, modify at 1.
  set (st1 := upd_notified _ st).
  set (w := AsyncResourceObserver.callback ob) in *.
  unfold watchdogObserverFn, scheduleCheck.
  rewrite (bind_Ret _ _ _ _ _ (updWatchdog_Some st1 w wd _ Hwd)).
  set (st2 := upd_watchdogs _ st1).
  destruct (decide (POST_EXECUTION = INIT)) as [Heq|_]; [discriminate Heq|].
  destruct (decide (POST_EXECUTION = POST_EXECUTION)) as [_|Hne]; [|done].
  rewrite (updWatchdog_Some st2 w _ _ (lookup_insert_eq _ _ _)).
  erewrite updNode_Some; [|exact Hn].
  eexists. split; [done|]. simpl. split; [done|]. split; [|done].
  by rewrite insert_insert_eq.
Qed.

Lemma onAfter_detaches_witness :
  ∃ st',
    Observer._onAfter 0 1 awaiting = Ret tt st'
    ∧ nodes st' =
        <[1 := AsyncResourceNode.set_notifyObserver None
                 (AsyncResourceNode.mk 3 2 (Some "PROMISE"%string) true None (Some 0)
                    (Some 0) [] [] 0 (Some 0))]> (nodes awaiting)
    ∧ watchdogs st' =
        <[0 := Watchdog.mk 1 None [1] (set_delete 1 [1]) 1 true]> (watchdogs awaiting)
    ∧ promises st' = promises awaiting
    ∧ notified st' = notified awaiting ++ [(0, POST_EXECUTION, 1)].
Proof.
  apply (onAfter_detaches 0 (AsyncResourceObserver.mk 2 0)
           (Watchdog.mk 1 None [1] [1] 1 true) 1
           (AsyncResourceNode.mk 3 2 (Some "PROMISE"%string) true None (Some 0)
              (Some 0) [] [] 0 (Some 0)) awaiting).
  - vm_compute. reflexivity.
  - vm_compute. reflexivity.
  - vm_compute. reflexivity.
Defined.

#[local] Instance nodes_same_preorder : PreOrder nodes_same.
Proof. split; [by intros ?|]. unfold nodes_same. intros a b c Hab Hbc. congruence. Qed.





(** ** Abort validation *)

(** After [assertFiberError], [abort.throwIfAborted()] has nothing left to
    do: inside a hook callback the fault has been thrown already, and
    outside it is not called. *)
Lemma assertFiberError_then_rethrow w e e' st :
  (assertFiberError w e ;;;
   let* hookActive := gets _asyncResourceGraphHookActive in
   if hookActive then throw e' else ret tt) st
  = assertFiberError w e st.
Proof.
  unfold assertFiberError, getWatchdog, updPromise, getPromise.
  cbv beta iota delta [bind gets modify ret deref throw]. simpl.
  destruct (watchdogs st !! w) as [wd|]; simpl; [|done].
  destruct (promises st !! Watchdog.watchdogResult wd); simpl; [|done].
  destruct (_asyncResourceGraphHookActive st) eqn:Hflag; simpl; [done|].
  by rewrite Hflag.
Qed.

(** X16: [assertFiberAbort] reports the first fault that applies, and
    reports it by [assertFiberError]: [FIBER_ABORTED] at the node if the node
    is flagged [ABORTED]; else, if its trigger origin is flagged, at the
    trigger origin, [FIBER_ABORTED] if that belongs to the supervised fiber
    and [FOREIGN_ASYNC_ABORTED] if not; else the reason of the cancellation
    signal if that is raised; and nothing otherwise.  The call of
    [throwIfAborted] adds nothing to this. *)
Theorem assertFiberAbort_reports st w wd fb node n :
  watchdogs st !! w = Some wd →
  fibers st !! Watchdog.fiber wd = Some fb →
  nodes st !! node = Some n →
  (∀ t, AsyncResourceNode.triggerOrigin n = Some t → is_Some (nodes st !! t)) →
  (∀ s, Watchdog.abort wd = Some s → is_Some (signals st !! s)) →
  assertFiberAbort w node st =
    match abort_fault (Watchdog.fiber wd) (AsyncResourceFiber.fiberId fb) node n
            (trigger_of st n) (signal_of st wd) with
    | None => Ret tt st
    | Some fault => assertFiberError w fault st
    end.
Proof.
  intros Hw Hf Hn Ht Hs. unfold assertFiberAbort.
  rewrite (bind_Ret _ _ _ _ _ (getWatchdog_Some _ _ _ Hw)).
  rewrite (bind_Ret _ _ _ _ _ (getFiberObj_Some _ _ _ Hf)).
  rewrite (bind_Ret _ _ _ _ _ (getNode_Some _ _ _ Hn)).
  unfold abort_fault, trigger_of, signal_of.
  destruct (has_flag (AsyncResourceNode.flags n) ABORTED); [done|].
  assert (Hsignal :
    match Watchdog.abort wd with
    | Some abort =>
        let* sg := getSignal abort in
        if AbortSignal.aborted sg
        then assertFiberError w (AbortSignal.reason sg) ;;;
             let* hookActive := gets _asyncResourceGraphHookActive in
             if hookActive then throw (AbortSignal.reason sg) else ret tt
        else ret tt
    | None => ret tt
    end st
    = match
        match Watchdog.abort wd ≫= (λ s, signals st !! s) with
        | Some sg => if AbortSignal.aborted sg then Some (AbortSignal.reason sg) else None
        | None => None
        end
      with
      | None => Ret tt st
      | Some fault => assertFiberError w fault st
      end).
  { destruct (Watchdog.abort wd) as [s|]; simpl; [|done].
    destruct (Hs s eq_refl) as [sg Hsg]. rewrite Hsg.
    rewrite (bind_Ret _ _ _ _ _ (getSignal_Some _ _ _ Hsg)).
    destruct (AbortSignal.aborted sg); [|done].
    apply assertFiberError_then_rethrow. }
  destruct (AsyncResourceNode.triggerOrigin n) as [t|]; simpl; [|exact Hsignal].
  destruct (Ht t eq_refl) as [tn Htn]. rewrite Htn. simpl.
  rewrite (bind_Ret _ _ _ _ _ (getNode_Some _ _ _ Htn)).
  destruct (has_flag (AsyncResourceNode.flags tn) ABORTED); [|exact Hsignal].
  by destruct (decide _).
Qed.

Lemma assertFiberAbort_reports_witness :
  assertFiberAbort 0 1 aborted_in_hook =
    match abort_fault 1 2 1
            (AsyncResourceNode.mk 3 2 (Some "PROMISE"%string) true None (Some 0)
               (Some 0) [] [] 8 (Some 0))
            (trigger_of aborted_in_hook
               (AsyncResourceNode.mk 3 2 (Some "PROMISE"%string) true None (Some 0)
                  (Some 0) [] [] 8 (Some 0)))
            (signal_of aborted_in_hook (Watchdog.mk 1 (Some 0) [1] [1] 1 true)) with
    | None => Ret tt aborted_in_hook
    | Some fault => assertFiberError 0 fault aborted_in_hook
    end.
Proof.
  apply (assertFiberAbort_reports aborted_in_hook 0
           (Watchdog.mk 1 (Some 0) [1] [1] 1 true)
           (AsyncResourceFiber.mk 2 0 false (Some 0) None)).
  - vm_compute. reflexivity.
  - vm_compute. reflexivity.
  - vm_compute. reflexivity.
  - intros t [= <-]. eexists. vm_compute. reflexivity.
  - intros s [= <-]. eexists. vm_compute. reflexivity.
Defined.

(** ** Outside the hook callbacks *)

Lemma oh_ret {A} (a : A) : outside_hook (ret a).
Proof. by intros st H. Qed.

Lemma oh_fail {A} f : outside_hook (@fail A f).
Proof. by intros st H. Qed.

Lemma oh_gets {A} (f : State → A) : outside_hook (gets f).
Proof. by intros st H. Qed.

Lemma oh_deref {A} (o : option A) : outside_hook (deref o).
Proof. destruct o; [apply oh_ret | apply oh_fail]. Qed.

Lemma oh_throw {A} message : outside_hook (@throw A (TypeError message)).
Proof. intros st H. simpl. split; [done|by eexists]. Qed.

Lemma oh_modify f :
  (∀ st, _asyncResourceGraphHookActive (f st) = _asyncResourceGraphHookActive st) →
  outside_hook (modify f).
Proof. intros Hf st H. simpl. by rewrite Hf. Qed.

Lemma oh_bind {A B} (c : M A) (k : A → M B) :
  outside_hook c → (∀ a, outside_hook (k a)) → outside_hook (bind c k).
Proof.
  intros Hc Hk st H. unfold bind. specialize (Hc st H).
  destruct (c st) as [a st'| |]; [|done..]. by apply Hk.
Qed.

Lemma oh_try_finally {A} (body : M A) (fin : M unit) :
  outside_hook body → outside_hook fin → outside_hook (try_finally body fin).
Proof.
  intros Hb Hf st H. unfold try_finally. specialize (Hb st H).
  destruct (body st) as [a st'|e st'|]; [| |done].
  - specialize (Hf st' Hb). by destruct (fin st').
  - destruct Hb as [Hb He]. specialize (Hf st' Hb). by destruct (fin st').
Qed.

Lemma oh_read {A B} (f : State → option A) (k : A → M B) :
  (∀ a, outside_hook (k a)) → outside_hook (bind (bind (gets f) deref) k).
Proof.
  intros Hk. apply oh_bind; [|done].
  apply oh_bind; [apply oh_gets|intros; apply oh_deref].
Qed.

Lemma oh_getNode l : outside_hook (getNode l).
Proof. apply oh_bind; [apply oh_gets|intros; apply oh_deref]. Qed.

Lemma oh_getFiberObj l : outside_hook (getFiberObj l).
Proof. apply oh_bind; [apply oh_gets|intros; apply oh_deref]. Qed.

Lemma oh_getWatchdog l : outside_hook (getWatchdog l).
Proof. apply oh_bind; [apply oh_gets|intros; apply oh_deref]. Qed.

Lemma oh_updNode l f : outside_hook (updNode l f).
Proof. apply oh_read. intros a. by apply oh_modify. Qed.

Lemma oh_updWatchdog l f : outside_hook (updWatchdog l f).
Proof. apply oh_read. intros a. by apply oh_modify. Qed.

Lemma oh_updSignal l f : outside_hook (updSignal l f).
Proof. apply oh_read. intros a. by apply oh_modify. Qed.

Lemma oh_updPromise l f : outside_hook (updPromise l f).
Proof. apply oh_read. intros a. by apply oh_modify. Qed.

Lemma oh_allocPromise p : outside_hook (allocPromise p).
Proof. by intros st H. Qed.

Lemma oh_allocObserver ob : outside_hook (allocObserver ob).
Proof. by intros st H. Qed.

Ltac oh_step :=
  lazymatch goal with
  | |- outside_hook (bind _ _) => apply oh_bind; [|intros ?]
  | |- outside_hook (ret _) => apply oh_ret
  | |- outside_hook (throw (TypeError _)) => apply oh_throw
  | |- outside_hook (fail _) => apply oh_fail
  | |- outside_hook (gets _) => apply oh_gets
  | |- outside_hook (deref _) => apply oh_deref
  | |- outside_hook (modify _) => apply oh_modify; intros ?
  | |- outside_hook (try_finally _ _) => apply oh_try_finally
  | |- outside_hook (getNode _) => apply oh_getNode
  | |- outside_hook (getFiberObj _) => apply oh_getFiberObj
  | |- outside_hook (getWatchdog _) => apply oh_getWatchdog
  | |- outside_hook (updNode _ _) => apply oh_updNode
  | |- outside_hook (updWatchdog _ _) => apply oh_updWatchdog
  | |- outside_hook (updSignal _ _) => apply oh_updSignal
  | |- outside_hook (updPromise _ _) => apply oh_updPromise
  | |- outside_hook (allocPromise _) => apply oh_allocPromise
  | |- outside_hook (allocObserver _) => apply oh_allocObserver
  | |- outside_hook (if ?b then _ else _) => destruct b
  | |- outside_hook (match ?x with _ => _ end) => destruct x
  | |- outside_hook ?c =>
      first [ solve [eauto with frame]
            | let h := head_of c in unfold h ]
  end.

Ltac outside := repeat oh_step; try done.

(** Outside a hook callback [assertFiberError] rejects, and does not
    throw. *)
Lemma assertFiberError_outside w error : outside_hook (assertFiberError w error).
Proof.
  intros st H. unfold assertFiberError, getWatchdog, updPromise, getPromise.
  cbv beta iota delta [bind gets modify ret deref throw]. simpl.
  destruct (watchdogs st !! w) as [wd|]; simpl; [|done].
  destruct (promises st !! Watchdog.watchdogResult wd); simpl; [|done].
  by rewrite H.
Qed.

#[local] Hint Resolve assertFiberError_outside : frame.

Lemma parentFiberIds_outside fuel f : outside_hook (Fiber.parentFiberIds fuel f).
Proof. revert f. induction fuel; intros f; simpl; outside. Qed.

#[local] Hint Resolve parentFiberIds_outside : frame.

Lemma adopt_owned_outside w observer fiberId targets stack :
  outside_hook (adopt_owned w observer fiberId targets stack).
Proof. revert stack. induction targets; intros stack; simpl; outside. Qed.

#[local] Hint Resolve adopt_owned_outside : frame.

Lemma adopt_unobserved_outside w observer targets stack :
  outside_hook (adopt_unobserved w observer targets stack).
Proof. revert stack. induction targets; intros stack; simpl; outside. Qed.

#[local] Hint Resolve adopt_unobserved_outside : frame.

Lemma drain_outside fuel w observer stack : outside_hook (drain fuel w observer stack).
Proof. revert stack. induction fuel; intros stack; simpl; outside. Qed.

#[local] Hint Resolve drain_outside : frame.

(** X17: called while no hook callback runs, as [fiber] calls it,
    [fiberWatchdog] throws no fault: the ownership faults that its walk over
    the nodes of the fiber finds are reported by rejecting the wrapped
    result only, and the one exception it can throw is the [TypeError] of
    [observe]. *)
Theorem fiberWatchdog_outside_hook fuel fiber params promise st :
  _asyncResourceGraphHookActive st = false →
  match fiberWatchdog fuel fiber params promise st with
  | Ret _ st' => _asyncResourceGraphHookActive st' = false
  | Throw e st' =>
      _asyncResourceGraphHookActive st' = false ∧ ∃ message, e = TypeError message
  | Fail _ => True
  end.
Proof.
  revert st. change (outside_hook (fiberWatchdog fuel fiber params promise)).
  outside.
Qed.

Lemma fiberWatchdog_outside_hook_witness :
  match fiberWatchdog 5 1 {| abort := None |} 0 before_watchdog with
  | Ret _ st' => _asyncResourceGraphHookActive st' = false
  | Throw e st' =>
      _asyncResourceGraphHookActive st' = false ∧ ∃ message, e = TypeError message
  | Fail _ => True
  end.
Proof.
  apply (fiberWatchdog_outside_hook 5 1 {| abort := None |} 0 before_watchdog).
  vm_compute. reflexivity.
Defined.

(** In scenario 1 the walk finds the fault, rejects, and returns. *)
Example before_watchdog_rejects :
  ∃ st', fiberWatchdog 5 1 {| abort := None |} 0 before_watchdog = Ret 1 st'
         ∧ outcome_of st' 0 = Some (Promise.Rejected (FiberError PARENT_ASYNC_TRIGGER 1 2)).
Proof. eexists. split; [vm_compute; reflexivity|]. by vm_compute. Qed.

(** ** How nodes age *)

#[local] Instance node_ages_preorder : PreOrder node_ages.
Proof.
  split.
  - intros n. repeat split; try done. apply Z.lor_diag.
  - intros a b c (?&?&?&Hab&?) (?&?&?&Hbc&?).
    split; [congruence|]. split; [congruence|]. split; [congruence|]. split; [|auto].
    rewrite <- Hbc. by rewrite Z.lor_assoc, Hab.
Qed.

#[local] Instance ages_preorder : PreOrder ages.
Proof.
  split; [intros st; apply heap_rel_refl; apply _|].
  intros a b c. apply heap_rel_trans. apply _.
Qed.

Lemma node_ages_lor n flag :
  node_ages n
    (AsyncResourceNode.set_flags (Z.lor (AsyncResourceNode.flags n) flag) n).
Proof. repeat split; try done. simpl. by rewrite Z.lor_assoc, Z.lor_diag. Qed.

Ltac ages_side :=
  lazymatch goal with
  | |- ages _ _ =>
      unfold ages; simpl;
      first
        [ apply heap_rel_refl; apply _
        | apply heap_rel_alloc; apply _
        | eapply heap_rel_update;
          [ apply _
          | eassumption
          | first [ apply node_ages_lor
                  | repeat split; try done; apply Z.lor_diag ] ] ]
  end.

Ltac ages_tac := frame; try ages_side.

Lemma getFiber_from_ages l : preserves ages (getFiber_from l).
Proof. induction l; simpl; ages_tac. Qed.

#[local] Hint Resolve getFiber_from_ages : frame.

Lemma parentFiberIds_ages fuel f : preserves ages (Fiber.parentFiberIds fuel f).
Proof. revert f. induction fuel; intros f; simpl; ages_tac. Qed.

#[local] Hint Resolve parentFiberIds_ages : frame.

Lemma getAsyncResourceNode_from_ages fuel node asyncId :
  preserves ages (getAsyncResourceNode_from fuel node asyncId).
Proof. revert node. induction fuel; intros node; simpl; ages_tac. Qed.

#[local] Hint Resolve getAsyncResourceNode_from_ages : frame.

Lemma hasAsyncIO_ages pending : preserves ages (hasAsyncIO pending).
Proof. induction pending; simpl; ages_tac. Qed.

#[local] Hint Resolve hasAsyncIO_ages : frame.

Lemma adopt_owned_ages w observer fiberId targets stack :
  preserves ages (adopt_owned w observer fiberId targets stack).
Proof. revert stack. induction targets; intros stack; simpl; ages_tac. Qed.

#[local] Hint Resolve adopt_owned_ages : frame.

Lemma adopt_unobserved_ages w observer targets stack :
  preserves ages (adopt_unobserved w observer targets stack).
Proof. revert stack. induction targets; intros stack; simpl; ages_tac. Qed.

#[local] Hint Resolve adopt_unobserved_ages : frame.

Lemma drain_ages fuel w observer stack : preserves ages (drain fuel w observer stack).
Proof. revert stack. induction fuel; intros stack; simpl; ages_tac. Qed.

#[local] Hint Resolve drain_ages : frame.

(** The taint adds its flag to the flags it has read from the same node. *)
Lemma taintAsyncResourceGraph_ages fuel node mask flags :
  preserves ages (taintAsyncResourceGraph fuel node mask flags).
Proof.
  revert node. induction fuel as [|fuel IH]; intros node; simpl; [ages_tac|].
  unfold getNode at 1. apply preserves_read. intros st n Hn.
  destruct (decide _); [|simpl; reflexivity].
  rewrite (bind_Ret _ _ _ _ _ (updNode_Some st node n _ Hn)).
  set (st1 := upd_nodes _ st).
  assert (Hstep : ages st st1).
  { unfold ages. simpl. eapply heap_rel_update; [apply _|done|apply node_ages_lor]. }
  match goal with
  | |- match ?rest st1 with _ => _ end =>
      assert (preserves ages rest) as Hrest by ages_tac;
      specialize (Hrest st1); destruct (rest st1); [..|done]; by etrans
  end.
Qed.

#[local] Hint Resolve taintAsyncResourceGraph_ages : frame.

Lemma exec_ages fuel op : preserves ages (exec fuel op).
Proof. destruct op; simpl; ages_tac. Qed.

Lemma run_ages fuel ops st st' : run fuel ops st = Some st' → ages st st'.
Proof.
  revert st. induction ops as [|op ops IH]; intros st Hrun; simpl in Hrun.
  - simplify_eq. reflexivity.
  - destruct (final (exec fuel op st)) as [st1|] eqn:Hop; [|done].
    etrans; [|by apply IH].
    by apply (final_preserves _ _ _ _ (exec_ages fuel op)).
Qed.

(** X18: through every run of operations a node stays allocated and keeps
    its [asyncId], its type and its frame; no bit of its flags is ever
    cleared, so a finalized node stays finalized and an aborted node stays
    aborted; and a node that is not active never becomes active again. *)
Theorem nodes_only_age fuel ops st st' l n :
  run fuel ops st = Some st' →
  nodes st !! l = Some n →
  ∃ n', nodes st' !! l = Some n'
    ∧ AsyncResourceNode.asyncId n' = AsyncResourceNode.asyncId n
    ∧ AsyncResourceNode.type n' = AsyncResourceNode.type n
    ∧ AsyncResourceNode.frame n' = AsyncResourceNode.frame n
    ∧ (∀ i, Z.testbit (AsyncResourceNode.flags n) i = true →
            Z.testbit (AsyncResourceNode.flags n') i = true)
    ∧ (AsyncResourceNode.active n = false → AsyncResourceNode.active n' = false).
Proof.
  intros Hrun Hn.
  destruct (run_ages _ _ _ _ Hrun l n Hn) as (n' & Hn' & Hid & Htype & Hframe & Hflags & Hact).
  exists n'. repeat split; try done.
  intros i Hi. rewrite <- Hflags, Z.lor_spec, Hi. done.
Qed.

Lemma nodes_only_age_witness :
  ∃ n',
    nodes (default fiber_in_timer
             (run 5 [HookAfter 2; HookInit 4 "Timeout" 2 3 None; HookPromiseResolve 3]
                fiber_in_timer)) !! 1 = Some n'
    ∧ AsyncResourceNode.asyncId n' = 2%Z
    ∧ AsyncResourceNode.type n' = Some "Timeout"%string
    ∧ AsyncResourceNode.frame n' = None
    ∧ (∀ i, Z.testbit 1 i = true → Z.testbit (AsyncResourceNode.flags n') i = true)
    ∧ (false = false → AsyncResourceNode.active n' = false).
Proof.
  apply (nodes_only_age 5
           [HookAfter 2; HookInit 4 "Timeout" 2 3 None; HookPromiseResolve 3]
           fiber_in_timer
           (default fiber_in_timer
              (run 5 [HookAfter 2; HookInit 4 "Timeout" 2 3 None; HookPromiseResolve 3]
                 fiber_in_timer)) 1
           (AsyncResourceNode.mk 2 1 (Some "Timeout"%string) false None (Some 0)
              (Some 0) [(3%Z, 2)] [(3%Z, 2)] 1 None)).
  - vm_compute. reflexivity.
  - vm_compute. reflexivity.
Defined.

Lemma try_finally_final {A} (body : M A) (fin : M unit) st st' :
  final (try_finally body fin st) = Some st' →
  ∃ st1, final (body st) = Some st1 ∧ final (fin st1) = Some st'.
Proof.
  unfold try_finally.
  destruct (body st) as [a st1|e st1|]; [| |done]; intros Hfin; exists st1;
    (split; [done|]); by destruct (fin st1).
Qed.

(** However [fiberWatchdog] ends, the root of the fiber is not active. *)
Lemma fiberWatchdog_deactivates_root fuel f fb params promise st st' :
  fibers st !! f = Some fb →
  final (fiberWatchdog fuel f params promise st) = Some st' →
  ∃ rn, nodes st' !! AsyncResourceFiber.root fb = Some rn
        ∧ AsyncResourceNode.active rn = false.
Proof.
  intros Hfb Hfinal. unfold fiberWatchdog in Hfinal.
  rewrite (bind_Ret _ _ _ _ _ (getFiberObj_Some _ _ _ Hfb)) in Hfinal.
  apply try_finally_final in Hfinal as (st1 & _ & Hfin).
  unfold updNode, getNode in Hfin. unfold_monad Hfin.
  destruct (nodes st1 !! AsyncResourceFiber.root fb) as [rn|]; simpl in Hfin; [|done].
  simplify_eq. eexists. split; [apply lookup_insert_eq|done].
Qed.

(** X19: once [fiberWatchdog] has run for a fiber, the root node of the
    fiber is inactive for good: after any run of operations that follows,
    when the current execution context is that of the root, the [init]
    callback ignores every new resource and leaves the state as it is. *)
Theorem supervised_root_stops_tracking fuel f fb params promise st st1 ops st2
    fuel' asyncId type triggerAsyncId resource frame :
  fibers st !! f = Some fb →
  final (fiberWatchdog fuel f params promise st) = Some st1 →
  _asyncResourceGraphHookActive st1 = false →
  run fuel ops st1 = Some st2 →
  fiberRefs st2 !! executionAsyncResource st2 = Some (AsyncResourceFiber.root fb) →
  Hook.init fuel' asyncId type triggerAsyncId resource frame st2 = Ret tt st2.
Proof.
  intros Hfb Hwatch Hflag Hrun Hctx.
  destruct (fiberWatchdog_deactivates_root _ _ _ _ _ _ _ Hfb Hwatch) as (rn & Hrn & Hinactive).
  destruct (run_ages _ _ _ _ Hrun _ _ Hrn) as (rn' & Hrn' & _ & _ & _ & _ & Hstays).
  apply init_in_untracked_context.
  - destruct (run_flag_calm _ _ _ _ Hrun) as [Hclear|Hsame]; [done|congruence].
  - unfold untracked_context. rewrite Hctx, Hrn'. by apply Hstays.
Qed.

Lemma supervised_root_stops_tracking_witness :
  Hook.init 5 4 "Timeout" 1 3 None
    (default before_watchdog
       (run 5 [FiberDisable 1; HookPromiseResolve 3]
          (state_after (fiberWatchdog 5 1 {| abort := None |} 0) before_watchdog)))
  = Ret tt
      (default before_watchdog
         (run 5 [FiberDisable 1; HookPromiseResolve 3]
            (state_after (fiberWatchdog 5 1 {| abort := None |} 0) before_watchdog))).
Proof.
  apply (supervised_root_stops_tracking 5 1
           (AsyncResourceFiber.mk 2 0 true (Some 0) None) {| abort := None |} 0
           before_watchdog
           (state_after (fiberWatchdog 5 1 {| abort := None |} 0) before_watchdog)
           [FiberDisable 1; HookPromiseResolve 3]).
  - vm_compute. reflexivity.
  - vm_compute. reflexivity.
  - vm_compute. reflexivity.
  - vm_compute. reflexivity.
  - vm_compute. reflexivity.
Defined.

(** ** [promiseWithReject] *)

(** X20: the promise that [promiseWithReject] returns is a new, pending
    promise that follows the promise it wraps: once that is fulfilled or
    rejected and its [then] callback runs, the wrapper is fulfilled with the
    same result or rejected with the same reason, and [onSettled] has been
    called, which clears the immediate of the watchdog. *)
Theorem wrapper_follows_promise promise w wd pr verdict st :
  promises st !! promise = Some pr →
  Promise.settled pr = Promise.Pending →
  Promise.reactions pr = [] →
  watchdogs st !! w = Some wd →
  verdict ≠ Promise.Pending →
  let wrapper := fresh (dom (promises st)) in
  ∃ st1 st2,
    promiseWithReject promise w st = Ret wrapper st1
    ∧ promises st !! wrapper = None
    ∧ promises st1 !! wrapper = Some (Promise.mk Promise.Pending [])
    ∧ (settlePromise promise verdict ;;; runReaction promise) st1 = Ret tt st2
    ∧ promises st2 !! wrapper = Some (Promise.mk verdict [])
    ∧ promises st2 !! promise = Some (Promise.mk verdict [])
    ∧ watchdogs st2 !! w = Some (Watchdog.set_watchdogImmediate false wd).
Proof.
  intros Hpr Hpending Hnone Hw Hverdict wrapper.
  assert (Hfresh : promises st !! wrapper = None) by apply not_elem_of_dom, is_fresh.
  assert (Hne : promise ≠ wrapper) by (intros ->; congruence).
  set (r := {| target := wrapper; onSettled := w |}).
  set (st1 := upd_promises (insert promise (Promise.mk Promise.Pending [r]))
                (upd_promises (insert wrapper (Promise.mk Promise.Pending [])) st)).
  assert (Hwrap : promiseWithReject promise w st = Ret wrapper st1).
  { unfold promiseWithReject, allocPromise, updPromise, getPromise.
    cbv beta iota delta [bind gets modify ret deref]. simpl. fold wrapper.
    rewrite lookup_insert_ne by done. rewrite Hpr. simpl.
    by rewrite Hpending, Hnone. }
  assert (Hp1 : promises st1 !! promise = Some (Promise.mk Promise.Pending [r])).
  { apply lookup_insert_eq. }
  assert (Hw1 : promises st1 !! wrapper = Some (Promise.mk Promise.Pending [])).
  { simpl. rewrite lookup_insert_ne by done. apply lookup_insert_eq. }
  assert (Hsettle : ∃ st_b,
            settlePromise promise verdict st1 = Ret tt st_b
            ∧ promises st_b = <[promise := Promise.mk verdict [r]]> (promises st1)
            ∧ watchdogs st_b = watchdogs st).
  { destruct verdict as [|result|reason]; [done| |]; simpl.
    - unfold resolvePromise. rewrite (updPromise_Some st1 promise _ _ Hp1). by eexists.
    - unfold rejectPromise. rewrite (updPromise_Some st1 promise _ _ Hp1). by eexists. }
  destruct Hsettle as (st_b & Hsettle & Hp_b & Hw_b).
  assert (Hrun : ∃ st2,
            runReaction promise st_b = Ret tt st2
            ∧ promises st2 =
                <[wrapper := Promise.mk verdict []]>
                  (<[promise := Promise.mk verdict []]> (promises st_b))
            ∧ watchdogs st2 = <[w := Watchdog.set_watchdogImmediate false wd]> (watchdogs st)).
  { unfold runReaction.
    rewrite (bind_Ret _ _ _ _ _
               (getPromise_Some st_b promise (Promise.mk verdict [r])
                  ltac:(by rewrite Hp_b, lookup_insert_eq))).
    simpl.
    assert (Hstep : ∀ settle : Promise.t → Promise.t,
              settle (Promise.mk Promise.Pending []) = Promise.mk verdict [] →
              (updPromise promise (λ p, Promise.mk (Promise.settled p) []) ;;;
               updPromise wrapper settle ;;;
               clearWatchdogImmediate w) st_b
              = Ret tt
                  (upd_watchdogs (insert w (Watchdog.set_watchdogImmediate false wd))
                     (upd_promises (insert wrapper (Promise.mk verdict []))
                        (upd_promises (insert promise (Promise.mk verdict [])) st_b)))).
    { intros settle Hsettled.
      erewrite bind_Ret; last first.
      { apply updPromise_Some. by rewrite Hp_b, lookup_insert_eq. }
      erewrite bind_Ret; last first.
      { apply updPromise_Some. simpl.
        rewrite lookup_insert_ne, Hp_b, lookup_insert_ne by done. exact Hw1. }
      unfold clearWatchdogImmediate.
      erewrite updWatchdog_Some; last first.
      { simpl. rewrite Hw_b. exact Hw. }
      simpl. by rewrite Hsettled. }
    destruct verdict as [|result|reason]; [done| |];
      (rewrite Hstep; [|unfold Promise.resolve, Promise.reject; done]);
      eexists; (split; [done|]); simpl; by rewrite Hw_b. }
  destruct Hrun as (st2 & Hrun & Hp2 & Hw2).
  exists st1, st2. split; [done|]. split; [done|]. split; [done|]. split.
  { by rewrite (bind_Ret _ _ _ _ _ Hsettle). }
  rewrite Hp2, Hw2. split; [apply lookup_insert_eq|]. split; [|apply lookup_insert_eq].
  rewrite lookup_insert_ne by done. apply lookup_insert_eq.
Qed.

Lemma wrapper_follows_promise_witness :
  let st := state_after newPromise awaiting in
  let wrapper := fresh (dom (promises st)) in
  ∃ st1 st2,
    promiseWithReject 2 0 st = Ret wrapper st1
    ∧ promises st !! wrapper = None
    ∧ promises st1 !! wrapper = Some (Promise.mk Promise.Pending [])
    ∧ (settlePromise 2 (Promise.Rejected (VString "no")) ;;; runReaction 2) st1
      = Ret tt st2
    ∧ promises st2 !! wrapper = Some (Promise.mk (Promise.Rejected (VString "no")) [])
    ∧ promises st2 !! 2 = Some (Promise.mk (Promise.Rejected (VString "no")) [])
    ∧ watchdogs st2 !! 0
      = Some (Watchdog.set_watchdogImmediate false (Watchdog.mk 1 None [1] [1] 1 true)).
Proof.
  apply (wrapper_follows_promise 2 0 (Watchdog.mk 1 None [1] [1] 1 true)
           (Promise.mk Promise.Pending []) (Promise.Rejected (VString "no"))
           (state_after newPromise awaiting)).
  - vm_compute. reflexivity.
  - reflexivity.
  - reflexivity.
  - vm_compute. reflexivity.
  - discriminate.
Defined.

(** ** The constructor of [StackFrame] *)

(** The first loop stops at the first site of [rest] that is not a node
    site, or behind the last site. *)
Lemma skipNodeSites_stops rest idx site idx' site' :
  skipNodeSites rest idx site = (idx', site') →
  rest ≠ [] →
  ∃ d s,
    rest !! d = Some s
    ∧ site' = Some s
    ∧ (∀ j s0, j < d → rest !! j = Some s0 → isNodeSite s0 = true)
    ∧ ((isNodeSite s = false ∧ idx' = idx + d)
       ∨ (isNodeSite s = true ∧ S d = length rest ∧ idx' = idx + S d)).
Proof.
  revert idx site. induction rest as [|s rest IH]; intros idx site Hrun Hne; [done|].
  simpl in Hrun. destruct (isNodeSite s) eqn:Hs.
  - destruct rest as [|s1 rest].
    + simpl in Hrun. simplify_eq. exists 0, s. split; [done|]. split; [done|].
      split; [lia|]. right. split; [done|]. simpl. lia.
    + destruct (IH _ _ Hrun ltac:(done)) as (d & s' & Hd & -> & Hbefore & Hstop).
      exists (S d), s'. split; [done|]. split; [done|]. split.
      * intros [|j] s0 Hj Hs0; simpl in Hs0; [by simplify_eq|].
        apply (Hbefore j); [lia|done].
      * destruct Hstop as [[? ->]|(? & Hlen & ->)]; [left|right]; split; try done; [lia|].
        split; [simpl in *; lia|lia].
  - simplify_eq. exists 0, s. split; [done|]. split; [done|]. split; [lia|].
    left. split; [done|lia].
Qed.

(** The second loop reads no site that the stack does not have, and ends at
    a site between [offset] and where it started. *)
Lemma nameSite_within stack offset k site :
  offset + k ≤ length stack →
  ∃ t, nameSite stack offset k site = inr t
       ∧ (t = site ∨ ∃ j, offset ≤ j < offset + k ∧ stack !! j = Some t).
Proof.
  revert site. induction k as [|k IH]; intros site Hk; simpl; [by eauto|].
  destruct (_ && _); [|by eauto].
  destruct (lookup_lt_is_Some_2 stack (offset + k) ltac:(lia)) as [site' Hsite'].
  rewrite Hsite'. destruct (negb _); [|by eauto].
  destruct (IH site' ltac:(lia)) as (t & Hrun & Ht).
  exists t. split; [done|]. right. destruct Ht as [->|(j & Hj & Ht)].
  - exists (offset + k). split; [lia|done].
  - exists j. split; [lia|done].
Qed.

(** X21: the constructor of [StackFrame] reads no call site beyond the
    stack when [offset] is the index of a site: it returns a frame; when
    [offset] is not, as for a stack shorter than the offset, it throws the
    [TypeError] of reading a property of [undefined]. *)
Theorem StackFrame_new_when_in_range stack offset :
  (offset < length stack → ∃ frame, StackFrame_new stack offset = inr frame)
  ∧ (length stack ≤ offset → StackFrame_new stack offset = inl undefined_site).
Proof.
  unfold StackFrame_new. split; intros Hoffset.
  - destruct (skipNodeSites (drop offset stack) offset (stack !! offset))
      as [idx site] eqn:Hskip.
    assert (Hrest : drop offset stack ≠ []).
    { intros Hnil. apply (f_equal length) in Hnil. rewrite length_drop in Hnil.
      simpl in Hnil. lia. }
    destruct (skipNodeSites_stops _ _ _ _ _ Hskip Hrest) as (d & s & Hd & -> & _ & Hstop).
    apply lookup_lt_Some in Hd. rewrite length_drop in Hd.
    destruct (nameSite_within stack offset (idx - offset) s) as (t & -> & _).
    { rewrite length_drop in Hstop. destruct Hstop as [[_ ->]|(_ & _ & ->)]; lia. }
    by eexists.
  - rewrite drop_ge by done. simpl. by rewrite lookup_ge_None_2.
Qed.

(** X22: the frame that the constructor of [StackFrame] returns takes its
    file name, line and column from the first call site at or after [offset]
    whose file is not a [node:] file, or from the last site of the stack if
    all of them are; an empty file name becomes null.  Its names and kind
    come from that site or from a site before it, never from one before
    [offset]. *)
Theorem StackFrame_new_location stack offset frame :
  StackFrame_new stack offset = inr frame →
  ∃ i s j t,
    stack !! i = Some s ∧ stack !! j = Some t ∧ offset ≤ j ≤ i
    ∧ (∀ m s0, offset ≤ m < i → stack !! m = Some s0 → isNodeSite s0 = true)
    ∧ (isNodeSite s = false ∨ S i = length stack)
    ∧ fileName frame = (if decide (CallSite.getFileName s = Some EmptyString) then None
                        else CallSite.getFileName s)
    ∧ lineNumber frame = CallSite.getLineNumber s
    ∧ columnNumber frame = CallSite.getColumnNumber s
    ∧ functionName frame = CallSite.getFunctionName t
    ∧ methodName frame = CallSite.getMethodName t
    ∧ typeName frame = CallSite.getTypeName t
    ∧ isToplevel frame = CallSite.isToplevel t
    ∧ isNative frame = CallSite.isNative t
    ∧ isConstructor frame = CallSite.isConstructor t.
Proof.
  intros Hnew.
  destruct (decide (offset < length stack)) as [Hoffset|Hoffset]; last first.
  { unfold StackFrame_new in Hnew. rewrite drop_ge in Hnew by lia. simpl in Hnew.
    rewrite lookup_ge_None_2 in Hnew by lia. done. }
  unfold StackFrame_new in Hnew.
  destruct (skipNodeSites (drop offset stack) offset (stack !! offset))
    as [idx site] eqn:Hskip.
  assert (Hrest : drop offset stack ≠ []).
  { intros Hnil. apply (f_equal length) in Hnil. rewrite length_drop in Hnil.
    simpl in Hnil. lia. }
  destruct (skipNodeSites_stops _ _ _ _ _ Hskip Hrest)
    as (d & s & Hd & -> & Hbefore & Hstop).
  rewrite length_drop in Hstop. rewrite lookup_drop in Hd.
  pose proof (lookup_lt_Some _ _ _ Hd) as Hlt.
  destruct (nameSite_within stack offset (idx - offset) s) as (t & Hname & Ht).
  { destruct Hstop as [[_ ->]|(_ & _ & ->)]; lia. }
  rewrite Hname in Hnew. simplify_eq. simpl.
  assert (∃ j, stack !! j = Some t ∧ offset ≤ j ≤ offset + d) as (j & Hj & Hbounds).
  { destruct Ht as [->|(j & Hj & Ht)]; [exists (offset + d); split; [done|lia]|].
    exists j. split; [done|]. destruct Hstop as [[_ ->]|(_ & _ & ->)]; lia. }
  exists (offset + d), s, j, t.
  split; [done|]. split; [done|]. split; [done|]. split.
  { intros m s0 Hm Hs0. apply (Hbefore (m - offset)); [lia|].
    rewrite lookup_drop. by replace (offset + (m - offset)) with m by lia. }
  split.
  { destruct Hstop as [[? _]|(_ & Hlen & _)]; [by left|right; lia]. }
  split; [|done].
  destruct (CallSite.getFileName s) as [[|]|]; by destruct (decide _).
Qed.

Lemma StackFrame_new_location_witness :
  ∃ i s j t,
    example_stack !! i = Some s ∧ example_stack !! j = Some t ∧ 0 ≤ j ≤ i
    ∧ (∀ m s0, 0 ≤ m < i → example_stack !! m = Some s0 → isNodeSite s0 = true)
    ∧ (isNodeSite s = false ∨ S i = length example_stack)
    ∧ Some "/app/main.js"%string
      = (if decide (CallSite.getFileName s = Some EmptyString) then None
         else CallSite.getFileName s)
    ∧ Some 7%Z = CallSite.getLineNumber s
    ∧ Some 1%Z = CallSite.getColumnNumber s
    ∧ Some "emit"%string = CallSite.getFunctionName t
    ∧ None = CallSite.getMethodName t
    ∧ Some "EventEmitter"%string = CallSite.getTypeName t
    ∧ false = CallSite.isToplevel t
    ∧ false = CallSite.isNative t
    ∧ false = CallSite.isConstructor t.
Proof.
  apply (StackFrame_new_location example_stack 0
           {| isToplevel := false; isNative := false; isConstructor := false;
              typeName := Some "EventEmitter"%string;
              functionName := Some "emit"%string; methodName := None;
              fileName := Some "/app/main.js"%string;
              lineNumber := Some 7%Z; columnNumber := Some 1%Z |}).
  vm_compute. reflexivity.
Defined.

(** ** The [pending] getter *)

(** The loop over the targets of one node, when the recursive calls
    return: it returns, changes nothing, and counts at least the targets
    that the fiber owns and that are not finalized, and nothing if the fiber
    owns none. *)
Lemma count_targets fuel fiberId st targets :
  (∀ target, target ∈ targets →
     ∃ sub, Fiber.countExecutionTargets fuel fiberId target st = Ret sub st) →
  Forall (allocated st) targets →
  ∀ acc, ∃ k,
    foldM
      (λ count target,
         let* tn := getNode target in
         if decide (AsyncResourceNode.fiberId tn = fiberId) then
           let* sub := Fiber.countExecutionTargets fuel fiberId target in
           let count := count + sub in
           let* tn := getNode target in
           ret (count
                + if (Z.land (AsyncResourceNode.flags tn) FINALIZED =? 0)%Z
                  then 1 else 0)
         else ret count)
      acc targets st
    = Ret k st
    ∧ acc + length (List.filter (unfinished st)
                      (List.filter (owned_by st fiberId) targets)) ≤ k
    ∧ (List.filter (owned_by st fiberId) targets = [] → k = acc).
Proof.
  intros Hsub Hall. induction Hall as [|target targets [tn Htn] Hall IH]; intros acc.
  { exists acc. simpl. split; [done|]. split; [lia|done]. }
  simpl. unfold bind at 1.
  rewrite (bind_Ret _ _ _ _ _ (getNode_Some _ _ _ Htn)).
  assert (owned_by st fiberId target
          = bool_decide (AsyncResourceNode.fiberId tn = fiberId)) as Howned.
  { unfold owned_by. by rewrite Htn. }
  assert (unfinished st target
          = (Z.land (AsyncResourceNode.flags tn) FINALIZED =? 0)%Z) as Hunf.
  { unfold unfinished. by rewrite Htn. }
  rewrite Howned.
  destruct (decide (AsyncResourceNode.fiberId tn = fiberId)) as [Hown|Hown].
  - rewrite bool_decide_eq_true_2 by done.
    destruct (Hsub target ltac:(by left)) as [sub Hrun].
    rewrite (bind_Ret _ _ _ _ _ Hrun).
    rewrite (bind_Ret _ _ _ _ _ (getNode_Some _ _ _ Htn)).
    unfold ret at 1.
    destruct (IH ltac:(intros t Ht; apply Hsub; by right)
                (acc + sub + if (Z.land (AsyncResourceNode.flags tn) FINALIZED =? 0)%Z
                             then 1 else 0))
      as (k & Hk & Hle & _).
    exists k. split; [done|]. split; [|done].
    simpl. rewrite Hunf.
    destruct (Z.land (AsyncResourceNode.flags tn) FINALIZED =? 0)%Z; simpl; simpl in Hle; lia.
  - rewrite bool_decide_eq_false_2 by done. unfold ret at 1.
    apply IH. intros t Ht. apply Hsub. by right.
Qed.

Lemma countExecutionTargets_returns rank fiberId st :
  targets_descend rank st →
  ∀ fuel node,
    allocated st node → rank node < fuel →
    ∃ k, Fiber.countExecutionTargets fuel fiberId node st = Ret k st.
Proof.
  intros Hdesc. induction fuel as [|fuel IH]; intros node [n Hn] Hrank; [lia|].
  cbn [Fiber.countExecutionTargets].
  rewrite (bind_Ret _ _ _ _ _ (getNode_Some _ _ _ Hn)).
  pose proof (proj1 (Forall_forall _ _) (Hdesc node n Hn)) as Htargets.
  destruct (count_targets fuel fiberId st
              (map_values (AsyncResourceNode.executionTargets n))) with (acc := 0)
    as (k & Hk & _).
  - intros t Ht. destruct (Htargets t Ht) as [Halloc Hlt]. apply IH; [done|lia].
  - apply Forall_forall. intros t Ht. by destruct (Htargets t Ht).
  - by exists k.
Qed.

(** X23: on a graph of execution targets without a cycle, the [pending]
    getter of a fiber returns and changes nothing.  It counts the root of the
    fiber out, and counts at least the nodes among the fiber's
    [executionTargets] that are not finalized; when the fiber owns no
    execution target of its root, it returns 0, whatever lies below the
    targets of other fibers. *)
Theorem pending_counts_unfinished rank fuel f fb rn st :
  fibers st !! f = Some fb →
  nodes st !! AsyncResourceFiber.root fb = Some rn →
  targets_descend rank st →
  rank (AsyncResourceFiber.root fb) < fuel →
  ∃ k targets,
    Fiber.pending fuel f st = Ret k st
    ∧ Fiber.executionTargets f st = Ret targets st
    ∧ length (List.filter (unfinished st) targets) ≤ k
    ∧ (targets = [] → k = 0).
Proof.
  intros Hfb Hrn Hdesc Hrank.
  pose proof (proj1 (Forall_forall _ _) (Hdesc _ rn Hrn)) as Htargets.
  assert (Hall : Forall (allocated st) (map_values (AsyncResourceNode.executionTargets rn))).
  { apply Forall_forall. intros t Ht. by destruct (Htargets t Ht). }
  unfold Fiber.pending.
  rewrite (bind_Ret _ _ _ _ _ (getFiberObj_Some _ _ _ Hfb)).
  rewrite (executionTargets_owned st f fb rn Hfb Hrn Hall).
  destruct fuel as [|fuel]; [lia|]. cbn [Fiber.countExecutionTargets].
  rewrite (bind_Ret _ _ _ _ _ (getNode_Some _ _ _ Hrn)).
  destruct (count_targets fuel (AsyncResourceFiber.fiberId fb) st
              (map_values (AsyncResourceNode.executionTargets rn))) with (acc := 0)
    as (k & Hk & Hle & Hnone); [|done|].
  { intros t Ht. destruct (Htargets t Ht) as [Halloc Hlt].
    apply (countExecutionTargets_returns rank); [done..|lia]. }
  exists k. eexists. split; [exact Hk|]. split; [done|]. split; [exact Hle|exact Hnone].
Qed.

Lemma pending_counts_unfinished_witness :
  ∃ k targets,
    Fiber.pending 3 1 awaiting = Ret k awaiting
    ∧ Fiber.executionTargets 1 awaiting = Ret targets awaiting
    ∧ length (List.filter (unfinished awaiting) targets) ≤ k
    ∧ (targets = [] → k = 0).
Proof.
  apply (pending_counts_unfinished (λ l, 2 - l) 3 1
           (AsyncResourceFiber.mk 2 0 false (Some 0) None)
           (AsyncResourceNode.mk 1 1 None false None None None [(3%Z, 1)] [(3%Z, 1)] 0 None)
           awaiting).
  - vm_compute. reflexivity.
  - vm_compute. reflexivity.
  - apply (bool_decide_unpack _). vm_compute. exact I.
  - simpl. lia.
Defined.

(** ** [fiber(fn)] with an [fn] that returns *)

Lemma fiberWatchdog_fibers_kept fuel f params promise :
  preserves fibers_kept (fiberWatchdog fuel f params promise).
Proof. fibers_kept_tac. Qed.

Lemma fiberWatchdog_ages fuel f params promise :
  preserves ages (fiberWatchdog fuel f params promise).
Proof. ages_tac. Qed.

(** X25: when [fn] returns a promise and has left the fiber stack and the
    fiber objects on it as it found them, [fiber] ends as [fiberWatchdog]
    ends: it returns the wrapped promise together with the new fiber, or
    throws what the watchdog threw.  In both cases [disable] in the
    [finally] block has taken the new fiber off the stack and cleared its
    [active] flag: the stack is that of before the call, and so is what
    [getFiber()] returns. *)
Theorem fiber_return_restores_stack fuel fn params frame st promise st_fn st_w :
  stack_allocated st →
  refs_allocated st →
  fn (fiber_entry frame st) = Ret promise st_fn →
  fiberStack st_fn = fiberStack (fiber_entry frame st) →
  Forall (λ g, fibers st_fn !! g = fibers (fiber_entry frame st) !! g)
    (fiberStack st_fn) →
  dom (nodes (fiber_entry frame st)) ⊆ dom (nodes st_fn) →
  let f := fresh (dom (fibers st)) in
  final (fiberWatchdog fuel f params promise st_fn) = Some st_w →
  ∃ st',
    fiber fuel fn params frame st =
      match fiberWatchdog fuel f params promise st_fn with
      | Ret result _ => Ret (result, f) st'
      | Throw e _ => Throw e st'
      | Fail failure => Fail failure
      end
    ∧ fiberStack st' = fiberStack st
    ∧ is_active (fibers st') f = false
    ∧ getFiber st' = Ret (topmost_active (fibers st) (fiberStack st)) st'.
Proof.
  intros Hstack Hrefs Hfn Hkeep Hfibers Hnodes f Hwatch.
  pose proof (proj1 (Forall_forall _ _) Hfibers) as Hfibers'. simpl in Hfibers'.
  clear Hfibers. rename Hfibers' into Hfibers.
  destruct (fiber_entry_run frame st Hstack Hrefs) as (fb & rn & Hentry & Hf1 & Hs1 & Hn1).
  fold f in Hentry, Hf1, Hs1.
  set (st1 := fiber_entry frame st) in *.
  pose proof (stack_allocated_fresh st Hstack) as Hfresh. fold f in Hfresh.
  (* what the watchdog leaves *)
  destruct (final_preserves _ _ _ _ (fiberWatchdog_fibers_kept fuel f params promise) Hwatch)
    as (Hf_w & Hs_w & _ & _).
  pose proof (final_preserves _ _ _ _ (fiberWatchdog_ages fuel f params promise) Hwatch)
    as Hages.
  (* the new fiber and its root, when [disable] runs *)
  assert (Hf_fn : fibers st_w !! f = Some fb).
  { rewrite Hf_w, Hfibers; [by rewrite Hf1, lookup_insert_eq|]. rewrite Hkeep, Hs1. set_solver. }
  assert (∃ rn', nodes st_w !! AsyncResourceFiber.root fb = Some rn') as [rn' Hrn'].
  { assert (AsyncResourceFiber.root fb ∈ dom (nodes st_fn)) as [rn0 Hrn0]%elem_of_dom.
    { apply Hnodes, elem_of_dom. by exists rn. }
    destruct (Hages _ _ Hrn0) as (rn' & Hrn' & _). by exists rn'. }
  assert (Hold : ∀ g, g ∈ fiberStack st → fibers st_w !! g = fibers st !! g).
  { intros g Hg. rewrite Hf_w, Hfibers; [|rewrite Hkeep, Hs1; set_solver].
    rewrite Hf1, lookup_insert_ne; [done|]. by intros <-. }
  assert (Hstack_w : stack_allocated st_w).
  { apply Forall_forall. intros g Hg. rewrite Hs_w, Hkeep, Hs1 in Hg.
    apply elem_of_app in Hg as [Hg|Hg].
    - rewrite (Hold g Hg). by apply (proj1 (Forall_forall _ _) Hstack).
    - apply list_elem_of_singleton in Hg as ->. by rewrite Hf_fn. }
  pose proof (disable_run st_w f fb rn' Hf_fn Hrn' Hstack_w) as Hdisable.
  simpl in Hdisable. rewrite Hs_w, Hkeep, Hs1 in Hdisable.
  unfold indexOf in Hdisable.
  rewrite (indexOf_from_first f (fiberStack st) [] 0 Hfresh) in Hdisable.
  rewrite Z.add_0_l, splice_found, app_nil_r in Hdisable.
  (* the run of [fiber] *)
  unfold fiber.
  assert (∃ st0, Fiber.new frame st = Ret f st0 ∧ Fiber.enable f st0 = Ret f st1)
    as (st0 & Hnew & Henable).
  { unfold bind in Hentry. destruct (Fiber.new frame st) as [f' st0| |] eqn:Hnew; [|done..].
    destruct (Fiber_new_run frame st Hstack Hrefs) as (? & ? & ? & Hnew' & _).
    rewrite Hnew in Hnew'. simplify_eq. eexists. split; [reflexivity|done]. }
  rewrite (bind_Ret _ _ _ _ _ Hnew). unfold try_finally.
  rewrite (bind_Ret _ _ _ _ _ Henable), (bind_Ret _ _ _ _ _ Hfn).
  eexists. split.
  { unfold bind at 1.
    destruct (fiberWatchdog fuel f params promise st_fn) as [result st2|e st2|];
      simpl in Hwatch; [| |done]; simplify_eq.
    - unfold ret at 1. by rewrite (bind_Ret _ _ _ _ _ Hdisable).
    - by rewrite (bind_Ret _ _ _ _ _ Hdisable). }
  set (st_c := (if decide _ then _ else _) _).
  assert (Hc : fiberStack st_c = fiberStack st ∧ fibers st_c = fibers st_w).
  { unfold st_c. by destruct (decide _). }
  destruct Hc as [Hsc Hfc]. simpl. rewrite Hsc, Hfc.
  assert (Htop : topmost_active
                   (<[f:=AsyncResourceFiber.set_active false fb]> (fibers st_w))
                   (fiberStack st)
                 = topmost_active (fibers st) (fiberStack st)).
  { apply topmost_active_ext. intros g Hg.
    rewrite lookup_insert_ne; [by apply Hold|]. by intros <-. }
  split; [done|]. split.
  { unfold is_active. by rewrite lookup_insert_eq. }
  rewrite <- Htop.
  match goal with |- getFiber ?s = _ => pose proof (getFiber_topmost s) as Hget end.
  simpl in Hget. rewrite Hsc, Hfc in Hget. apply Hget.
  apply Forall_forall. intros g Hg. simpl in Hg. rewrite Hsc in Hg. simpl. rewrite Hfc.
  destruct (decide (g = f)) as [->|Hne]; [by rewrite lookup_insert_eq|].
  rewrite lookup_insert_ne by done. rewrite (Hold g Hg).
  by apply (proj1 (Forall_forall _ _) Hstack).
Qed.

Lemma fiber_return_restores_stack_witness :
  ∃ st',
    fiber 5 fn_returns {| abort := None |} None enabled =
      match fiberWatchdog 5 (fresh (dom (fibers enabled))) {| abort := None |} 0
              (state_after fn_returns (fiber_entry None enabled)) with
      | Ret result _ => Ret (result, fresh (dom (fibers enabled))) st'
      | Throw e _ => Throw e st'
      | Fail failure => Fail failure
      end
    ∧ fiberStack st' = fiberStack enabled
    ∧ is_active (fibers st') (fresh (dom (fibers enabled))) = false
    ∧ getFiber st' = Ret (topmost_active (fibers enabled) (fiberStack enabled)) st'.
Proof.
  apply (fiber_return_restores_stack 5 fn_returns {| abort := None |} None enabled 0
           (state_after fn_returns (fiber_entry None enabled))
           (state_after (fiberWatchdog 5 1 {| abort := None |} 0)
              (state_after fn_returns (fiber_entry None enabled)))).
  - apply (bool_decide_unpack _). vm_compute. exact I.
  - apply (bool_decide_unpack _). vm_compute. exact I.
  - vm_compute. reflexivity.
  - vm_compute. reflexivity.
  - apply (bool_decide_unpack _). vm_compute. exact I.
  - apply (bool_decide_unpack _). vm_compute. exact I.
  - vm_compute. reflexivity.
Defined.

(** ** How observation spreads *)

#[local] Instance same_link_preorder : PreOrder same_link.
Proof.
  split; [by intros ?|]. intros a b c [Hab Oab] [Hbc Obc].
  split; [by etrans|congruence].
Qed.

#[local] Instance links_kept_preorder : PreOrder links_kept.
Proof.
  split.
  - intros st. split; [apply heap_rel_refl; apply _|done].
  - intros a b c (Hab & ? & ?) (Hbc & ? & ?). split; [|split; congruence].
    eapply heap_rel_trans; [apply _|done..].
Qed.

Ltac links_side :=
  lazymatch goal with
  | |- links_kept _ _ =>
      split; [|done]; simpl;
      first [ apply heap_rel_refl; apply _
            | eapply heap_rel_update; [apply _ | eassumption | done] ]
  end.

Ltac links_tac := frame; try links_side.

Lemma getAsyncResourceNode_from_links_kept fuel node asyncId :
  preserves links_kept (getAsyncResourceNode_from fuel node asyncId).
Proof. revert node. induction fuel; intros node; simpl; links_tac. Qed.

#[local] Hint Resolve getAsyncResourceNode_from_links_kept : frame.




(** ** What [fiberWatchdog] observes *)

#[local] Instance stays_observed_preorder o : PreOrder (stays_observed o).
Proof.
  split; [by intros ?|]. intros a b c (Hab & Eab & Oab) (Hbc & Ebc & Obc).
  split; [congruence|]. split; [congruence|auto].
Qed.

#[local] Instance observed_kept_preorder o : PreOrder (observed_kept o).
Proof.
  split.
  - intros st. split; [apply heap_rel_refl; apply _|done].
  - intros a b c [Hab Dab] [Hbc Dbc]. split; [|set_solver].
    eapply heap_rel_trans; [apply _|done..].
Qed.

Ltac observed_side :=
  lazymatch goal with
  | |- observed_kept _ _ _ =>
      split; simpl;
      [ first [ apply heap_rel_refl; apply _
              | eapply heap_rel_update; [apply _ | eassumption | done] ]
      | first [ done | set_solver ] ]
  end.

Ltac observed_tac := frame; try observed_side.

(** [observe] attaches an observer only to a node that has no other. *)
Lemma observe_observed_kept o this node :
  preserves (observed_kept o) (Observer.observe this node).
Proof.
  unfold Observer.observe. unfold getNode at 1. apply preserves_read. intros st n Hn.
  destruct (decide _) as [_|Hfree]; [simpl; reflexivity|].
  rewrite (updNode_Some _ _ _ _ Hn). split; [|done]. simpl.
  eapply heap_rel_update; [apply _|done|]. split; [done|]. split; [done|]. simpl.
  intros Ho. destruct (decide (o = this)) as [->|Hne]; [done|].
  destruct Hfree. rewrite Ho. split; [done|]. congruence.
Qed.

#[local] Hint Resolve observe_observed_kept : frame.

Lemma parentFiberIds_observed_kept o fuel f :
  preserves (observed_kept o) (Fiber.parentFiberIds fuel f).
Proof. revert f. induction fuel; intros f; simpl; observed_tac. Qed.

#[local] Hint Resolve parentFiberIds_observed_kept : frame.

Lemma adopt_observed_kept o w observer target stack :
  preserves (observed_kept o) (adopt w observer target stack).
Proof. observed_tac. Qed.

#[local] Hint Resolve adopt_observed_kept : frame.

Lemma adopt_owned_observed_kept o w observer fiberId targets stack :
  preserves (observed_kept o) (adopt_owned w observer fiberId targets stack).
Proof. revert stack. induction targets; intros stack; simpl; observed_tac. Qed.

#[local] Hint Resolve adopt_owned_observed_kept : frame.

Lemma adopt_unobserved_observed_kept o w observer targets stack :
  preserves (observed_kept o) (adopt_unobserved w observer targets stack).
Proof. revert stack. induction targets; intros stack; simpl; observed_tac. Qed.

#[local] Hint Resolve adopt_unobserved_observed_kept : frame.

Lemma drain_observed_kept o fuel w observer stack :
  preserves (observed_kept o) (drain fuel w observer stack).
Proof. revert stack. induction fuel; intros stack; simpl; observed_tac. Qed.

#[local] Hint Resolve drain_observed_kept : frame.

Lemma observed_kept_observed o st st' l :
  observed_kept o st st' → observed_by st o l → observed_by st' o l.
Proof.
  intros [Hrel _] (n & Hn & Ho). destruct (Hrel l n Hn) as (n' & Hn' & _ & _ & Hkeep).
  exists n'. split; [done|]. by apply Hkeep.
Qed.

Lemma observed_kept_owned o st st' fiberId l :
  observed_kept o st st' → owned_by st fiberId l = true → owned_by st' fiberId l = true.
Proof.
  intros [Hrel _]. unfold owned_by.
  destruct (nodes st !! l) as [n|] eqn:Hn; [|done].
  destruct (Hrel l n Hn) as (n' & -> & -> & _). done.
Qed.

(** A target that [adopt] has returned for is observed. *)
Lemma adopt_observes w o target stack st stack' st' :
  adopt w o target stack st = Ret stack' st' → observed_by st' o target.
Proof.
  unfold adopt. unfold bind at 1. intros Hrun.
  destruct (Observer.observe o target st) as [[] st1|e st1|] eqn:Hobserve; [|done..].
  assert (observed_by st1 o target) as Hobserved.
  { unfold Observer.observe, getNode, updNode in Hobserve. unfold_monad Hobserve.
    destruct (nodes st !! target) as [tn|] eqn:Htn; simpl in Hobserve; [|done].
    destruct (decide _); simpl in Hobserve; [done|].
    rewrite Htn in Hobserve. simpl in Hobserve.
    simplify_eq. eexists. split; [apply lookup_insert_eq|done]. }
  match type of Hrun with
  | ?rest st1 = _ =>
      assert (preserves (observed_kept o) rest) as Hrest by observed_tac;
      specialize (Hrest st1); rewrite Hrun in Hrest
  end.
  by apply (observed_kept_observed o st1).
Qed.

(** The first walk: every target that the fiber owns is observed when it
    returns. *)
Lemma adopt_owned_observes w o fiberId targets :
  ∀ stack st stack' st',
    adopt_owned w o fiberId targets stack st = Ret stack' st' →
    ∀ target, target ∈ targets → owned_by st fiberId target = true →
              observed_by st' o target.
Proof.
  induction targets as [|t targets IH]; intros stack st stack' st' Hrun target Hin Hown.
  { by apply elem_of_nil in Hin. }
  simpl in Hrun. unfold bind at 1 in Hrun.
  destruct (getNode t st) as [tn st0|e st0|] eqn:Hget; [|done..].
  assert (st0 = st ∧ nodes st !! t = Some tn) as [-> Htn].
  { unfold getNode in Hget. unfold_monad Hget.
    destruct (nodes st !! t); simpl in Hget; [by simplify_eq|done]. }
  unfold bind at 1 in Hrun.
  destruct (decide (AsyncResourceNode.fiberId tn = fiberId)) as [Hid|Hid].
  - destruct (adopt w o t stack st) as [stack1 st1|e st1|] eqn:Hadopt; [|done..].
    pose proof (adopt_observes _ _ _ _ _ _ _ Hadopt) as Hobserved.
    pose proof (adopt_observed_kept o w o t stack st) as Hkept. rewrite Hadopt in Hkept.
    apply elem_of_cons in Hin as [->|Hin].
    + pose proof (adopt_owned_observed_kept o w o fiberId targets stack1 st1) as Hrest.
      rewrite Hrun in Hrest. by apply (observed_kept_observed o st1).
    + apply (IH _ _ _ _ Hrun target Hin). by apply (observed_kept_owned o st).
  - simpl in Hrun. apply elem_of_cons in Hin as [->|Hin].
    + unfold owned_by in Hown. rewrite Htn in Hown.
      by apply bool_decide_eq_true in Hown.
    + by apply (IH _ _ _ _ Hrun target Hin).
Qed.

Lemma allocObserver_run ob st :
  allocObserver ob st
  = Ret (fresh (dom (observers st)))
      (upd_observers (insert (fresh (dom (observers st))) ob) st).
Proof. done. Qed.

Lemma try_finally_Ret {A} (body : M A) (fin : M unit) st a st' :
  try_finally body fin st = Ret a st' →
  ∃ st1, body st = Ret a st1 ∧ final (fin st1) = Some st'.
Proof.
  unfold try_finally. destruct (body st) as [b st1|e st1|]; [| |done].
  - destruct (fin st1) as [[] st2|e st2|] eqn:Hfin; [|done..].
    intros [= <- <-]. exists st1. by rewrite Hfin.
  - by destruct (fin st1).
Qed.

(** One step of a computation that returns, with what the step keeps. *)
Ltac step_kept R H tac :=
  unfold bind at 1 in H;
  match type of H with
  | match ?c ?s with _ => _ end = _ =>
      let Hk := fresh "Hkept" in
      assert (preserves R c) as Hk by tac;
      specialize (Hk s);
      let a := fresh "a" in
      let s' := fresh "st" in
      destruct (c s) as [a s'| |]; [|done..]
  end.

(** X27: when [fiberWatchdog] returns, its new observer observes every
    execution target of the root that the fiber owns: the resources the
    fiber has created before the watchdog starts are supervised from then
    on. *)
Theorem fiberWatchdog_observes_owned_targets fuel f fb rn params promise st result st' :
  fibers st !! f = Some fb →
  nodes st !! AsyncResourceFiber.root fb = Some rn →
  fiberWatchdog fuel f params promise st = Ret result st' →
  ∃ o,
    observers st !! o = None
    ∧ is_Some (observers st' !! o)
    ∧ ∀ target,
        target ∈ map_values (AsyncResourceNode.executionTargets rn) →
        owned_by st (AsyncResourceFiber.fiberId fb) target = true →
        observed_by st' o target.
Proof.
  intros Hfb Hrn Hrun. unfold fiberWatchdog in Hrun.
  rewrite (bind_Ret _ _ _ _ _ (getFiberObj_Some _ _ _ Hfb)) in Hrun.
  apply try_finally_Ret in Hrun as (st_body & Hbody & Hfin).
  step_kept (observed_kept 0) Hbody observed_tac.
  step_kept (observed_kept 0) Hbody observed_tac.
  step_kept (observed_kept 0) Hbody observed_tac.
  step_kept (observed_kept 0) Hbody observed_tac.
  step_kept (observed_kept 0) Hbody observed_tac.
  step_kept (observed_kept 0) Hbody observed_tac.
  assert (Hbefore : observed_kept 0 st st5) by (repeat (etrans; [eassumption|]); reflexivity).
  clear Hkept Hkept0 Hkept1 Hkept2 Hkept3 Hkept4.
  (* the observer *)
  rewrite (bind_Ret _ _ _ _ _ (allocObserver_run _ st5)) in Hbody.
  set (o := fresh (dom (observers st5))) in *.
  set (st6 := upd_observers _ st5) in *.
  destruct Hbefore as [Hnodes Hdom].
  destruct (Hnodes _ rn Hrn) as (rn5 & Hrn5 & _ & Htargets & _).
  rewrite (bind_Ret _ _ _ _ _ (getNode_Some st6 _ rn5 Hrn5)) in Hbody.
  rewrite Htargets in Hbody.
  (* the two walks *)
  unfold bind at 1 in Hbody.
  destruct (adopt_owned a1 o (AsyncResourceFiber.fiberId fb)
              (map_values (AsyncResourceNode.executionTargets rn)) [] st6)
    as [stack st7|e st7|] eqn:Hwalk; [|done..].
  step_kept (observed_kept o) Hbody observed_tac.
  unfold ret in Hbody. injection Hbody as -> <-.
  assert (Hfin' : preserves (observed_kept o)
            (updNode (AsyncResourceFiber.root fb) (AsyncResourceNode.set_active false)))
    by observed_tac.
  apply (final_preserves _ _ _ _ Hfin') in Hfin.
  pose proof (adopt_owned_observed_kept o a1 o (AsyncResourceFiber.fiberId fb)
                (map_values (AsyncResourceNode.executionTargets rn)) [] st6) as Hwalk_kept.
  rewrite Hwalk in Hwalk_kept.
  assert (Hafter : observed_kept o st7 st') by (etrans; [exact Hkept|exact Hfin]).
  exists o. split; [|split].
  - apply not_elem_of_dom. intros Hin. apply (is_fresh (dom (observers st5))).
    by apply Hdom.
  - apply elem_of_dom. apply (proj2 Hafter), (proj2 Hwalk_kept).
    simpl. rewrite dom_insert. set_solver.
  - intros target Hin Hown.
    apply (observed_kept_observed o st7); [done|].
    apply (adopt_owned_observes _ _ _ _ _ _ _ _ Hwalk target Hin).
    unfold owned_by in *. simpl.
    destruct (nodes st !! target) as [tn|] eqn:Htn; [|done].
    destruct (Hnodes target tn Htn) as (tn5 & -> & -> & _). done.
Qed.

Lemma fiberWatchdog_observes_owned_targets_witness :
  ∃ o,
    observers before_watchdog !! o = None
    ∧ is_Some (observers
                 (state_after (fiberWatchdog 5 1 {| abort := None |} 0) before_watchdog)
               !! o)
    ∧ ∀ target,
        target ∈ map_values [(2%Z, 1); (3%Z, 2)] →
        owned_by before_watchdog 2 target = true →
        observed_by (state_after (fiberWatchdog 5 1 {| abort := None |} 0) before_watchdog)
          o target.
Proof.
  apply (fiberWatchdog_observes_owned_targets 5 1
           (AsyncResourceFiber.mk 2 0 true (Some 0) None)
           (AsyncResourceNode.mk 1 2 None true None None None [(2%Z, 1); (3%Z, 2)]
              [(2%Z, 1)] 0 None)
           {| abort := None |} 0 before_watchdog 1).
  - vm_compute. reflexivity.
  - vm_compute. reflexivity.
  - vm_compute. reflexivity.
Defined.

(** ** The trigger edge *)

(** [init] in a tracked context, up to the point where the new node is
    linked to the node of the context. *)
Lemma init_prefix fuel asyncId type triggerAsyncId resource frame st this n :
  _asyncResourceGraphHookActive st = false →
  fiberRefs st !! executionAsyncResource st = Some this →
  nodes st !! this = Some n →
  AsyncResourceNode.active n = true →
  Hook.init fuel asyncId type triggerAsyncId resource frame st =
    match onExecute_rest fuel this (fresh (dom (nodes st))) asyncId triggerAsyncId
            (linked asyncId type resource frame this n st) with
    | Ret _ st1 => Ret tt (set_hookActive false st1)
    | Throw e st1 => Throw e (set_hookActive false st1)
    | Fail failure => Fail failure
    end.
Proof.
  intros Hflag Href Hn Hactive.
  unfold Hook.init. unfold bind at 1, gets at 1. rewrite Hflag. simpl.
  unfold Hook.guarded, try_finally. unfold bind at 1, modify at 1.
  set (st_a := set_hookActive true st).
  unfold bind at 1, executionNode at 1, gets at 1.
  change (fiberRefs st_a !! executionAsyncResource st_a)
    with (fiberRefs st !! executionAsyncResource st).
  rewrite Href. unfold Node._onExecute.
  rewrite (bind_Ret _ _ _ _ _ (getNode_Some st_a this n Hn)).
  rewrite Hactive. simpl.
  rewrite (bind_Ret _ _ _ _ _ (allocNode_run _ st_a)).
  change (fresh (dom (nodes st_a))) with (fresh (dom (nodes st))).
  set (node := fresh (dom (nodes st))).
  assert (Hne : this ≠ node).
  { intros ->. apply (is_fresh (dom (nodes st))). apply elem_of_dom. by exists n. }
  erewrite bind_Ret; last first.
  { apply updNode_Some. apply lookup_insert_eq. }
  unfold bind at 1, modify at 1.
  erewrite bind_Ret; last first.
  { apply updNode_Some. simpl. rewrite !lookup_insert_ne by done. exact Hn. }
  fold (onExecute_rest fuel this node asyncId triggerAsyncId).
  unfold linked. fold node. fold st_a.
  by destruct (onExecute_rest _ _ _ _ _ _) as [[] ?| |].
Qed.

#[local] Instance same_trigger_preorder : PreOrder same_trigger.
Proof.
  split; [by intros ?|]. intros a b c [] []. split; congruence.
Qed.

#[local] Instance triggers_kept_preorder : PreOrder triggers_kept.
Proof.
  split; [intros st; apply heap_rel_refl; apply _|].
  intros a b c. apply heap_rel_trans. apply _.
Qed.

Ltac triggers_side :=
  lazymatch goal with
  | |- triggers_kept _ _ =>
      unfold triggers_kept; simpl;
      first [ apply heap_rel_refl; apply _
            | eapply heap_rel_update; [apply _ | eassumption | done] ]
  end.

Ltac triggers_tac := frame; try triggers_side.

(** The notification of the observer leaves the trigger edges alone. *)
Lemma notify_triggers_kept this node :
  preserves triggers_kept
    (let* n := getNode this in
     match AsyncResourceNode.notifyObserver n with
     | Some observer => Observer._onInit observer node
     | None => ret tt
     end).
Proof. triggers_tac. Qed.

(** X28: the trigger edge that [init] sets.  A resource that is its own
    trigger gets no trigger origin, and no node gets it as a trigger target.
    A resource triggered by the resource of the execution context that
    creates it, the case of a synchronous trigger, gets the node of that
    context as its trigger origin, the same node as its execution origin,
    and is entered among the trigger targets of that node under its
    [asyncId]. *)
Theorem init_links_trigger fuel asyncId type triggerAsyncId resource frame st st' this n :
  _asyncResourceGraphHookActive st = false →
  fiberRefs st !! executionAsyncResource st = Some this →
  nodes st !! this = Some n →
  AsyncResourceNode.active n = true →
  asyncId = triggerAsyncId
  ∨ (AsyncResourceNode.asyncId n = triggerAsyncId
     ∧ resource ≠ executionAsyncResource st ∧ fuel ≠ 0) →
  final (Hook.init fuel asyncId type triggerAsyncId resource frame st) = Some st' →
  let node := fresh (dom (nodes st)) in
  ∃ c n',
    nodes st' !! node = Some c
    ∧ nodes st' !! this = Some n'
    ∧ AsyncResourceNode.triggerOrigin c
      = (if decide (asyncId = triggerAsyncId) then None else Some this)
    ∧ AsyncResourceNode.triggerTargets n'
      = (if decide (asyncId = triggerAsyncId) then AsyncResourceNode.triggerTargets n
         else map_set asyncId node (AsyncResourceNode.triggerTargets n)).
Proof.
  intros Hflag Href Hn Hactive Hcase Hfinal node.
  rewrite (init_prefix _ _ _ _ _ _ _ _ _ Hflag Href Hn Hactive) in Hfinal.
  fold node in Hfinal.
  set (st_e := linked asyncId type resource frame this n st) in *.
  assert (Hne : this ≠ node).
  { intros ->. apply (is_fresh (dom (nodes st))). apply elem_of_dom. by exists n. }
  set (c1 := AsyncResourceNode.set_executionOrigin (Some this)
               (AsyncResourceNode.new (AsyncResourceNode.fiberId n) asyncId (Some type)
                  frame)).
  set (n1 := AsyncResourceNode.set_executionTargets
               (map_set asyncId node (AsyncResourceNode.executionTargets n)) n).
  assert (Hc1 : nodes st_e !! node = Some c1).
  { unfold st_e, linked. simpl. fold node. rewrite lookup_insert_ne by done.
    apply lookup_insert_eq. }
  assert (Hn1 : nodes st_e !! this = Some n1).
  { unfold st_e, linked. simpl. apply lookup_insert_eq. }
  assert (Hend : ∀ st_f c n' st1,
            nodes st_f !! node = Some c → nodes st_f !! this = Some n' →
            final
              ((let* n := getNode this in
                match AsyncResourceNode.notifyObserver n with
                | Some observer => Observer._onInit observer node
                | None => ret tt
                end) st_f) = Some st1 →
            ∃ c' n'', nodes st1 !! node = Some c' ∧ nodes st1 !! this = Some n''
              ∧ AsyncResourceNode.triggerOrigin c' = AsyncResourceNode.triggerOrigin c
              ∧ AsyncResourceNode.triggerTargets n''
                = AsyncResourceNode.triggerTargets n').
  { intros st_f c n' st1 Hc Hn' Hnotify.
    apply (final_preserves _ _ _ _ (notify_triggers_kept this node)) in Hnotify.
    destruct (Hnotify node c Hc) as (c' & Hc' & Horigin & _).
    destruct (Hnotify this n' Hn') as (n'' & Hn'' & _ & Htargets).
    by exists c', n''. }
  assert (Hwrap : ∀ (o : Outcome unit) st1,
            final o = Some st1 →
            final match o with
                  | Ret _ s => Ret tt (set_hookActive false s)
                  | Throw e s => Throw e (set_hookActive false s)
                  | Fail failure => Fail failure
                  end = Some (set_hookActive false st1)).
  { intros [[] s|e s|] st1; simpl; by intros [= ->]. }
  unfold onExecute_rest in Hfinal.
  destruct (decide (asyncId = triggerAsyncId)) as [Hself|Hother].
  - destruct (decide (asyncId ≠ triggerAsyncId)) as [|_]; [done|].
    unfold bind at 1, ret at 1 in Hfinal. unfold bind at 1, ret at 1 in Hfinal.
    match type of Hfinal with
    | final match ?o with _ => _ end = _ => destruct (final o) as [st1|] eqn:Hnotify
    end; last first.
    { by destruct (bind _ _ st_e). }
    rewrite (Hwrap _ _ Hnotify) in Hfinal. injection Hfinal as <-.
    destruct (Hend st_e c1 n1 st1 Hc1 Hn1 Hnotify)
      as (c' & n'' & Hc' & Hn'' & Horigin & Htargets).
    exists c', n''. by repeat split.
  - destruct Hcase as [?|(Hsync & Hres & Hfuel)]; [done|].
    destruct (decide (asyncId ≠ triggerAsyncId)) as [_|]; [|done].
    assert (Hfound : getAsyncResourceNode fuel triggerAsyncId st_e = Ret (Some this) st_e).
    { unfold getAsyncResourceNode. unfold bind at 1, executionNode at 1, gets at 1.
      unfold st_e at 1 2, linked. simpl. fold node.
      rewrite lookup_insert_ne, Href by done.
      destruct fuel as [|fuel]; [done|]. simpl.
      rewrite (bind_Ret _ _ _ _ _ (getNode_Some st_e this n1 Hn1)). simpl.
      by destruct (decide _). }
    rewrite (bind_Ret _ _ _ _ _ Hfound) in Hfinal.
    unfold bind at 1 in Hfinal.
    rewrite (bind_Ret _ _ _ _ _ (updNode_Some st_e node c1 _ Hc1)) in Hfinal.
    set (st_f := upd_nodes _ st_e) in *.
    assert (Hn_f : nodes st_f !! this = Some n1).
    { simpl. by rewrite lookup_insert_ne. }
    rewrite (updNode_Some st_f this n1 _ Hn_f) in Hfinal.
    set (st_g := upd_nodes _ st_f) in *.
    match type of Hfinal with
    | final match ?o with _ => _ end = _ => destruct (final o) as [st1|] eqn:Hnotify
    end; last first.
    { by destruct (bind _ _ st_g). }
    rewrite (Hwrap _ _ Hnotify) in Hfinal. injection Hfinal as <-.
    destruct (Hend st_g (AsyncResourceNode.set_triggerOrigin (Some this) c1)
                (AsyncResourceNode.set_triggerTargets
                   (map_set asyncId node (AsyncResourceNode.triggerTargets n1)) n1) st1)
      as (c' & n'' & Hc' & Hn'' & Horigin & Htargets); [| |done|].
    { simpl. rewrite lookup_insert_ne by done. apply lookup_insert_eq. }
    { apply lookup_insert_eq. }
    exists c', n''. by repeat split.
Qed.

Lemma init_links_trigger_witness :
  let st' := state_after (Hook.init 5 2 "Timeout" 1 1 None) enabled in
  let node := fresh (dom (nodes enabled)) in
  ∃ c n',
    nodes st' !! node = Some c
    ∧ nodes st' !! 0 = Some n'
    ∧ AsyncResourceNode.triggerOrigin c
      = (if decide (2%Z = 1%Z) then None else Some 0)
    ∧ AsyncResourceNode.triggerTargets n'
      = (if decide (2%Z = 1%Z)
         then AsyncResourceNode.triggerTargets (AsyncResourceNode.new 1 1 None None)
         else map_set 2 node
                (AsyncResourceNode.triggerTargets (AsyncResourceNode.new 1 1 None None))).
Proof.
  apply (init_links_trigger 5 2 "Timeout" 1 1 None enabled
           (state_after (Hook.init 5 2 "Timeout" 1 1 None) enabled) 0
           (AsyncResourceNode.new 1 1 None None)).
  - vm_compute. reflexivity.
  - vm_compute. reflexivity.
  - vm_compute. reflexivity.
  - reflexivity.
  - right. split; [reflexivity|]. split; discriminate.
  - vm_compute. reflexivity.
Defined.

(** ** The chain of execution origins *)

#[local] Instance chain_step_preorder : PreOrder chain_step.
Proof.
  split; [by intros st Hwf|]. intros a b c Hab Hbc Hwf. by apply Hbc, Hab.
Qed.

Lemma lookup_insert_allocated {V} (m : gmap nat V) l v k :
  is_Some (m !! k) → is_Some (<[l:=v]> m !! k).
Proof.
  intros Hk. destruct (decide (l = k)) as [->|Hne].
  - rewrite lookup_insert_eq. by eexists.
  - by rewrite lookup_insert_ne.
Qed.

Lemma fresh_node_unallocated st : nodes st !! fresh (dom (nodes st)) = None.
Proof. apply not_elem_of_dom, is_fresh. Qed.

(** A node that is stored keeps the execution origin of the node it
    replaces; a node that is stored at a new place has no execution origin,
    or an allocated one. *)
Lemma chain_wf_insert st l c :
  chain_wf st →
  match nodes st !! l with
  | Some n => AsyncResourceNode.executionOrigin c = AsyncResourceNode.executionOrigin n
  | None =>
      from_option (λ origin, is_Some (nodes st !! origin)) True
        (AsyncResourceNode.executionOrigin c)
  end →
  chain_wf (upd_nodes (insert l c) st).
Proof.
  intros [[rank Hrank] Hrefs] Hc. split; last first.
  { intros r k Hr. simpl. apply lookup_insert_allocated. by apply (Hrefs r k). }
  destruct (nodes st !! l) as [n|] eqn:Hl.
  - exists rank. intros k m Hk. simpl in *. rewrite map_size_insert_Some by done.
    assert (∃ m0, nodes st !! k = Some m0
                  ∧ AsyncResourceNode.executionOrigin m
                    = AsyncResourceNode.executionOrigin m0) as (m0 & Hm0 & Horigin).
    { destruct (decide (l = k)) as [->|Hne].
      - rewrite lookup_insert_eq in Hk. simplify_eq. by exists n.
      - rewrite lookup_insert_ne in Hk by done. by exists m. }
    destruct (Hrank k m0 Hm0) as [Hsize Hup]. split; [done|]. rewrite Horigin.
    destruct (AsyncResourceNode.executionOrigin m0) as [origin|]; simpl in *; [|done].
    destruct Hup as [Halloc Hlt]. split; [|done]. by apply lookup_insert_allocated.
  - exists (λ k, if decide (k = l)
                 then match AsyncResourceNode.executionOrigin c with
                      | Some origin => S (rank origin)
                      | None => 0
                      end
                 else rank k).
    intros k m Hk. simpl in *. rewrite map_size_insert_None by done.
    destruct (decide (k = l)) as [->|Hne].
    + rewrite lookup_insert_eq in Hk. simplify_eq.
      destruct (AsyncResourceNode.executionOrigin m) as [origin|]; simpl in *; [|lia].
      destruct Hc as [o Ho]. destruct (Hrank origin o Ho) as [Hsize _].
      split; [lia|]. split; [by apply lookup_insert_allocated|].
      destruct (decide (origin = l)) as [->|]; [congruence|lia].
    + rewrite lookup_insert_ne in Hk by done.
      destruct (Hrank k m Hk) as [Hsize Hup]. split; [lia|].
      destruct (AsyncResourceNode.executionOrigin m) as [origin|]; simpl in *; [|done].
      destruct Hup as [[o Ho] Hlt]. split; [by apply lookup_insert_allocated|].
      destruct (decide (origin = l)) as [->|]; [congruence|done].
Qed.

Lemma chain_wf_ref st resource l :
  is_Some (nodes st !! l) → chain_wf st →
  chain_wf (upd_fiberRefs (insert resource l) st).
Proof.
  intros Hl [Hrank Hrefs]. split; [done|]. intros r k Hr. simpl in *.
  destruct (decide (resource = r)) as [->|Hne].
  - rewrite lookup_insert_eq in Hr. by simplify_eq.
  - rewrite lookup_insert_ne in Hr by done. by apply (Hrefs r k).
Qed.

Ltac chain_side :=
  lazymatch goal with
  | |- chain_step _ _ =>
      let Hwf := fresh "Hwf" in
      intros Hwf;
      first
        [ exact Hwf
        | apply chain_wf_insert; [exact Hwf|];
          first
            [ rewrite fresh_node_unallocated; exact I
            | match goal with
              | H : nodes _ !! _ = Some _ |- _ => rewrite H; reflexivity
              end ] ]
  end.

Ltac chain_tac := frame; try chain_side.

Lemma getFiber_from_chain l : preserves chain_step (getFiber_from l).
Proof. induction l; simpl; chain_tac. Qed.

#[local] Hint Resolve getFiber_from_chain : frame.

Lemma parentFiberIds_chain fuel f : preserves chain_step (Fiber.parentFiberIds fuel f).
Proof. revert f. induction fuel; intros f; simpl; chain_tac. Qed.

#[local] Hint Resolve parentFiberIds_chain : frame.

Lemma getAsyncResourceNode_from_chain fuel node asyncId :
  preserves chain_step (getAsyncResourceNode_from fuel node asyncId).
Proof. revert node. induction fuel; intros node; simpl; chain_tac. Qed.

#[local] Hint Resolve getAsyncResourceNode_from_chain : frame.

Lemma hasAsyncIO_chain pending : preserves chain_step (hasAsyncIO pending).
Proof. induction pending; simpl; chain_tac. Qed.

#[local] Hint Resolve hasAsyncIO_chain : frame.

Lemma adopt_owned_chain w observer fiberId targets stack :
  preserves chain_step (adopt_owned w observer fiberId targets stack).
Proof. revert stack. induction targets; intros stack; simpl; chain_tac. Qed.

#[local] Hint Resolve adopt_owned_chain : frame.

Lemma adopt_unobserved_chain w observer targets stack :
  preserves chain_step (adopt_unobserved w observer targets stack).
Proof. revert stack. induction targets; intros stack; simpl; chain_tac. Qed.

#[local] Hint Resolve adopt_unobserved_chain : frame.

Lemma drain_chain fuel w observer stack :
  preserves chain_step (drain fuel w observer stack).
Proof. revert stack. induction fuel; intros stack; simpl; chain_tac. Qed.

#[local] Hint Resolve drain_chain : frame.

Lemma taintAsyncResourceGraph_chain fuel node mask flags :
  preserves chain_step (taintAsyncResourceGraph fuel node mask flags).
Proof. revert node. induction fuel; intros node; simpl; chain_tac. Qed.

#[local] Hint Resolve taintAsyncResourceGraph_chain : frame.

(** The constructor of a fiber maps the resource of the execution context
    to the root node it has just allocated. *)
Lemma Fiber_new_chain frame : preserves chain_step (Fiber.new frame).
Proof.
  unfold Fiber.new. do 4 (frame_step; [chain_tac|]).
  frame_step; [|chain_tac].
  match goal with
  | |- preserves _ (match ?slot with _ => _ end) => destruct slot
  end; [chain_tac|].
  intros st. unfold allocNode. unfold_goal. intros Hwf.
  apply chain_wf_ref; [simpl; rewrite lookup_insert_eq; by eexists|].
  apply chain_wf_insert; [done|]. by rewrite fresh_node_unallocated.
Qed.

#[local] Hint Resolve Fiber_new_chain : frame.

(** [_onExecute] gives the new node an execution origin: the node it was
    called on, which is allocated. *)
Lemma onExecute_chain fuel this asyncId type triggerAsyncId resource frame :
  preserves chain_step
    (Node._onExecute fuel this asyncId type triggerAsyncId resource frame).
Proof.
  unfold Node._onExecute. unfold getNode at 1. apply preserves_read.
  intros st n Hn. destruct (AsyncResourceNode.active n); simpl; [|reflexivity].
  rewrite (bind_Ret _ _ _ _ _ (allocNode_run _ st)).
  set (node := fresh (dom (nodes st))).
  assert (Hne : this ≠ node).
  { intros ->. apply (is_fresh (dom (nodes st))). apply elem_of_dom. by exists n. }
  erewrite bind_Ret; last first.
  { apply updNode_Some. apply lookup_insert_eq. }
  unfold bind at 1, modify at 1.
  erewrite bind_Ret; last first.
  { apply updNode_Some. simpl. rewrite !lookup_insert_ne by done. exact Hn. }
  match goal with
  | |- match ?rest ?st_e with _ => _ end =>
      assert (chain_step st st_e) as Hlinked;
      [|assert (preserves chain_step rest) as Hrest by chain_tac;
        specialize (Hrest st_e); destruct (rest st_e); [..|done]; by etrans]
  end.
  intros Hwf. apply chain_wf_insert.
  - apply chain_wf_ref; [simpl; rewrite lookup_insert_eq; by eexists|].
    match goal with
    | |- chain_wf (upd_nodes (insert node ?c1) (upd_nodes (insert node ?c0) st)) =>
        replace (upd_nodes (insert node c1) (upd_nodes (insert node c0) st))
          with (upd_nodes (insert node c1) st)
          by (unfold upd_nodes; simpl; by rewrite insert_insert_eq)
    end.
    apply chain_wf_insert; [done|].
    unfold node. rewrite fresh_node_unallocated. simpl. by exists n.
  - simpl. rewrite !lookup_insert_ne by done. by rewrite Hn.
Qed.

#[local] Hint Resolve onExecute_chain : frame.

Lemma exec_chain fuel op : preserves chain_step (exec fuel op).
Proof. destruct op; simpl; chain_tac. Qed.

Lemma initial_chain_wf resource asyncId : chain_wf (initial resource asyncId).
Proof. split; [exists (λ _, 0)|]; apply map_Forall_empty. Qed.

Lemma run_chain_wf fuel ops st st' :
  run fuel ops st = Some st' → chain_wf st → chain_wf st'.
Proof.
  revert st. induction ops as [|op ops IH]; intros st Hrun Hwf; simpl in Hrun.
  - by simplify_eq.
  - destruct (final (exec fuel op st)) as [st1|] eqn:Hop; [|done].
    apply (IH st1 Hrun).
    by apply (final_preserves _ _ _ _ (exec_chain fuel op) Hop).
Qed.

(** Along a chain of origins that ascends, the loop ends before the fuel
    does. *)
Lemma getAsyncResourceNode_from_returns rank fuel start asyncId st :
  origins_ascend rank st →
  is_Some (nodes st !! start) →
  rank start < fuel →
  getAsyncResourceNode_from fuel start asyncId st
  = Ret (first_some (found_at st asyncId) (origin_chain fuel st start)) st.
Proof.
  intros Hrank. revert start.
  induction fuel as [|fuel IH]; intros start [n Hn] Hlt; [lia|].
  simpl. rewrite (bind_Ret _ _ _ _ _ (getNode_Some st start n Hn)).
  unfold found_at at 1. rewrite Hn. simpl.
  destruct (decide (AsyncResourceNode.asyncId n = asyncId)); [done|].
  destruct (map_get asyncId (AsyncResourceNode.executionTargets n)); [done|].
  destruct (Hrank start n Hn) as [_ Hup].
  destruct (AsyncResourceNode.executionOrigin n) as [origin|]; simpl in *; [|done].
  destruct Hup as [Halloc Horigin]. apply IH; [done|lia].
Qed.

(** X29: in every state that a run of operations reaches from the start of
    the process, the execution origins of the nodes form no cycle, and
    [fiberRefs] refers to allocated nodes only.  So the loop of
    [getAsyncResourceNode] ends: after at most as many iterations as there
    are nodes it returns the first node along the chain of execution
    origins that has the [asyncId] or an execution target of that id, or
    null, and it changes nothing. *)
Theorem getAsyncResourceNode_returns fuel ops resource asyncId0 st bound asyncId :
  run fuel ops (initial resource asyncId0) = Some st →
  size (nodes st) ≤ bound →
  getAsyncResourceNode bound asyncId st = Ret (locate bound st asyncId) st.
Proof.
  intros Hrun Hbound.
  destruct (run_chain_wf _ _ _ _ Hrun (initial_chain_wf _ _)) as [[rank Hrank] Hrefs].
  unfold getAsyncResourceNode, locate.
  unfold bind at 1, executionNode at 1, gets at 1.
  destruct (fiberRefs st !! executionAsyncResource st) as [start|] eqn:Hstart;
    simpl; [|done].
  destruct (Hrefs _ _ Hstart) as [n Hn].
  apply (getAsyncResourceNode_from_returns rank); [done|by exists n|].
  destruct (Hrank start n Hn) as [Hsize _]. lia.
Qed.

Lemma getAsyncResourceNode_returns_witness :
  getAsyncResourceNode 3 1 nested_timers = Ret (locate 3 nested_timers 1) nested_timers.
Proof.
  apply (getAsyncResourceNode_returns 5
           [FiberNew None; FiberEnable 0; HookInit 2 "Timeout" 1 1 None;
            EnterContext 1 2; HookInit 3 "Timeout" 2 2 None; EnterContext 2 3]
           0 1 nested_timers 3 1).
  - vm_compute. reflexivity.
  - vm_compute. lia.
Defined.

(** ** The execution targets *)

#[local] Instance targets_step_preorder : PreOrder targets_step.
Proof.
  split; [by intros st Hwf|]. intros a b c Hab Hbc Hwf. by apply Hbc, Hab.
Qed.

(** A node that is stored where a node is keeps what the edges rely on. *)
Lemma same_place_stored st l c k m :
  (∀ n, nodes st !! l = Some n →
        AsyncResourceNode.asyncId c = AsyncResourceNode.asyncId n
        ∧ AsyncResourceNode.executionOrigin c = AsyncResourceNode.executionOrigin n) →
  nodes st !! k = Some m →
  ∃ m', <[l:=c]> (nodes st) !! k = Some m'
        ∧ AsyncResourceNode.asyncId m' = AsyncResourceNode.asyncId m
        ∧ AsyncResourceNode.executionOrigin m' = AsyncResourceNode.executionOrigin m.
Proof.
  intros Hc Hk. destruct (decide (l = k)) as [->|Hne].
  - destruct (Hc m Hk) as [Hid Horigin]. exists c. by rewrite lookup_insert_eq.
  - exists m. by rewrite lookup_insert_ne.
Qed.

Lemma targets_insert st l c :
  targets_point_back st →
  match nodes st !! l with
  | Some n => same_place n c
  | None => AsyncResourceNode.executionTargets c = []
  end →
  targets_point_back (upd_nodes (insert l c) st).
Proof.
  intros Hwf Hc origin n k target Hn Hget. simpl in *.
  assert (∃ n0, nodes st !! origin = Some n0
                ∧ map_get k (AsyncResourceNode.executionTargets n0) = Some target)
    as (n0 & Hn0 & Hget0).
  { destruct (decide (l = origin)) as [->|Hne].
    - rewrite lookup_insert_eq in Hn. simplify_eq.
      destruct (nodes st !! origin) as [n0|]; [|by rewrite Hc in Hget].
      destruct Hc as (_ & _ & Htargets). exists n0. by rewrite <- Htargets.
    - rewrite lookup_insert_ne in Hn by done. by exists n. }
  destruct (Hwf origin n0 k target Hn0 Hget0) as (m & Hm & Hid & Horigin).
  destruct (same_place_stored st l c target m) as (m' & Hm' & Hid' & Horigin');
    [|done|].
  { intros n1 Hn1. rewrite Hn1 in Hc. by destruct Hc as (? & ? & _). }
  exists m'. split; [done|]. split; congruence.
Qed.

(** The edge that [_onExecute] adds. *)
Lemma targets_link st this n node c asyncId :
  targets_point_back st →
  nodes st !! this = Some n →
  nodes st !! node = Some c →
  AsyncResourceNode.asyncId c = asyncId →
  AsyncResourceNode.executionOrigin c = Some this →
  targets_point_back
    (upd_nodes
       (insert this
          (AsyncResourceNode.set_executionTargets
             (map_set asyncId node (AsyncResourceNode.executionTargets n)) n))
       st).
Proof.
  intros Hwf Hn Hc Hid Horigin origin m k target Hm Hget. simpl in *.
  set (n2 := AsyncResourceNode.set_executionTargets _ n) in *.
  assert (Hstored : ∀ t m0, nodes st !! t = Some m0 →
            ∃ m', <[this:=n2]> (nodes st) !! t = Some m'
                  ∧ AsyncResourceNode.asyncId m' = AsyncResourceNode.asyncId m0
                  ∧ AsyncResourceNode.executionOrigin m'
                    = AsyncResourceNode.executionOrigin m0).
  { intros t m0 Ht. apply (same_place_stored st this n2 t m0); [|done].
    intros n1 Hn1. by simplify_eq. }
  assert (Hold : ∀ n0, nodes st !! origin = Some n0 →
            map_get k (AsyncResourceNode.executionTargets n0) = Some target →
            ∃ c0, <[this:=n2]> (nodes st) !! target = Some c0
                  ∧ AsyncResourceNode.asyncId c0 = k
                  ∧ AsyncResourceNode.executionOrigin c0 = Some origin).
  { intros n0 Hn0 Hget0.
    destruct (Hwf origin n0 k target Hn0 Hget0) as (m0 & Hm0 & Hid0 & Horigin0).
    destruct (Hstored target m0 Hm0) as (m' & Hm' & Hid' & Horigin').
    exists m'. split; [done|]. split; congruence. }
  destruct (decide (this = origin)) as [->|Hne].
  - rewrite lookup_insert_eq in Hm. simplify_eq. simpl in Hget.
    destruct (decide (k = AsyncResourceNode.asyncId c)) as [->|Hk].
    + rewrite map_get_set_eq in Hget. simplify_eq.
      destruct (Hstored target c Hc) as (m' & Hm' & Hid' & Horigin').
      exists m'. split; [done|]. split; congruence.
    + rewrite map_get_set_ne in Hget by done. by apply (Hold n).
  - rewrite lookup_insert_ne in Hm by done. by apply (Hold m).
Qed.

Ltac targets_side :=
  lazymatch goal with
  | |- targets_step _ _ =>
      let Hwf := fresh "Hwf" in
      intros Hwf;
      first
        [ exact Hwf
        | apply targets_insert; [exact Hwf|];
          first
            [ rewrite fresh_node_unallocated; reflexivity
            | match goal with
              | H : nodes _ !! _ = Some _ |- _ => rewrite H; by repeat split
              end ] ]
  end.

Ltac targets_tac := frame; try targets_side.

Lemma getFiber_from_targets l : preserves targets_step (getFiber_from l).
Proof. induction l; simpl; targets_tac. Qed.

#[local] Hint Resolve getFiber_from_targets : frame.

Lemma parentFiberIds_targets fuel f :
  preserves targets_step (Fiber.parentFiberIds fuel f).
Proof. revert f. induction fuel; intros f; simpl; targets_tac. Qed.

#[local] Hint Resolve parentFiberIds_targets : frame.

Lemma getAsyncResourceNode_from_targets fuel node asyncId :
  preserves targets_step (getAsyncResourceNode_from fuel node asyncId).
Proof. revert node. induction fuel; intros node; simpl; targets_tac. Qed.

#[local] Hint Resolve getAsyncResourceNode_from_targets : frame.

Lemma hasAsyncIO_targets pending : preserves targets_step (hasAsyncIO pending).
Proof. induction pending; simpl; targets_tac. Qed.

#[local] Hint Resolve hasAsyncIO_targets : frame.

Lemma adopt_owned_targets w observer fiberId targets stack :
  preserves targets_step (adopt_owned w observer fiberId targets stack).
Proof. revert stack. induction targets; intros stack; simpl; targets_tac. Qed.

#[local] Hint Resolve adopt_owned_targets : frame.

Lemma adopt_unobserved_targets w observer targets stack :
  preserves targets_step (adopt_unobserved w observer targets stack).
Proof. revert stack. induction targets; intros stack; simpl; targets_tac. Qed.

#[local] Hint Resolve adopt_unobserved_targets : frame.

Lemma drain_targets fuel w observer stack :
  preserves targets_step (drain fuel w observer stack).
Proof. revert stack. induction fuel; intros stack; simpl; targets_tac. Qed.

#[local] Hint Resolve drain_targets : frame.

Lemma taintAsyncResourceGraph_targets fuel node mask flags :
  preserves targets_step (taintAsyncResourceGraph fuel node mask flags).
Proof. revert node. induction fuel; intros node; simpl; targets_tac. Qed.

#[local] Hint Resolve taintAsyncResourceGraph_targets : frame.

(** [_onExecute] stores the new node under its own [asyncId], and has made
    the node it is called on the execution origin of the new node. *)
Lemma onExecute_targets fuel this asyncId type triggerAsyncId resource frame :
  preserves targets_step
    (Node._onExecute fuel this asyncId type triggerAsyncId resource frame).
Proof.
  unfold Node._onExecute. unfold getNode at 1. apply preserves_read.
  intros st n Hn. destruct (AsyncResourceNode.active n); simpl; [|reflexivity].
  rewrite (bind_Ret _ _ _ _ _ (allocNode_run _ st)).
  set (node := fresh (dom (nodes st))).
  assert (Hne : this ≠ node).
  { intros ->. apply (is_fresh (dom (nodes st))). apply elem_of_dom. by exists n. }
  erewrite bind_Ret; last first.
  { apply updNode_Some. apply lookup_insert_eq. }
  unfold bind at 1, modify at 1.
  erewrite bind_Ret; last first.
  { apply updNode_Some. simpl. rewrite !lookup_insert_ne by done. exact Hn. }
  match goal with
  | |- match ?rest ?st_e with _ => _ end =>
      assert (targets_step st st_e) as Hlinked;
      [|assert (preserves targets_step rest) as Hrest by targets_tac;
        specialize (Hrest st_e); destruct (rest st_e); [..|done]; by etrans]
  end.
  intros Hwf.
  match goal with
  | |- targets_point_back
         (upd_nodes _
            (upd_fiberRefs ?refs
               (upd_nodes (insert node ?c1) (upd_nodes (insert node ?c0) st)))) =>
      assert (targets_point_back
                (upd_fiberRefs refs (upd_nodes (insert node c1) st))) as Hchild;
      [ apply (targets_insert st node c1 Hwf); unfold node;
        by rewrite fresh_node_unallocated
      | replace (upd_nodes (insert node c1) (upd_nodes (insert node c0) st))
          with (upd_nodes (insert node c1) st)
          by (unfold upd_nodes; simpl; by rewrite insert_insert_eq);
        apply (targets_link _ this n node c1 asyncId Hchild) ]
  end.
  - simpl. by rewrite lookup_insert_ne.
  - simpl. by rewrite lookup_insert_eq.
  - done.
  - done.
Qed.

#[local] Hint Resolve onExecute_targets : frame.

Lemma exec_targets fuel op : preserves targets_step (exec fuel op).
Proof. destruct op; simpl; targets_tac. Qed.

Lemma run_targets fuel ops st st' :
  run fuel ops st = Some st' → targets_point_back st → targets_point_back st'.
Proof.
  revert st. induction ops as [|op ops IH]; intros st Hrun Hwf; simpl in Hrun.
  - by simplify_eq.
  - destruct (final (exec fuel op st)) as [st1|] eqn:Hop; [|done].
    apply (IH st1 Hrun).
    by apply (final_preserves _ _ _ _ (exec_targets fuel op) Hop).
Qed.

Lemma getAsyncResourceNode_from_finds fuel start asyncId st node st' :
  targets_point_back st →
  getAsyncResourceNode_from fuel start asyncId st = Ret (Some node) st' →
  ∃ n, nodes st !! node = Some n ∧ AsyncResourceNode.asyncId n = asyncId.
Proof.
  intros Hwf. revert start.
  induction fuel as [|fuel IH]; intros start Hrun; simpl in Hrun; [done|].
  unfold_monad Hrun.
  destruct (nodes st !! start) as [n|] eqn:Hn; simpl in *; [|done].
  destruct (decide (AsyncResourceNode.asyncId n = asyncId)).
  { simplify_eq. by exists n. }
  destruct (map_get asyncId (AsyncResourceNode.executionTargets n))
    as [target|] eqn:Hget.
  { simplify_eq. destruct (Hwf start n _ node Hn Hget) as (c & Hc & Hid & _).
    by exists c. }
  destruct (AsyncResourceNode.executionOrigin n) as [origin|]; [|done].
  by apply (IH origin).
Qed.

(** X30: in every state that a run of operations reaches from the start of
    the process, each execution target of a node is stored under its own
    [asyncId] and has that node as its execution origin.  So the node that
    [getAsyncResourceNode] returns for an [asyncId] is an allocated node
    with that [asyncId]. *)
Theorem getAsyncResourceNode_finds_asyncId fuel ops resource asyncId0 st bound asyncId
    node st' :
  run fuel ops (initial resource asyncId0) = Some st →
  getAsyncResourceNode bound asyncId st = Ret (Some node) st' →
  targets_point_back st
  ∧ ∃ n, nodes st !! node = Some n ∧ AsyncResourceNode.asyncId n = asyncId.
Proof.
  intros Hrun Hfound.
  assert (Hwf : targets_point_back st).
  { apply (run_targets _ _ _ _ Hrun). intros origin n k target Hn. done. }
  split; [done|].
  unfold getAsyncResourceNode in Hfound.
  unfold bind at 1, executionNode at 1, gets at 1 in Hfound.
  destruct (fiberRefs st !! executionAsyncResource st) as [start|]; simpl in *; [|done].
  by apply (getAsyncResourceNode_from_finds bound start asyncId st node st').
Qed.

Lemma getAsyncResourceNode_finds_asyncId_witness :
  targets_point_back nested_timers
  ∧ ∃ n, nodes nested_timers !! 0 = Some n ∧ AsyncResourceNode.asyncId n = 1%Z.
Proof.
  apply (getAsyncResourceNode_finds_asyncId 5
           [FiberNew None; FiberEnable 0; HookInit 2 "Timeout" 1 1 None;
            EnterContext 1 2; HookInit 3 "Timeout" 2 2 None; EnterContext 2 3]
           0 1 nested_timers 3 1 0 nested_timers).
  - vm_compute. reflexivity.
  - vm_compute. reflexivity.
Defined.
